(** * Web_nail: cart validation, payment confirmation and order numbers

    A shallow embedding of the storefront's server logic:
    - [routes/cart]      POST /cart/add, POST /cart/validate and
                         POST /cart/verify-payment,
    - [routes/webhooks]  POST /webhooks/razorpay and its event handlers,
    - [middleware/auth]  authenticate, requireAuth, requireAdmin,
    - [models/Product], [models/Order]  the document shapes, the [min: 0]
      validator on variant stock, the save hooks and the virtuals.

    Conventions of the embedding.
    - The document store is a pair of finite maps from document ids to
      documents; [doc.save()] is an insert at the id the document was
      fetched under, after the model's [pre('save')] hooks.
    - JavaScript numbers that hold money are IEEE 754 doubles ([float],
      the binary64 numbers of the kernel, rounded to nearest-even as the
      JavaScript operators round); stock counts and quantities are
      integers ([Z]).
    - Node's [crypto] HMAC, the [isMongoId] validator, Mongoose's cast of
      a request string to an ObjectId, [JSON.parse] and the configured
      secrets are parameters of the handlers (Section variables): the
      theorems hold for every choice of them.
    - Handlers are functions from the request and the store to a response
      and the new store; a handler's [try]/[catch] is a branch of the
      function. *)

From Stdlib Require Import ZArith String Ascii List Lia PrimFloat.
From stdpp Require Import base gmap strings list fin_maps pretty.

Set Warnings "-inexact-float".

Local Open Scope Z_scope.

(** ** JavaScript primitives used by the handlers *)

(** 2^52: from there on every double is an integer. *)
Definition two52 : float := 4503599627370496%float.

(** [Math.floor] on a double in the range 0 <= x < 2^52.  Adding 2^52
    rounds [x] to an integer (to nearest, ties to even); one is taken
    back when that went up. *)
Definition floor_nonneg (x : float) : float :=
  let n := (x + two52 - two52)%float in
  if (x <? n)%float then (n - 1)%float else n.

(** [Math.round]: NaN, the infinities and the integers are returned as
    they are; otherwise the nearest integer, a half going towards
    +infinity.  Negative numbers down to -0.5, and -0, give -0. *)
Definition Math_round (x : float) : float :=
  if is_nan x then x
  else if (two52 <=? abs x)%float then x
  else if ((0 <? x) || (PrimFloat.eqb x 0 && (0 <? 1 / x)))%float then
    let f := floor_nonneg x in
    if (0.5 <=? x - f)%float then (f + 1)%float else f
  else
    let y := (- x)%float in
    let f := floor_nonneg y in
    (- (if (0.5 <? y - f)%float then (f + 1)%float else f))%float.

(** [Math.round(x * 100) / 100], the idiom of the cart totals. *)
Definition round2 (x : float) : float := (Math_round (x * 100) / 100)%float.

(** An integer as a JavaScript number; exact below 2^53. *)
Fixpoint Number_of_pos (p : positive) : float :=
  match p with
  | xH => 1%float
  | xO p => (2 * Number_of_pos p)%float
  | xI p => (2 * Number_of_pos p + 1)%float
  end.

Definition Number_of_Z (z : Z) : float :=
  match z with
  | Z0 => 0%float
  | Zpos p => Number_of_pos p
  | Zneg p => (- Number_of_pos p)%float
  end.

(** ** Data model *)

(** [variantSchema]: size, design and a stock count ([min: 0]). *)
Module Variant.
Record t := mk { size : string; design : string; stock : Z }.
End Variant.

Module Image.
Record t := mk { url : string; isPrimary : bool }.
End Image.

(** [productSchema], restricted to the fields the handlers read. *)
Module Product.
Record t := mk {
  title : string;
  price : float;
  active : bool;
  images : list Image.t;
  variants : list Variant.t
}.
End Product.

(** An item of the cart as the client posts it.  The client keeps in local
    storage the object returned by POST /cart/add, so besides the fields
    the server reads ([productId], [variant], [quantity]) each item carries
    a title, a price, an image and a maximum quantity of the client's.
    [variant] is the object [{ size, design }]; no validator of the route
    requires it, so it may be absent. *)
Module CartItem.
Record t := mk {
  productId : string;
  variant : option (string * string);
  quantity : Z;
  title : option string;
  price : option float;
  image : option string;
  maxQuantity : option Z
}.
(** [item.variant.size] and [item.variant.design] of an item that has its
    variant. *)
Definition size (item : t) : string := from_option fst "" (variant item).
Definition design (item : t) : string := from_option snd "" (variant item).
End CartItem.

(** [orderItemSchema]; also the shape of a validated cart item. *)
Module OrderItem.
Record t := mk {
  product : string;
  title : string;
  price : float;
  quantity : Z;
  size : string;
  design : string;
  image : option string
}.
End OrderItem.

Inductive PaymentStatus :=
  | PayPending | PayPaid | PayFailed | PayRefunded | PayCompleted.

Inductive OrderStatus :=
  | Pending | Confirmed | Processing | Shipped | Delivered | Cancelled
  | Refunded.

(** [paymentInfoSchema]. *)
Module PaymentInfo.
Record t := mk {
  status : PaymentStatus;
  amount : float;
  razorpayOrderId : option string;
  razorpayPaymentId : option string;
  paidAt : option Z
}.
End PaymentInfo.

(** [orderSchema], restricted to the fields the handlers read or write. *)
Module Order.
Record t := mk {
  orderNumber : option string;
  user : string;
  items : list OrderItem.t;
  subtotal : float;
  tax : float;
  shipping : float;
  discount : float;
  total : float;
  status : OrderStatus;
  paymentInfo : PaymentInfo.t;
  createdAt : Z
}.
End Order.

(** The document store. *)
Record Db := mkDb {
  orders : gmap string Order.t;
  products : gmap string Product.t
}.

(** ** Responses *)

(** The body of POST /cart/validate on success. *)
Module Cart.
Record t := mk {
  items : list OrderItem.t;
  subtotal : float;
  tax : float;
  shipping : float;
  total : float
}.
End Cart.

(** One entry of [errors.array()]: the message of the failed chain and,
    for the wildcard chains, the index of the item. *)
Inductive FieldError :=
  | CartCannotBeEmpty
  | InvalidProductID (index : nat)
  | InvalidQuantity (index : nat)
  | PaymentIDRequired
  | OrderIDRequired
  | SignatureRequired
  | InvalidOrderID.

(** The [message] of a JSON reply; template literals keep their holes. *)
Inductive Message :=
  | ProductNoLongerAvailable (productId : string)
  | VariantNoLongerAvailable (title : string)
  | OnlyItemsAvailable (stock : Z) (title size design : string)
  | PaymentVerificationFailed
  | OrderNotFound
  | Unauthorized
  | AuthenticationRequired
  | ServerError.

Inductive Body :=
  | ValidationFailed (errors : list FieldError)
  | Msg (m : Message)
  | CartBody (c : Cart.t)
  | PaymentVerified (orderId : string)
  | RedirectTo (location : string)
  | Text (s : string)
  | StatusOk
  | WebhookProcessingFailed.

Record Response := mkResponse { code : Z; body : Body }.

(** ** Product lookups shared by the routes *)

(** [product.variants.find(v => v.size === size && v.design === design)] *)
Definition matches (size design : string) (v : Variant.t) : bool :=
  String.eqb (Variant.size v) size && String.eqb (Variant.design v) design.

Definition find_variant (p : Product.t) (size design : string)
  : option Variant.t :=
  List.find (matches size design) (Product.variants p).

(** [product.images.find(img => img.isPrimary)?.url || product.images[0]?.url];
    an empty url is falsy, so [||] falls through to the first image. *)
Definition image_url (p : Product.t) : option string :=
  let first := Image.url <$> head (Product.images p) in
  match List.find Image.isPrimary (Product.images p) with
  | Some img => if String.eqb (Image.url img) "" then first
                else Some (Image.url img)
  | None => first
  end.

(** ** [productSchema.pre('save')]: the primary image *)

(** The hook on [this.images]: when there are images and none is primary,
    the first becomes the primary one. *)
Definition ensure_primary (images : list Image.t) : list Image.t :=
  match images with
  | [] => []
  | first :: rest =>
      if existsb Image.isPrimary images then images
      else Image.mk (Image.url first) true :: rest
  end.

Definition with_images (p : Product.t) (images : list Image.t)
  : Product.t :=
  {| Product.title := Product.title p;
     Product.price := Product.price p;
     Product.active := Product.active p;
     Product.images := images;
     Product.variants := Product.variants p |}.

(** ** Routes *)

(** An expression that may throw: its value, or the exception. *)
Inductive Try (A : Type) :=
  | Throw
  | Return (a : A).
Arguments Throw {A}.
Arguments Return {A} a.

Section Routes.

(** express-validator's [isMongoId]. *)
Variable isMongoId : string -> bool.

(** Mongoose's cast of a string to an ObjectId: [None] when it throws a
    CastError, otherwise the id in the form documents are stored under
    (the cast reads hexadecimal digits in either case). *)
Variable castObjectId : string -> option string.

(** [Model.findById(id)] on a request string: the cast throws, or the
    result is the document with its [_id], or [null]. *)
Definition findById {A : Type} (store : gmap string A) (id : string)
  : Try (option (string * A)) :=
  match castObjectId id with
  | None => Throw
  | Some _id => Return (pair _id <$> store !! _id)
  end.

(** [crypto.createHmac('sha256', key).update(data).digest('hex')]. *)
Variable hmac_sha256_hex : string -> string -> string.

(** [config.razorpay.keySecret] and [config.razorpay.webhookSecret]. *)
Variables keySecret webhookSecret : string.

(** *** POST /cart/validate *)

(** [isInt({ min: 1, max: 10 })] *)
Definition isInt_1_10 (q : Z) : bool := (1 <=? q) && (q <=? 10).

(** The errors of a wildcard chain [body('items.*.field')], in item
    order. *)
Fixpoint wildcard_errors (ok : CartItem.t -> bool)
    (err : nat -> FieldError) (index : nat) (items : list CartItem.t)
  : list FieldError :=
  match items with
  | [] => []
  | item :: rest =>
      (if ok item then [] else [err index])
        ++ wildcard_errors ok err (S index) rest
  end.

(** [validationResult(req).array()] for the three chains of the route. *)
Definition validate_chains (items : list CartItem.t) : list FieldError :=
  (match items with [] => [CartCannotBeEmpty] | _ => [] end)
    ++ wildcard_errors (fun i => isMongoId (CartItem.productId i))
         InvalidProductID 0%nat items
    ++ wildcard_errors (fun i => isInt_1_10 (CartItem.quantity i))
         InvalidQuantity 0%nat items.

(** The object pushed on [validatedItems]. *)
Definition validatedItem (_id : string) (item : CartItem.t)
    (product : Product.t) (variant : Variant.t) : OrderItem.t :=
  {| OrderItem.product := _id;
     OrderItem.title := Product.title product;
     OrderItem.price := Product.price product;
     OrderItem.quantity := CartItem.quantity item;
     OrderItem.size := Variant.size variant;
     OrderItem.design := Variant.design variant;
     OrderItem.image := image_url product |}.

(** [product.variants.find(v => v.size === item.variant.size &&
    v.design === item.variant.design)]: on an item without [variant] the
    callback throws a TypeError at the first variant it is given; on a
    product without variants it is never called. *)
Definition find_item_variant (product : Product.t)
    (variant : option (string * string)) : Try (option Variant.t) :=
  match variant with
  | Some (size, design) => Return (find_variant product size design)
  | None =>
      match Product.variants product with
      | [] => Return None
      | _ :: _ => Throw
      end
  end.

(** How the [for (const item of items)] loop ends: at its end, by an
    early [return res.status(400)] with a message, or by an exception. *)
Inductive Validation :=
  | Accepted (validatedItems : list OrderItem.t) (subtotal : float)
  | Rejected (m : Message)
  | Thrown.

(** The loop, with its two accumulators. *)
Fixpoint validate_items (products : gmap string Product.t)
    (items : list CartItem.t) (validatedItems : list OrderItem.t)
    (subtotal : float) : Validation :=
  match items with
  | [] => Accepted validatedItems subtotal
  | item :: rest =>
      match findById products (CartItem.productId item) with
      | Throw => Thrown
      | Return None =>
          Rejected (ProductNoLongerAvailable (CartItem.productId item))
      | Return (Some (_id, product)) =>
          if negb (Product.active product)
          then Rejected (ProductNoLongerAvailable (CartItem.productId item))
          else
            match find_item_variant product (CartItem.variant item) with
            | Throw => Thrown
            | Return None =>
                Rejected (VariantNoLongerAvailable (Product.title product))
            | Return (Some variant) =>
                if Variant.stock variant <? CartItem.quantity item
                then Rejected (OnlyItemsAvailable (Variant.stock variant)
                                 (Product.title product)
                                 (Variant.size variant)
                                 (Variant.design variant))
                else
                  validate_items products rest
                    (validatedItems
                       ++ [validatedItem _id item product variant])
                    (subtotal + Product.price product
                                * Number_of_Z (CartItem.quantity item))%float
            end
      end
  end.

(** The totals of the reply, from the accumulated subtotal. *)
Definition cart_totals (validatedItems : list OrderItem.t)
    (subtotal : float) : Cart.t :=
  let tax := (subtotal * 0.08)%float in
  let shipping := if (50 <=? subtotal)%float then 0%float else 9.99%float in
  let total := (subtotal + tax + shipping)%float in
  {| Cart.items := validatedItems;
     Cart.subtotal := round2 subtotal;
     Cart.tax := round2 tax;
     Cart.shipping := round2 shipping;
     Cart.total := round2 total |}.

(** The handler.  It only reads the store; an exception of the loop is
    caught and answered 500. *)
Definition post_validate (products : gmap string Product.t)
    (items : list CartItem.t) : Response :=
  match validate_chains items with
  | (_ :: _) as errors => mkResponse 400 (ValidationFailed errors)
  | [] =>
      match validate_items products items [] 0%float with
      | Rejected m => mkResponse 400 (Msg m)
      | Thrown => mkResponse 500 (Msg ServerError)
      | Accepted validatedItems subtotal =>
          mkResponse 200 (CartBody (cart_totals validatedItems subtotal))
      end
  end.

(** *** Stock updates on confirmation *)

(** [variant.stock = n] on the variant that [find] returned: the first
    matching one of the list. *)
Fixpoint set_stock (size design : string) (n : Z) (vs : list Variant.t)
  : list Variant.t :=
  match vs with
  | [] => []
  | v :: rest =>
      if matches size design v
      then Variant.mk (Variant.size v) (Variant.design v) n :: rest
      else v :: set_stock size design n rest
  end.

Definition with_variants (p : Product.t) (vs : list Variant.t)
  : Product.t :=
  {| Product.title := Product.title p;
     Product.price := Product.price p;
     Product.active := Product.active p;
     Product.images := Product.images p;
     Product.variants := vs |}.

(** [variant.stock = n; await product.save()] for the product fetched
    under [id].  Stored documents passed validation when they were
    written, so of the schema's validators only [min: 0] on the stock
    just assigned can fail; [None] is the rejected save.  An accepted
    save runs the [pre('save')] hooks: the title is not modified, so the
    slug hook does nothing, and the image hook makes sure of a primary
    image. *)
Definition save_stock (products : gmap string Product.t) (id : string)
    (product : Product.t) (size design : string) (n : Z)
  : option (gmap string Product.t) :=
  if n <? 0 then None
  else
    let updated :=
      with_variants product
        (set_stock size design n (Product.variants product)) in
    Some (<[id := with_images updated
                    (ensure_primary (Product.images updated))]>
            products).

(** How a loop over the order's items ended: normally, or by an
    exception of [save()]; either way with the store it left. *)
Inductive Outcome :=
  | Done (products : gmap string Product.t)
  | Threw (products : gmap string Product.t).

Definition store_of (o : Outcome) : gmap string Product.t :=
  match o with Done p => p | Threw p => p end.

(** *** POST /cart/verify-payment *)

Record VerifyRequest := mkVerifyRequest {
  (** [req.user._id], when the session resolved to a user *)
  req_user : option string;
  (** [req.xhr || req.headers.accept?.includes('application/json')] *)
  wants_json : bool;
  razorpay_payment_id : string;
  razorpay_order_id : string;
  razorpay_signature : string;
  orderId : string
}.

(** [requireAuth]: [None] when it calls [next()]. *)
Definition requireAuth (user : option string) (wants_json : bool)
  : option Response :=
  match user with
  | Some _ => None
  | None =>
      Some (if wants_json
            then mkResponse 401 (Msg AuthenticationRequired)
            else mkResponse 302 (RedirectTo "/auth/login"))
  end.

Definition notEmpty (s : string) : bool := negb (String.eqb s "").

Definition verify_chains (req : VerifyRequest) : list FieldError :=
  (if notEmpty (razorpay_payment_id req) then [] else [PaymentIDRequired])
    ++ (if notEmpty (razorpay_order_id req) then [] else [OrderIDRequired])
    ++ (if notEmpty (razorpay_signature req) then []
        else [SignatureRequired])
    ++ (if isMongoId (orderId req) then [] else [InvalidOrderID]).

(** The stock loop of the route: no guard on the stock. *)
Fixpoint verify_items (items : list OrderItem.t)
    (products : gmap string Product.t) : Outcome :=
  match items with
  | [] => Done products
  | item :: rest =>
      match products !! OrderItem.product item with
      | Some product =>
          match find_variant product (OrderItem.size item)
                  (OrderItem.design item) with
          | Some variant =>
              match save_stock products (OrderItem.product item) product
                      (OrderItem.size item) (OrderItem.design item)
                      (Variant.stock variant - OrderItem.quantity item) with
              | Some products' => verify_items rest products'
              | None => Threw products
              end
          | None => verify_items rest products
          end
      | None => verify_items rest products
      end
  end.

Definition with_payment (o : Order.t) (status : OrderStatus)
    (info : PaymentInfo.t) : Order.t :=
  {| Order.orderNumber := Order.orderNumber o;
     Order.user := Order.user o;
     Order.items := Order.items o;
     Order.subtotal := Order.subtotal o;
     Order.tax := Order.tax o;
     Order.shipping := Order.shipping o;
     Order.discount := Order.discount o;
     Order.total := Order.total o;
     Order.status := status;
     Order.paymentInfo := info;
     Order.createdAt := Order.createdAt o |}.

(** The order as the route saves it. *)
Definition verified (o : Order.t) (payment_id : string) : Order.t :=
  let info := Order.paymentInfo o in
  with_payment o Confirmed
    {| PaymentInfo.status := PayCompleted;
       PaymentInfo.amount := PaymentInfo.amount info;
       PaymentInfo.razorpayOrderId := PaymentInfo.razorpayOrderId info;
       PaymentInfo.razorpayPaymentId := Some payment_id;
       PaymentInfo.paidAt := PaymentInfo.paidAt info |}.

Definition verify_payment (req : VerifyRequest) (db : Db)
  : Response * Db :=
  match requireAuth (req_user req) (wants_json req) with
  | Some denied => (denied, db)
  | None =>
      match verify_chains req with
      | (_ :: _) as errors => (mkResponse 400 (ValidationFailed errors), db)
      | [] =>
          let body := (razorpay_order_id req ++ "|"
                         ++ razorpay_payment_id req)%string in
          let expectedSignature := hmac_sha256_hex keySecret body in
          if negb (String.eqb expectedSignature (razorpay_signature req))
          then (mkResponse 400 (Msg PaymentVerificationFailed), db)
          else
            match orders db !! orderId req with
            | None => (mkResponse 404 (Msg OrderNotFound), db)
            | Some order =>
                if negb (bool_decide (Some (Order.user order) = req_user req))
                then (mkResponse 403 (Msg Unauthorized), db)
                else
                  let orders' :=
                    <[orderId req :=
                        verified order (razorpay_payment_id req)]>
                      (orders db) in
                  match verify_items (Order.items order) (products db) with
                  | Done products' =>
                      (mkResponse 200 (PaymentVerified (orderId req)),
                       mkDb orders' products')
                  | Threw products' =>
                      (mkResponse 500 (Msg ServerError),
                       mkDb orders' products')
                  end
            end
      end
  end.

(** *** POST /webhooks/razorpay *)

(** The payment entity of an event: [payment.id] and
    [payment.notes?.orderId]. *)
Record PaymentEntity := mkPaymentEntity {
  payment_id : option string;
  notes_orderId : option string
}.

(** What the [switch] sees of the parsed body. *)
Inductive Event :=
  | PaymentCaptured (payment : PaymentEntity)
  | PaymentFailed (payment : PaymentEntity)
  | OrderPaid (razorpayOrder_id : string)
  | Unhandled (event : string).

(** [JSON.parse(body)] with the reads of [event.event] and of
    [event.payload.*.entity]; [None] when one of them throws.  An entity
    without [notes] or without [id] has [None] in that field. *)
Variable parse_event : string -> option Event.

(** The stock loop of [handlePaymentCaptured]: the stock is decremented
    only when it covers the quantity.  An exception of [save()] would
    leave the loop for the handler's own [catch], which logs it. *)
Fixpoint capture_items (items : list OrderItem.t)
    (products : gmap string Product.t) : Outcome :=
  match items with
  | [] => Done products
  | item :: rest =>
      match products !! OrderItem.product item with
      | Some product =>
          match find_variant product (OrderItem.size item)
                  (OrderItem.design item) with
          | Some variant =>
              if OrderItem.quantity item <=? Variant.stock variant
              then
                match save_stock products (OrderItem.product item) product
                        (OrderItem.size item) (OrderItem.design item)
                        (Variant.stock variant - OrderItem.quantity item) with
                | Some products' => capture_items rest products'
                | None => Threw products
                end
              else capture_items rest products
          | None => capture_items rest products
          end
      | None => capture_items rest products
      end
  end.

(** The order as [handlePaymentCaptured] saves it; [now] is [new Date()]. *)
Definition captured (o : Order.t) (payment : PaymentEntity) (now : Z)
  : Order.t :=
  let info := Order.paymentInfo o in
  with_payment o Confirmed
    {| PaymentInfo.status := PayPaid;
       PaymentInfo.amount := PaymentInfo.amount info;
       PaymentInfo.razorpayOrderId := PaymentInfo.razorpayOrderId info;
       PaymentInfo.razorpayPaymentId := payment_id payment;
       PaymentInfo.paidAt := Some now |}.

(** [!orderId]: absent or the empty string. *)
Definition truthy_id (o : option string) : option string :=
  match o with
  | Some s => if String.eqb s "" then None else Some s
  | None => None
  end.

Definition handlePaymentCaptured (now : Z) (payment : PaymentEntity)
    (db : Db) : Db :=
  match truthy_id (notes_orderId payment) with
  | None => db
  | Some orderId =>
      match orders db !! orderId with
      | None => db
      | Some order =>
          mkDb (<[orderId := captured order payment now]> (orders db))
               (store_of (capture_items (Order.items order) (products db)))
      end
  end.

(** The order as [handlePaymentFailed] saves it. *)
Definition failed (o : Order.t) : Order.t :=
  let info := Order.paymentInfo o in
  with_payment o Cancelled
    {| PaymentInfo.status := PayFailed;
       PaymentInfo.amount := PaymentInfo.amount info;
       PaymentInfo.razorpayOrderId := PaymentInfo.razorpayOrderId info;
       PaymentInfo.razorpayPaymentId := PaymentInfo.razorpayPaymentId info;
       PaymentInfo.paidAt := PaymentInfo.paidAt info |}.

Definition handlePaymentFailed (payment : PaymentEntity) (db : Db) : Db :=
  match truthy_id (notes_orderId payment) with
  | None => db
  | Some orderId =>
      match orders db !! orderId with
      | None => db
      | Some order => mkDb (<[orderId := failed order]> (orders db))
                           (products db)
      end
  end.

(** The order as [handleOrderPaid] saves it. *)
Definition paid (o : Order.t) (now : Z) : Order.t :=
  let info := Order.paymentInfo o in
  with_payment o Confirmed
    {| PaymentInfo.status := PayPaid;
       PaymentInfo.amount := PaymentInfo.amount info;
       PaymentInfo.razorpayOrderId := PaymentInfo.razorpayOrderId info;
       PaymentInfo.razorpayPaymentId := PaymentInfo.razorpayPaymentId info;
       PaymentInfo.paidAt := Some now |}.

(** [Order.findOne({ 'paymentInfo.razorpayOrderId': id })]: the first
    match in the store's order. *)
Definition findOne_razorpayOrderId (id : string)
    (orders : gmap string Order.t) : option (string * Order.t) :=
  List.find
    (fun kv => bool_decide
       (PaymentInfo.razorpayOrderId (Order.paymentInfo (snd kv)) = Some id))
    (map_to_list orders).

Definition handleOrderPaid (now : Z) (razorpayOrder_id : string) (db : Db)
  : Db :=
  match findOne_razorpayOrderId razorpayOrder_id (orders db) with
  | None => db
  | Some (key, order) =>
      mkDb (<[key := paid order now]> (orders db)) (products db)
  end.

(** [express.raw({ type: 'application/json' })] followed by
    [req.body.toString()].  The middleware buffers the body of a request
    that has one and whose Content-Type is application/json, and
    [toString] gives its text; it leaves every other request with the
    empty object for a body, whose [toString] is the text below. *)
Definition req_body_toString (buffered : bool) (raw : string) : string :=
  if buffered then raw else "[object Object]".

(** The route: [signature] is [req.headers['x-razorpay-signature']],
    [raw] the text of the request body and [buffered] tells whether
    [express.raw] read it. *)
Definition webhook_razorpay (now : Z) (signature : option string)
    (buffered : bool) (raw : string) (db : Db) : Response * Db :=
  let body := req_body_toString buffered raw in
  let expectedSignature := hmac_sha256_hex webhookSecret body in
  if negb (bool_decide (signature = Some expectedSignature))
  then (mkResponse 400 (Text "Webhook signature verification failed"), db)
  else
    match parse_event body with
    | None => (mkResponse 500 WebhookProcessingFailed, db)
    | Some (PaymentCaptured payment) =>
        (mkResponse 200 StatusOk, handlePaymentCaptured now payment db)
    | Some (PaymentFailed payment) =>
        (mkResponse 200 StatusOk, handlePaymentFailed payment db)
    | Some (OrderPaid id) =>
        (mkResponse 200 StatusOk, handleOrderPaid now id db)
    | Some (Unhandled _) => (mkResponse 200 StatusOk, db)
    end.

End Routes.

(** ** Order numbers: [orderSchema.pre('save')] *)

(** [s.slice(-k)]: the last [k] characters, or all of [s] when shorter. *)
Definition slice_last (k : nat) (s : string) : string :=
  substring (String.length s - k) k s.

(** [s.padStart(target, pad)] for a one-character pad. *)
Definition padStart (target : nat) (pad : ascii) (s : string) : string :=
  (string_of_list_ascii (repeat pad (target - String.length s)) ++ s)%string.

(** An integral JavaScript number or [NaN] ([None]). *)
Definition Number_toString (n : option Z) : string :=
  match n with
  | Some z => pretty z
  | None => "NaN"
  end.

(** [parseInt(s)] on ASCII input: white space is skipped, a sign read, a
    [0x] prefix switches to radix 16, and the longest prefix of digits is
    converted; [None] ([NaN]) when there is no digit. *)
Definition is_white (c : ascii) : bool :=
  let n := nat_of_ascii c in
  ((9 <=? n) && (n <=? 13) || (n =? 32))%nat.

Fixpoint trim_start (s : string) : string :=
  match s with
  | String c rest => if is_white c then trim_start rest else s
  | EmptyString => EmptyString
  end.

Definition digit_value (c : ascii) : option Z :=
  let n := Z.of_nat (nat_of_ascii c) in
  if (48 <=? n) && (n <=? 57) then Some (n - 48)
  else if (97 <=? n) && (n <=? 122) then Some (n - 87)
  else if (65 <=? n) && (n <=? 90) then Some (n - 55)
  else None.

Fixpoint parse_digits (radix : Z) (s : string) (acc : option Z)
  : option Z :=
  match s with
  | String c rest =>
      match digit_value c with
      | Some d =>
          if d <? radix
          then parse_digits radix rest (Some (radix * default 0 acc + d))
          else acc
      | None => acc
      end
  | EmptyString => acc
  end.

Definition parseInt (s : string) : option Z :=
  let s1 := trim_start s in
  let '(sign, s2) :=
    match s1 with
    | String "-" rest => (-1, rest)
    | String "+" rest => (1, rest)
    | _ => (1, s1)
    end in
  let '(radix, s3) :=
    match s2 with
    | String "0" (String "x" rest) => (16, rest)
    | String "0" (String "X" rest) => (16, rest)
    | _ => (10, s2)
    end in
  Z.mul sign <$> parse_digits radix s3 None.

(** One reading of the clock: the local calendar fields of [new Date()],
    local midnight ([today]) and the midnight after ([tomorrow]), as
    timestamps. *)
Record Clock := mkClock {
  getFullYear : Z;
  getMonth : Z;
  getDate : Z;
  today : Z;
  tomorrow : Z
}.

(** The most recent of a list of orders; the first of them on a tie. *)
Fixpoint most_recent (os : list Order.t) : option Order.t :=
  match os with
  | [] => None
  | o :: rest =>
      match most_recent rest with
      | Some o' => if Order.createdAt o <? Order.createdAt o'
                   then Some o' else Some o
      | None => Some o
      end
  end.

(** [findOne({ createdAt: { $gte: today, $lt: tomorrow } })
      .sort({ createdAt: -1 })] *)
Definition lastOrder_of (clock : Clock) (orders : gmap string Order.t)
  : option Order.t :=
  most_recent
    (List.filter
       (fun o => (today clock <=? Order.createdAt o)
                 && (Order.createdAt o <? tomorrow clock))
       (snd <$> map_to_list orders)).

(** A string is truthy when present and not empty. *)
Definition truthy (o : option string) : bool :=
  match o with
  | Some s => negb (String.eqb s "")
  | None => false
  end.

(** [let sequence = 1; if (lastOrder && lastOrder.orderNumber) ...] *)
Definition next_sequence (lastOrder : option Order.t) : option Z :=
  match lastOrder with
  | Some o =>
      match Order.orderNumber o with
      | Some n =>
          if truthy (Some n)
          then (fun lastSequence => lastSequence + 1)
                 <$> parseInt (slice_last 3 n)
          else Some 1
      | None => Some 1
      end
  | None => Some 1
  end.

Definition generate_orderNumber (clock : Clock)
    (orders : gmap string Order.t) : string :=
  let year := slice_last 2 (pretty (getFullYear clock)) in
  let month := padStart 2 "0" (pretty (getMonth clock + 1)) in
  let day := padStart 2 "0" (pretty (getDate clock)) in
  let sequence := next_sequence (lastOrder_of clock orders) in
  ("ORD" ++ year ++ month ++ day
     ++ padStart 3 "0" (Number_toString sequence))%string.

Definition with_orderNumber (o : Order.t) (n : string) : Order.t :=
  {| Order.orderNumber := Some n;
     Order.user := Order.user o;
     Order.items := Order.items o;
     Order.subtotal := Order.subtotal o;
     Order.tax := Order.tax o;
     Order.shipping := Order.shipping o;
     Order.discount := Order.discount o;
     Order.total := Order.total o;
     Order.status := Order.status o;
     Order.paymentInfo := Order.paymentInfo o;
     Order.createdAt := Order.createdAt o |}.

(** The hook, run on the document about to be saved. *)
Definition pre_save (isNew : bool) (clock : Clock)
    (orders : gmap string Order.t) (doc : Order.t) : Order.t :=
  if isNew && negb (truthy (Order.orderNumber doc))
  then with_orderNumber doc (generate_orderNumber clock orders)
  else doc.

(** ** Vocabulary of the statements *)

(** Stored price times requested quantity, for one item of the cart. *)
Definition line_total (castObjectId : string -> option string)
    (products : gmap string Product.t) (item : CartItem.t) : float :=
  match findById castObjectId products (CartItem.productId item) with
  | Return (Some (_, p)) =>
      (Product.price p * Number_of_Z (CartItem.quantity item))%float
  | _ => 0%float
  end.

(** The subtotal of a cart at the stored prices, before any rounding:
    the line totals added one by one, from 0, in the order of the items,
    each addition rounded as doubles are. *)
Definition cart_subtotal (castObjectId : string -> option string)
    (products : gmap string Product.t) (items : list CartItem.t) : float :=
  fold_left
    (fun subtotal item =>
       (subtotal + line_total castObjectId products item)%float)
    items 0%float.

(** What the loop of POST /cart/validate makes of one item: it passes;
    or it is refused on one of three grounds (product missing or
    inactive, variant missing, quantity above the variant's stock); or
    reading it fails with an exception (the product id cannot be cast to
    an ObjectId, or the item has no variant to compare with the
    product's). *)
Inductive Verdict := Passes | Refused | Fails.

Definition verdict (castObjectId : string -> option string)
    (products : gmap string Product.t) (item : CartItem.t) : Verdict :=
  match findById castObjectId products (CartItem.productId item) with
  | Throw => Fails
  | Return None => Refused
  | Return (Some (_, p)) =>
      if negb (Product.active p) then Refused
      else
        match find_item_variant p (CartItem.variant item) with
        | Throw => Fails
        | Return None => Refused
        | Return (Some v) =>
            if Variant.stock v <? CartItem.quantity item then Refused
            else Passes
        end
  end.

(** The verdict on the first item of a cart that does not pass; [Passes]
    when they all do. *)
Fixpoint first_verdict (castObjectId : string -> option string)
    (products : gmap string Product.t) (items : list CartItem.t)
  : Verdict :=
  match items with
  | [] => Passes
  | item :: rest =>
      match verdict castObjectId products item with
      | Passes => first_verdict castObjectId products rest
      | stop => stop
      end
  end.

(** [v] is the cart item [item] priced from the store: the id is that of
    a stored product, title, price and image are that product's, and the
    variant is a stored one with the size and design of the item. *)
Definition priced_from (castObjectId : string -> option string)
    (products : gmap string Product.t)
    (item : CartItem.t) (v : OrderItem.t) : Prop :=
  exists _id p var,
    castObjectId (CartItem.productId item) = Some _id
    /\ products !! _id = Some p
    /\ is_Some (CartItem.variant item)
    /\ find_variant p (CartItem.size item) (CartItem.design item) = Some var
    /\ v = {| OrderItem.product := _id;
              OrderItem.title := Product.title p;
              OrderItem.price := Product.price p;
              OrderItem.quantity := CartItem.quantity item;
              OrderItem.size := Variant.size var;
              OrderItem.design := Variant.design var;
              OrderItem.image := image_url p |}.

(** A cart item with the client's price removed. *)
Definition without_price (item : CartItem.t) : CartItem.t :=
  {| CartItem.productId := CartItem.productId item;
     CartItem.variant := CartItem.variant item;
     CartItem.quantity := CartItem.quantity item;
     CartItem.title := CartItem.title item;
     CartItem.price := None;
     CartItem.image := CartItem.image item;
     CartItem.maxQuantity := CartItem.maxQuantity item |}.

(** A variant of the catalogue: product id, size and design. *)
Definition VariantKey : Type := string * string * string.

Definition key_of (item : OrderItem.t) : VariantKey :=
  (OrderItem.product item, OrderItem.size item, OrderItem.design item).

(** The stock of the variant that [find] returns for a key, if any. *)
Definition stock_at (products : gmap string Product.t) (k : VariantKey)
  : option Z :=
  match products !! k.1.1 with
  | Some p => Variant.stock <$> find_variant p k.1.2 k.2
  | None => None
  end.

(** The quantity an order asks of a variant, over all its items. *)
Fixpoint ordered_qty (items : list OrderItem.t) (k : VariantKey) : Z :=
  match items with
  | [] => 0
  | item :: rest =>
      (if bool_decide (key_of item = k) then OrderItem.quantity item else 0)
      + ordered_qty rest k
  end.

(** Every variant the items refer to exists and holds at least the
    quantity ordered of it. *)
Definition covers (products : gmap string Product.t)
    (items : list OrderItem.t) : Prop :=
  forall item,
    In item items ->
    exists s,
      stock_at products (key_of item) = Some s
      /\ ordered_qty items (key_of item) <= s.

(** [orderItemSchema]: [quantity] has [min: 1]. *)
Definition quantities_positive (items : list OrderItem.t) : Prop :=
  forall item, In item items -> 1 <= OrderItem.quantity item.

(** [variantSchema]: [stock] has [min: 0]. *)
Definition stock_nonneg (products : gmap string Product.t) : Prop :=
  forall id p v,
    products !! id = Some p -> In v (Product.variants p) ->
    0 <= Variant.stock v.

(** One delivery of the gateway to POST /webhooks/razorpay: the time of
    processing, the signature header and the raw body.  The gateway posts
    its events as application/json, so [express.raw] buffers the body. *)
Record Delivery := mkDelivery {
  received_at : Z;
  signature_header : option string;
  raw_body : string
}.

(** The store after one delivery, and after a sequence of them. *)
Definition deliver (hmac_sha256_hex : string -> string -> string)
    (webhookSecret : string) (parse_event : string -> option Event)
    (db : Db) (d : Delivery) : Db :=
  snd (webhook_razorpay hmac_sha256_hex webhookSecret parse_event
         (received_at d) (signature_header d) true (raw_body d) db).

Definition deliver_all (hmac_sha256_hex : string -> string -> string)
    (webhookSecret : string) (parse_event : string -> option Event)
    (deliveries : list Delivery) (db : Db) : Db :=
  fold_left (deliver hmac_sha256_hex webhookSecret parse_event) deliveries db.

(** The signature the verification route expects of a request. *)
Definition expected_signature (hmac_sha256_hex : string -> string -> string)
    (keySecret : string) (req : VerifyRequest) : string :=
  hmac_sha256_hex keySecret
    (razorpay_order_id req ++ "|" ++ razorpay_payment_id req)%string.

(** A number in two and in three digits, padded with zeros. *)
Definition digits2 (n : Z) : string := padStart 2 "0" (pretty n).
Definition digits3 (n : Z) : string := padStart 3 "0" (pretty n).

(** ** Sample data *)

(** A validator accepting the 24-digit hexadecimal ids. *)
Definition hex24 (s : string) : bool :=
  (String.length s =? 24)%nat
  && forallb (fun c => match digit_value c with
                       | Some d => d <? 16
                       | None => false
                       end)
       (list_ascii_of_string s).

Definition rose_id : string := "64b7f3a2c9e1d4f5a6b7c8d9".

Definition rose (price : float) (stock : Z) : Product.t :=
  {| Product.title := "Rose Quartz";
     Product.price := price;
     Product.active := true;
     Product.images := [Image.mk "/img/rose.png" true];
     Product.variants := [Variant.mk "M" "plain" stock] |}.

Definition catalog (price : float) (stock : Z) : gmap string Product.t :=
  {[ rose_id := rose price stock ]}.

Definition rose_item (quantity : Z) (price : option float) : CartItem.t :=
  {| CartItem.productId := rose_id;
     CartItem.variant := Some ("M", "plain");
     CartItem.quantity := quantity;
     CartItem.title := Some "Rose Quartz";
     CartItem.price := price;
     CartItem.image := None;
     CartItem.maxQuantity := Some 10 |}.

(** The reply to a cart of one Rose Quartz at 40. *)
Definition rose_cart : Cart.t :=
  cart_totals
    [validatedItem rose_id (rose_item 1 (Some 1%float)) (rose 40 5)
       (Variant.mk "M" "plain" 5)]
    (0 + 40 * Number_of_Z 1)%float.

(** A stand-in for the HMAC in the samples.  The handlers only compare
    its result with the signature they received. *)
Definition sample_hmac (key data : string) : string :=
  ("hmac(" ++ key ++ "," ++ data ++ ")")%string.

Definition order_id : string := "64b7f3a2c9e1d4f5a6b7c8e0".
Definition alice : string := "64b7f3a2c9e1d4f5a6b7c8a1".
Definition bob : string := "64b7f3a2c9e1d4f5a6b7c8b2".

(** Alice's pending order for [quantity] Rose Quartz. *)
Definition rose_order (quantity : Z) : Order.t :=
  {| Order.orderNumber := Some "ORD261102001";
     Order.user := alice;
     Order.items :=
       [ {| OrderItem.product := rose_id;
            OrderItem.title := "Rose Quartz";
            OrderItem.price := 40;
            OrderItem.quantity := quantity;
            OrderItem.size := "M";
            OrderItem.design := "plain";
            OrderItem.image := Some "/img/rose.png" |} ];
     Order.subtotal := (40 * Number_of_Z quantity)%float;
     Order.tax := 0;
     Order.shipping := 0;
     Order.discount := 0;
     Order.total := (40 * Number_of_Z quantity)%float;
     Order.status := Pending;
     Order.paymentInfo :=
       {| PaymentInfo.status := PayPending;
          PaymentInfo.amount := (40 * Number_of_Z quantity)%float;
          PaymentInfo.razorpayOrderId := Some "order_Q1";
          PaymentInfo.razorpayPaymentId := None;
          PaymentInfo.paidAt := None |};
     Order.createdAt := 1793581200000 |}.

(** A store with that order and [stock] Rose Quartz on the shelf. *)
Definition shop (quantity stock : Z) : Db :=
  mkDb {[ order_id := rose_order quantity ]} (catalog 40 stock).

Definition rose_key : VariantKey := (rose_id, "M", "plain").

Definition rose_payment : PaymentEntity :=
  mkPaymentEntity (Some "pay_Q1") (Some order_id).

(** A body standing for the gateway's [payment.captured] event of that
    payment, and a parser that knows it. *)
Definition capture_body : string := "payment.captured pay_Q1".

Definition sample_parse (body : string) : option Event :=
  if String.eqb body capture_body then Some (PaymentCaptured rose_payment)
  else None.

Definition capture_delivery (now : Z) : Delivery :=
  mkDelivery now (Some (sample_hmac "whsec" capture_body)) capture_body.

Definition verify_request (user : option string)
    (payment_id signature : string) : VerifyRequest :=
  {| req_user := user;
     wants_json := true;
     razorpay_payment_id := payment_id;
     razorpay_order_id := "order_Q1";
     razorpay_signature := signature;
     orderId := order_id |}.

(** The clock on 2 November 2026, some time after local midnight. *)
Definition nov2 : Clock :=
  {| getFullYear := 2026;
     getMonth := 10;
     getDate := 2;
     today := 1793577600000;
     tomorrow := 1793664000000 |}.

(** A stored order with a given number and creation time. *)
Definition numbered (number : string) (createdAt : Z) : Order.t :=
  with_orderNumber
    {| Order.orderNumber := None;
       Order.user := alice;
       Order.items := [];
       Order.subtotal := 0;
       Order.tax := 0;
       Order.shipping := 0;
       Order.discount := 0;
       Order.total := 0;
       Order.status := Pending;
       Order.paymentInfo :=
         {| PaymentInfo.status := PayPending;
            PaymentInfo.amount := 0;
            PaymentInfo.razorpayOrderId := None;
            PaymentInfo.razorpayPaymentId := None;
            PaymentInfo.paidAt := None |};
       Order.createdAt := createdAt |}
    number.

(** The day's orders so far: the first of the day and the most recent,
    numbered [last]. *)
Definition day_of (last : string) : gmap string Order.t :=
  {[ "64b7f3a2c9e1d4f5a6b70001" := numbered "ORD261102001" 1793577660000;
     "64b7f3a2c9e1d4f5a6b70999" := numbered last 1793620800000 ]}.

(** A new order, not yet numbered. *)
Definition fresh_order (createdAt : Z) : Order.t :=
  {| Order.orderNumber := None;
     Order.user := bob;
     Order.items := [];
     Order.subtotal := 0;
     Order.tax := 0;
     Order.shipping := 0;
     Order.discount := 0;
     Order.total := 0;
     Order.status := Pending;
     Order.paymentInfo :=
       {| PaymentInfo.status := PayPending;
          PaymentInfo.amount := 0;
          PaymentInfo.razorpayOrderId := None;
          PaymentInfo.razorpayPaymentId := None;
          PaymentInfo.paidAt := None |};
     Order.createdAt := createdAt |}.

(** * The rest of the routes, the middleware and the models *)

(** ** POST /cart/add *)

(** The body of the request: [productId], [size], [design], [quantity]. *)
Record AddRequest := mkAddRequest {
  add_productId : string;
  add_size : string;
  add_design : string;
  add_quantity : Z
}.

(** The entries of [errors.array()] for the four chains of the route. *)
Inductive AddFieldError :=
  | AddInvalidProductID
  | SizeRequired
  | DesignRequired
  | QuantityBetween1And10.

(** The replies of the route: 400 with the field errors, 404 "Product not
    found", 400 "Selected variant not available", 400 "Only n items
    available in stock" with [availableStock], 200 with the item for
    the client's cart, and 500 "Server error" from the [catch]. *)
Inductive AddReply :=
  | AddValidationFailed (errors : list AddFieldError)
  | AddProductNotFound
  | AddVariantNotAvailable
  | AddOnlyAvailable (availableStock : Z)
  | AddedToCart (item : CartItem.t)
  | AddServerError.

Definition add_code (r : AddReply) : Z :=
  match r with
  | AddValidationFailed _ => 400
  | AddProductNotFound => 404
  | AddVariantNotAvailable => 400
  | AddOnlyAvailable _ => 400
  | AddedToCart _ => 200
  | AddServerError => 500
  end.

Definition add_chains (isMongoId : string -> bool) (req : AddRequest)
  : list AddFieldError :=
  (if isMongoId (add_productId req) then [] else [AddInvalidProductID])
    ++ (if notEmpty (add_size req) then [] else [SizeRequired])
    ++ (if notEmpty (add_design req) then [] else [DesignRequired])
    ++ (if isInt_1_10 (add_quantity req) then []
        else [QuantityBetween1And10]).

(** The [cartItem] of the reply, for the product fetched with [_id];
    [Math.min(variant.stock, 10)] caps the quantity the client may later
    ask for. *)
Definition cartItem (_id : string) (req : AddRequest) (product : Product.t)
    (variant : Variant.t) : CartItem.t :=
  {| CartItem.productId := _id;
     CartItem.variant := Some (add_size req, add_design req);
     CartItem.quantity := add_quantity req;
     CartItem.title := Some (Product.title product);
     CartItem.price := Some (Product.price product);
     CartItem.image := image_url product;
     CartItem.maxQuantity := Some (Z.min (Variant.stock variant) 10) |}.

(** The handler.  It only reads the store; an exception of
    [findById] is caught and answered 500. *)
Definition post_add (isMongoId : string -> bool)
    (castObjectId : string -> option string)
    (products : gmap string Product.t) (req : AddRequest) : AddReply :=
  match add_chains isMongoId req with
  | (_ :: _) as errors => AddValidationFailed errors
  | [] =>
      match findById castObjectId products (add_productId req) with
      | Throw => AddServerError
      | Return None => AddProductNotFound
      | Return (Some (_id, product)) =>
          if negb (Product.active product) then AddProductNotFound
          else
            match find_variant product (add_size req) (add_design req) with
            | None => AddVariantNotAvailable
            | Some variant =>
                if Variant.stock variant <? add_quantity req
                then AddOnlyAvailable (Variant.stock variant)
                else AddedToCart (cartItem _id req product variant)
            end
      end
  end.

(** ** [middleware/auth] *)

(** [userSchema], restricted to what the middleware reads. *)
Module User.
Record t := mk { role : string; name : string; email : string }.
End User.

(** [req.user] once resolved: the id the user was fetched under and the
    document. *)
Definition Session : Type := option (string * User.t).

(** [authenticate]: [token] is [req.cookies.token], [verifyToken] gives
    [decoded.userId] for a token it accepts ([None] when it returns a
    falsy value or throws).  The middleware always calls [next()]; the
    result is [req.user]. *)
Definition authenticate (verifyToken : string -> option string)
    (users : gmap string User.t) (token : option string) : Session :=
  match truthy_id token with
  | None => None
  | Some t =>
      match verifyToken t with
      | None => None
      | Some userId =>
          match users !! userId with
          | None => None
          | Some user => Some (userId, user)
          end
      end
  end.

(** What a guard does with a request: it calls [next()] or it answers. *)
Inductive Guard :=
  | Next
  | Json401AuthenticationRequired
  | RedirectLogin
  | Json403AdminAccessRequired
  | Render403AccessDenied.

(** [requireAdmin] *)
Definition requireAdmin (user : Session) (wants_json : bool) : Guard :=
  match user with
  | None => if wants_json then Json401AuthenticationRequired
            else RedirectLogin
  | Some (_, u) =>
      if negb (String.eqb (User.role u) "admin")
      then (if wants_json then Json403AdminAccessRequired
            else Render403AccessDenied)
      else Next
  end.

(** [optionalAuth]: [res.locals] after [authenticate]. *)
Record Locals := mkLocals {
  locals_user : Session;
  isAuthenticated : bool;
  isAdmin : bool
}.

Definition optionalAuth (verifyToken : string -> option string)
    (users : gmap string User.t) (token : option string) : Locals :=
  let user := authenticate verifyToken users token in
  {| locals_user := user;
     isAuthenticated := bool_decide (is_Some user);
     isAdmin := match user with
                | Some (_, u) => String.eqb (User.role u) "admin"
                | None => false
                end |}.

(** ** [models/Product]: virtuals and save hooks *)

(** [totalStock]: [variants.reduce((total, v) => total + v.stock, 0)] *)
Definition totalStock (p : Product.t) : Z :=
  fold_left (fun total variant => total + Variant.stock variant)
    (Product.variants p) 0.

(** [isAvailable] *)
Definition isAvailable (p : Product.t) : bool :=
  Product.active p && (0 <? totalStock p).

(** [toLowerCase] on an ASCII character. *)
Definition toLowerCase (c : ascii) : ascii :=
  let n := nat_of_ascii c in
  if ((65 <=? n) && (n <=? 90))%nat then ascii_of_nat (n + 32) else c.

(** The class [a-z0-9]. *)
Definition is_alnum_lower (c : ascii) : bool :=
  let n := nat_of_ascii c in
  ((97 <=? n) && (n <=? 122) || (48 <=? n) && (n <=? 57))%nat.

Definition is_hyphen (c : ascii) : bool := Ascii.eqb c "-".

(** [.replace(/[^a-z0-9]/g, '-')] *)
Definition hyphenate (l : list ascii) : list ascii :=
  map (fun c => if is_alnum_lower c then c else "-"%char) l.

(** [.replace(/-+/g, '-')]: every run of hyphens becomes one. *)
Fixpoint collapse (l : list ascii) : list ascii :=
  match l with
  | [] => []
  | a :: rest =>
      match rest with
      | b :: _ =>
          if is_hyphen a && is_hyphen b then collapse rest
          else a :: collapse rest
      | [] => [a]
      end
  end.

(** [.replace(/^-|-$/g, '')]: a hyphen at the start is removed, and one
    at the end. *)
Definition strip_start (l : list ascii) : list ascii :=
  match l with
  | c :: rest => if is_hyphen c then rest else l
  | [] => []
  end.

Definition strip_end (l : list ascii) : list ascii :=
  rev (strip_start (rev l)).

(** The slug of an ASCII title. *)
Definition slugify (title : string) : string :=
  string_of_list_ascii
    (strip_end
       (strip_start
          (collapse
             (hyphenate (map toLowerCase (list_ascii_of_string title)))))).

(** The first [pre('save')] hook of the product: [titleModified] is
    [this.isModified('title')], the result is [this.seo.slug]. *)
Definition slug_hook (titleModified : bool) (title : string)
    (slug : option string) : option string :=
  if titleModified && negb (truthy slug) then Some (slugify title)
  else slug.

(** ** [models/Order]: virtuals *)

(** [totalItems]: [items.reduce((total, item) => total + item.quantity, 0)] *)
Definition totalItems (o : Order.t) : Z :=
  fold_left (fun total item => total + OrderItem.quantity item)
    (Order.items o) 0.

(** [statusDisplay] *)
Definition statusDisplay (o : Order.t) : string :=
  match Order.status o with
  | Pending => "Pending Payment"
  | Confirmed => "Order Confirmed"
  | Processing => "Processing"
  | Shipped => "Shipped"
  | Delivered => "Delivered"
  | Cancelled => "Cancelled"
  | Refunded => "Refunded"
  end.

(** [paymentStatusDisplay] *)
Definition paymentStatusDisplay (o : Order.t) : string :=
  match PaymentInfo.status (Order.paymentInfo o) with
  | PayPending => "Payment Pending"
  | PayPaid => "Payment Completed"
  | PayFailed => "Payment Failed"
  | PayRefunded => "Refunded"
  | PayCompleted => "Completed"
  end.

(** ** More vocabulary *)

(** Two versions of an order that differ at most in the status and in the
    payment info: what was ordered, by whom, at what totals, under what
    number and when, is the same. *)
Definition same_contents (o o' : Order.t) : Prop :=
  Order.orderNumber o = Order.orderNumber o'
  /\ Order.user o = Order.user o'
  /\ Order.items o = Order.items o'
  /\ Order.subtotal o = Order.subtotal o'
  /\ Order.tax o = Order.tax o'
  /\ Order.shipping o = Order.shipping o'
  /\ Order.discount o = Order.discount o'
  /\ Order.total o = Order.total o'
  /\ Order.createdAt o = Order.createdAt o'.

(** The same orders under the same ids, each with the same contents. *)
Definition same_orders (before after : gmap string Order.t) : Prop :=
  forall id, option_Forall2 same_contents (before !! id) (after !! id).

(** What an order asks of a product, over all its variants. *)
Fixpoint ordered_of_product (items : list OrderItem.t) (id : string) : Z :=
  match items with
  | [] => 0
  | item :: rest =>
      (if bool_decide (OrderItem.product item = id)
       then OrderItem.quantity item else 0)
      + ordered_of_product rest id
  end.

(** An order created in the day of the clock: since local midnight and
    before the next. *)
Definition in_day (clock : Clock) (o : Order.t) : bool :=
  (today clock <=? Order.createdAt o)
  && (Order.createdAt o <? tomorrow clock).

(** [o] is an order of the store, created in the day of the clock, and
    every other order of that day is older. *)
Definition newest_of_day (clock : Clock) (store : gmap string Order.t)
    (o : Order.t) : Prop :=
  (exists id, store !! id = Some o)
  /\ in_day clock o = true
  /\ forall id' o',
       store !! id' = Some o' -> in_day clock o' = true ->
       o' = o \/ Order.createdAt o' < Order.createdAt o.

(** The date part of an order number: ORD, then year, month and day in
    two digits each. *)
Definition date_prefix (clock : Clock) : string :=
  ("ORD" ++ digits2 (getFullYear clock mod 100)
     ++ digits2 (getMonth clock + 1) ++ digits2 (getDate clock))%string.

(** The shape of a slug, on its characters: lower-case letters, digits
    and hyphens, no two hyphens in a row, no hyphen first or last. *)
Definition slug_shaped (l : list ascii) : Prop :=
  Forall (fun c => is_alnum_lower c = true \/ c = "-"%char) l
  /\ (forall l1 l2, l <> l1 ++ "-"%char :: "-"%char :: l2)
  /\ (forall l2, l <> "-"%char :: l2)
  /\ (forall l1, l <> l1 ++ ["-"%char]).

(** ** More sample data *)

(** A cast for the samples: the 24-digit hexadecimal ids, in lower case;
    every other string is refused. *)
Definition objectId24 (s : string) : option string :=
  if hex24 s
  then Some (string_of_list_ascii
               (map toLowerCase (list_ascii_of_string s)))
  else None.

(** A validator for the samples, after validator.js: a hexadecimal string
    of 24 characters, where a hexadecimal may start with 0x or 0h. *)
Definition is_hex_digit (c : ascii) : bool :=
  match digit_value c with
  | Some d => d <? 16
  | None => false
  end.

Definition isHexadecimal (s : string) : bool :=
  let digits :=
    match list_ascii_of_string s with
    | "0"%char :: ("x"%char :: rest) => rest
    | "0"%char :: ("h"%char :: rest) => rest
    | l => l
    end in
  negb (Nat.eqb (length digits) 0) && forallb is_hex_digit digits.

Definition mongoId24 (s : string) : bool :=
  isHexadecimal s && (String.length s =? 24)%nat.

(** A second product, and a store with both. *)
Definition peony_id : string := "64b7f3a2c9e1d4f5a6b7c8da".

Definition peony (price : float) (stock : Z) : Product.t :=
  {| Product.title := "Peony Pink";
     Product.price := price;
     Product.active := true;
     Product.images := [Image.mk "/img/peony.png" true];
     Product.variants := [Variant.mk "S" "french" stock] |}.

Definition peony_item (quantity : Z) : CartItem.t :=
  {| CartItem.productId := peony_id;
     CartItem.variant := Some ("S", "french");
     CartItem.quantity := quantity;
     CartItem.title := Some "Peony Pink";
     CartItem.price := None;
     CartItem.image := None;
     CartItem.maxQuantity := Some 10 |}.

Definition two_products (rose_price peony_price : float)
  : gmap string Product.t :=
  <[peony_id := peony peony_price 5]> (catalog rose_price 5).

(** An item without its variant, and an item whose id passes the
    validator and cannot be cast. *)
Definition bare_item (quantity : Z) : CartItem.t :=
  {| CartItem.productId := rose_id;
     CartItem.variant := None;
     CartItem.quantity := quantity;
     CartItem.title := None;
     CartItem.price := None;
     CartItem.image := None;
     CartItem.maxQuantity := None |}.

Definition prefixed_id : string := "0x64b7f3a2c9e1d4f5a6b7c8".

Definition prefixed_item (quantity : Z) : CartItem.t :=
  {| CartItem.productId := prefixed_id;
     CartItem.variant := Some ("M", "plain");
     CartItem.quantity := quantity;
     CartItem.title := None;
     CartItem.price := None;
     CartItem.image := None;
     CartItem.maxQuantity := None |}.

(** The item POST /cart/add returns for [quantity] Rose Quartz when the
    shelf holds [stock]. *)
Definition rose_added (quantity stock : Z) : CartItem.t :=
  cartItem rose_id (mkAddRequest rose_id "M" "plain" quantity)
    (rose 40 stock) (Variant.mk "M" "plain" stock).

(** Alice's verification of her payment, correctly signed. *)
Definition alice_request : VerifyRequest :=
  verify_request (Some alice) "pay_Q1" (sample_hmac "key" "order_Q1|pay_Q1").

(** The one item of Alice's order. *)
Definition rose_line (quantity : Z) : OrderItem.t :=
  {| OrderItem.product := rose_id;
     OrderItem.title := "Rose Quartz";
     OrderItem.price := 40;
     OrderItem.quantity := quantity;
     OrderItem.size := "M";
     OrderItem.design := "plain";
     OrderItem.image := Some "/img/rose.png" |}.

(** The clock on the next day, 3 November 2026. *)
Definition nov3 : Clock :=
  {| getFullYear := 2026;
     getMonth := 10;
     getDate := 3;
     today := 1793664000000;
     tomorrow := 1793750400000 |}.

(** * Properties *)

(** ** POST /cart/validate *)

Lemma round2_shipping (subtotal : float) :
  round2 (if (50 <=? subtotal)%float then 0%float else 9.99%float)
  = if (50 <=? subtotal)%float then 0%float else 9.99%float.
Proof. destruct (50 <=? subtotal)%float; vm_compute; reflexivity. Qed.

Section CartValidation.

Variable isMongoId : string -> bool.
Variable castObjectId : string -> option string.
Variable products : gmap string Product.t.

Abbreviation validate := (post_validate isMongoId castObjectId products).
Abbreviation loop := (validate_items castObjectId products).

(** An accepted run of the loop: every item passed, the subtotal grew by
    one line total per item, in order, and one priced item per cart item
    was pushed, in order. *)
Lemma validate_items_accepted items :
  forall acc sub v s,
    loop items acc sub = Accepted v s ->
    Forall (fun i => verdict castObjectId products i = Passes) items
    /\ s = fold_left
             (fun subtotal item =>
                (subtotal + line_total castObjectId products item)%float)
             items sub
    /\ exists v',
         v = acc ++ v'
         /\ Forall2 (priced_from castObjectId products) items v'.
Proof.
  induction items as [|item rest IH]; intros acc sub v s H; simpl in H.
  - injection H as <- <-. split; [constructor|]. split; [reflexivity|].
    exists []. split; [by rewrite app_nil_r | constructor].
  - unfold findById in H.
    destruct (castObjectId (CartItem.productId item)) as [_id|] eqn:Hc;
      [|discriminate].
    destruct (products !! _id) as [p|] eqn:Hp; simpl in H; [|discriminate].
    destruct (Product.active p) eqn:Ha; simpl in H; [|discriminate].
    unfold find_item_variant in H.
    destruct (CartItem.variant item) as [[size design]|] eqn:Hvar;
      [|destruct (Product.variants p); discriminate].
    destruct (find_variant p size design) as [var|] eqn:Hv;
      [|discriminate].
    destruct (Variant.stock var <? CartItem.quantity item) eqn:Hlt;
      [discriminate|].
    apply IH in H as (Hr & Hs & v' & -> & Hall).
    assert (Hpass : verdict castObjectId products item = Passes).
    { unfold verdict, findById, find_item_variant.
      rewrite Hc, Hp. simpl. rewrite Ha, Hvar, Hv. simpl. by rewrite Hlt. }
    assert (Hline : line_total castObjectId products item
                    = (Product.price p
                       * Number_of_Z (CartItem.quantity item))%float).
    { unfold line_total, findById. by rewrite Hc, Hp. }
    split; [by constructor|]. split; [simpl; by rewrite Hline|].
    exists (validatedItem _id item p var :: v'). split.
    + by rewrite <- app_assoc.
    + constructor; [|exact Hall]. exists _id, p, var.
      unfold CartItem.size, CartItem.design. rewrite Hvar. simpl.
      repeat split; eauto.
Qed.

(** The first item that does not pass decides how the loop ends. *)
Lemma validate_items_first items :
  forall acc sub,
    match first_verdict castObjectId products items with
    | Passes => exists v s, loop items acc sub = Accepted v s
    | Refused => exists m, loop items acc sub = Rejected m
    | Fails => loop items acc sub = Thrown
    end.
Proof.
  induction items as [|item rest IH]; intros acc sub; simpl; [eauto|].
  unfold verdict, findById.
  destruct (castObjectId (CartItem.productId item)) as [_id|];
    [|reflexivity].
  destruct (products !! _id) as [p|]; simpl; [|eauto].
  destruct (Product.active p); simpl; [|eauto].
  destruct (find_item_variant p (CartItem.variant item)) as [|[var|]];
    [reflexivity| |eauto].
  destruct (Variant.stock var <? CartItem.quantity item); [eauto|].
  apply IH.
Qed.

Lemma first_verdict_passes items :
  first_verdict castObjectId products items = Passes <->
  Forall (fun i => verdict castObjectId products i = Passes) items.
Proof.
  induction items as [|item rest IH]; simpl.
  - split; [constructor | reflexivity].
  - split.
    + intros H.
      destruct (verdict castObjectId products item) eqn:Hv; try discriminate.
      constructor; [exact Hv | by apply IH].
    + intros H. inversion H as [|? ? Hi Hrest]; subst.
      rewrite Hi. by apply IH.
Qed.

(** The shape of every 200 reply. *)
Lemma post_validate_200 items cart :
  validate items = mkResponse 200 (CartBody cart) ->
  exists v s,
    validate_chains isMongoId items = []
    /\ loop items [] 0%float = Accepted v s
    /\ cart = cart_totals v s.
Proof.
  unfold post_validate. intros H.
  destruct (validate_chains isMongoId items); [|discriminate].
  destruct (loop items [] 0%float) as [v s|m|]; [|discriminate..].
  injection H as <-. eauto.
Qed.

(** The reply when the input checks pass, by the first verdict. *)
Lemma post_validate_checked items :
  validate_chains isMongoId items = [] ->
  match first_verdict castObjectId products items with
  | Passes =>
      exists cart,
        validate items = mkResponse 200 (CartBody cart)
        /\ Forall2 (priced_from castObjectId products) items
             (Cart.items cart)
  | Refused => exists m, validate items = mkResponse 400 (Msg m)
  | Fails => validate items = mkResponse 500 (Msg ServerError)
  end.
Proof.
  intros Hc. unfold post_validate. rewrite Hc.
  pose proof (validate_items_first items [] 0%float) as H.
  destruct (first_verdict castObjectId products items).
  - destruct H as (v & s & Hrun). rewrite Hrun.
    exists (cart_totals v s). split; [reflexivity|].
    apply validate_items_accepted in Hrun as (_ & _ & v' & -> & Hall).
    exact Hall.
  - destruct H as [m Hrun]. rewrite Hrun. eauto.
  - by rewrite H.
Qed.

(** A cart with an item that does not pass is answered 400 or 500. *)
Lemma post_validate_stopped items item :
  In item items ->
  verdict castObjectId products item <> Passes ->
  code (validate items) = 400 \/ code (validate items) = 500.
Proof.
  intros Hin Hv.
  destruct (validate_chains isMongoId items) as [|e errors] eqn:Hc.
  - pose proof (post_validate_checked items Hc) as H.
    destruct (first_verdict castObjectId products items) eqn:Hf.
    + apply first_verdict_passes in Hf.
      rewrite Forall_forall in Hf. destruct Hv. apply Hf.
      by apply list_elem_of_In.
    + destruct H as [m ->]. by left.
    + rewrite H. by right.
  - left. unfold post_validate. by rewrite Hc.
Qed.

(** C1, as the code has it.  For every cart accepted by POST
    /cart/validate, with [s] the subtotal the route accumulates (stored
    price times quantity, added item by item in double arithmetic): the
    returned subtotal is [s] rounded to two decimals, the returned tax is
    [s * 0.08] rounded to two decimals, the returned shipping is 0 when
    [s >= 50] and 9.99 otherwise, and the returned total is
    [s + s * 0.08 + shipping] rounded to two decimals, nothing being
    subtracted for a discount.  Each amount is rounded on its own, by
    [Math.round(x * 100) / 100], from the unrounded values. *)
Theorem validate_totals (items : list CartItem.t) (cart : Cart.t) :
  validate items = mkResponse 200 (CartBody cart) ->
  let s := cart_subtotal castObjectId products items in
  let tax := (s * 0.08)%float in
  let shipping := if (50 <=? s)%float then 0%float else 9.99%float in
  Cart.subtotal cart = round2 s
  /\ Cart.tax cart = round2 tax
  /\ Cart.shipping cart = shipping
  /\ Cart.total cart = round2 (s + tax + shipping)%float.
Proof.
  intros H s tax shipping.
  apply post_validate_200 in H as (v & s0 & _ & Hrun & ->).
  apply validate_items_accepted in Hrun as (_ & Hs & _).
  fold (cart_subtotal castObjectId products items) in Hs. fold s in Hs.
  subst s0. unfold cart_totals; simpl.
  repeat split; try reflexivity. apply round2_shipping.
Qed.

(** C6, as the code has it.  POST /cart/validate answers 400 when the
    request fails the route's input checks (empty cart, a malformed
    product id, a quantity that is not an integer from 1 to 10).
    Otherwise the items are read in order and the first one that does not
    pass decides the reply: 400 when it is refused (product missing or
    inactive, variant missing, quantity above the variant's stock), 500
    when reading it throws (an id that cannot be cast to an ObjectId, an
    item without variant); when every item passes the reply is 200 with
    one priced item per cart item, in order.  In particular a cart with a
    quantity above the current stock of its variant is never answered
    200: the reply is 400 or 500. *)
Theorem validate_rejects_or_prices (items : list CartItem.t) :
  (validate_chains isMongoId items <> [] ->
   validate items
   = mkResponse 400 (ValidationFailed (validate_chains isMongoId items)))
  /\ (validate_chains isMongoId items = [] ->
      match first_verdict castObjectId products items with
      | Passes =>
          exists cart,
            validate items = mkResponse 200 (CartBody cart)
            /\ Forall2 (priced_from castObjectId products) items
                 (Cart.items cart)
      | Refused => exists m, validate items = mkResponse 400 (Msg m)
      | Fails => validate items = mkResponse 500 (Msg ServerError)
      end)
  /\ (forall item,
        In item items ->
        verdict castObjectId products item <> Passes ->
        code (validate items) = 400 \/ code (validate items) = 500)
  /\ (forall item _id p size design v,
        In item items ->
        castObjectId (CartItem.productId item) = Some _id ->
        products !! _id = Some p ->
        CartItem.variant item = Some (size, design) ->
        find_variant p size design = Some v ->
        Variant.stock v < CartItem.quantity item ->
        code (validate items) = 400 \/ code (validate items) = 500).
Proof.
  split; [|split; [|split]].
  - intros H. unfold post_validate.
    destruct (validate_chains isMongoId items); [congruence | reflexivity].
  - apply post_validate_checked.
  - apply post_validate_stopped.
  - intros item _id p size design v Hin Hc Hp Hvar Hv Hlt.
    apply post_validate_stopped with item; [exact Hin|].
    unfold verdict, findById, find_item_variant.
    rewrite Hc, Hp. simpl.
    destruct (Product.active p); simpl; [|discriminate].
    rewrite Hvar, Hv. apply Z.ltb_lt in Hlt. rewrite Hlt. discriminate.
Qed.

(** The loop and the input checks read no client price. *)
Lemma validate_items_without_price items :
  forall acc sub,
    loop (map without_price items) acc sub = loop items acc sub.
Proof.
  induction items as [|item rest IH]; intros acc sub; simpl; [reflexivity|].
  destruct (findById castObjectId products (CartItem.productId item))
    as [|[[_id p]|]]; [reflexivity| |reflexivity].
  destruct (Product.active p); simpl; [|reflexivity].
  destruct (find_item_variant p (CartItem.variant item)) as [|[var|]];
    [reflexivity| |reflexivity].
  destruct (_ <? _); [reflexivity|]. apply IH.
Qed.

Lemma wildcard_errors_without_price ok err items :
  (forall i, ok (without_price i) = ok i) ->
  forall index,
    wildcard_errors ok err index (map without_price items)
    = wildcard_errors ok err index items.
Proof.
  intros Hok. induction items as [|item rest IH]; intros index; simpl;
    [reflexivity|].
  by rewrite Hok, IH.
Qed.

Lemma post_validate_without_price items :
  validate (map without_price items) = validate items.
Proof.
  unfold post_validate, validate_chains.
  rewrite !wildcard_errors_without_price by reflexivity.
  rewrite validate_items_without_price.
  by destruct items.
Qed.

(** C8. Two requests to POST /cart/validate that differ only in the
    prices attached to their items get the same response, and in every
    200 response each validated item carries the title, price and image
    of the stored product record. *)
Theorem client_prices_ignored (items1 items2 : list CartItem.t) :
  map without_price items1 = map without_price items2 ->
  post_validate isMongoId castObjectId products items1
  = post_validate isMongoId castObjectId products items2
  /\ forall cart,
       post_validate isMongoId castObjectId products items1
       = mkResponse 200 (CartBody cart) ->
       Forall2 (priced_from castObjectId products) items1 (Cart.items cart).
Proof.
  intros H. split.
  - rewrite <- (post_validate_without_price items1),
      <- (post_validate_without_price items2).
    by rewrite H.
  - intros cart H200.
    apply post_validate_200 in H200 as (v & s & _ & Hrun & ->).
    apply validate_items_accepted in Hrun as (_ & _ & v' & -> & Hall).
    exact Hall.
Qed.

End CartValidation.

(** The cart of one item at 40: subtotal 40.00, tax 3.20, shipping 9.99,
    total 53.19. *)
Lemma validate_totals_witness :
  post_validate hex24 objectId24 (catalog 40 5) [rose_item 1 (Some 1%float)]
  = mkResponse 200 (CartBody rose_cart)
  /\ Cart.subtotal rose_cart = 40%float
  /\ Cart.tax rose_cart = 3.2%float
  /\ Cart.shipping rose_cart = 9.99%float
  /\ Cart.total rose_cart = 53.19%float.
Proof.
  assert (H : post_validate hex24 objectId24 (catalog 40 5)
                [rose_item 1 (Some 1%float)]
              = mkResponse 200 (CartBody rose_cart))
    by (vm_compute; reflexivity).
  split; [exact H|].
  destruct (validate_totals hex24 objectId24 (catalog 40 5) _ rose_cart H)
    as (Hs & Ht & Hship & Htot).
  split; [refine (eq_trans Hs _); vm_compute; reflexivity|].
  split; [refine (eq_trans Ht _); vm_compute; reflexivity|].
  split; [refine (eq_trans Hship _); vm_compute; reflexivity|].
  refine (eq_trans Htot _); vm_compute; reflexivity.
Defined.

(** Two carts on which the returned amounts do not add up.  One item
    priced 7.375: the reply has subtotal 7.38, tax
    0.59 and shipping 9.99, which add up to 17.96, and total 17.95.
    Three items at 10.70 and one at 17.90, 50.00 in all: the reply has
    subtotal 50 and yet shipping 9.99, and total 63.99, the subtotal
    accumulated in doubles being just under 50. *)
Lemma validate_totals_counterexample :
  (exists cart,
     post_validate hex24 objectId24 (catalog 7.375 5) [rose_item 1 None]
     = mkResponse 200 (CartBody cart)
     /\ Cart.subtotal cart = 7.38%float
     /\ Cart.tax cart = 0.59%float
     /\ Cart.shipping cart = 9.99%float
     /\ Cart.total cart = 17.95%float
     /\ (Cart.subtotal cart + Cart.tax cart + Cart.shipping cart)%float
        = 17.96%float)
  /\ (exists cart,
        post_validate hex24 objectId24 (two_products 10.70 17.90)
          [rose_item 3 None; peony_item 1]
        = mkResponse 200 (CartBody cart)
        /\ Cart.subtotal cart = 50%float
        /\ Cart.tax cart = 4%float
        /\ Cart.shipping cart = 9.99%float
        /\ Cart.total cart = 63.99%float).
Proof.
  split; eexists; (split; [vm_compute; reflexivity|]);
    vm_compute; repeat split.
Qed.

Lemma validate_rejects_or_prices_witness :
  Variant.stock (Variant.mk "M" "plain" 5)
  < CartItem.quantity (rose_item 6 None)
  /\ (code (post_validate hex24 objectId24 (catalog 40 5) [rose_item 6 None])
      = 400
      \/ code (post_validate hex24 objectId24 (catalog 40 5)
                 [rose_item 6 None])
         = 500).
Proof.
  split; [reflexivity|].
  apply (proj2 (proj2 (proj2
           (validate_rejects_or_prices hex24 objectId24 (catalog 40 5)
              [rose_item 6 None])))
         (rose_item 6 None) rose_id (rose 40 5) "M"%string "plain"%string
         (Variant.mk "M" "plain" 5)).
  - by left.
  - vm_compute; reflexivity.
  - vm_compute; reflexivity.
  - reflexivity.
  - vm_compute; reflexivity.
  - reflexivity.
Defined.

(** Requests on which no item is refused on the three grounds and the
    reply is not the priced list: a request for 11 of a variant that
    holds 20 is answered 400 by the input checks; an item without its
    variant, and an id that the validator accepts and the cast refuses,
    are answered 500. *)
Lemma validate_otherwise_counterexample :
  (verdict objectId24 (catalog 40 20) (rose_item 11 None) = Passes
   /\ post_validate hex24 objectId24 (catalog 40 20) [rose_item 11 None]
      = mkResponse 400 (ValidationFailed [InvalidQuantity 0]))
  /\ (verdict objectId24 (catalog 40 20) (bare_item 1) <> Refused
      /\ post_validate hex24 objectId24 (catalog 40 20) [bare_item 1]
         = mkResponse 500 (Msg ServerError))
  /\ (verdict objectId24 (catalog 40 20) (prefixed_item 1) <> Refused
      /\ post_validate mongoId24 objectId24 (catalog 40 20)
           [prefixed_item 1]
         = mkResponse 500 (Msg ServerError)).
Proof.
  repeat split; try (vm_compute; reflexivity); vm_compute; discriminate.
Qed.

Lemma client_prices_ignored_witness :
  map without_price [rose_item 2 (Some 0.01%float)]
  = map without_price [rose_item 2 (Some 40%float)]
  /\ post_validate hex24 objectId24 (catalog 40 5)
       [rose_item 2 (Some 0.01%float)]
     = post_validate hex24 objectId24 (catalog 40 5)
         [rose_item 2 (Some 40%float)].
Proof.
  split; [reflexivity|].
  apply (client_prices_ignored hex24 objectId24 (catalog 40 5)). reflexivity.
Defined.

(** ** Stock updates *)

Lemma matches_eq size design v :
  matches size design v = true <->
  Variant.size v = size /\ Variant.design v = design.
Proof.
  unfold matches. rewrite andb_true_iff, !String.eqb_eq. tauto.
Qed.

Lemma find_set_stock_same size design n vs v :
  List.find (matches size design) vs = Some v ->
  List.find (matches size design) (set_stock size design n vs)
  = Some (Variant.mk (Variant.size v) (Variant.design v) n).
Proof.
  induction vs as [|v0 rest IH]; simpl; [discriminate|].
  destruct (matches size design v0) eqn:Hm.
  - intros [= <-]. simpl. unfold matches in *. simpl. by rewrite Hm.
  - intros H. simpl. rewrite Hm. by apply IH.
Qed.

Lemma find_set_stock_other size design n size' design' vs :
  (size', design') <> (size, design) ->
  List.find (matches size' design') (set_stock size design n vs)
  = List.find (matches size' design') vs.
Proof.
  intros Hne. induction vs as [|v0 rest IH]; simpl; [reflexivity|].
  destruct (matches size design v0) eqn:Hm; simpl.
  - apply matches_eq in Hm as [Hs Hd].
    destruct (matches size' design' v0) eqn:Hm'.
    + apply matches_eq in Hm' as [Hs' Hd']. congruence.
    + unfold matches in *. simpl. by rewrite Hm'.
  - by rewrite IH.
Qed.

Lemma In_set_stock size design n vs v :
  In v (set_stock size design n vs) -> 0 <= n ->
  In v vs \/ Variant.stock v = n.
Proof.
  induction vs as [|v0 rest IH]; simpl; [tauto|].
  destruct (matches size design v0); simpl.
  - intros [<-|H] _; simpl; tauto.
  - intros [<-|H] Hn; [tauto|]. destruct (IH H Hn); tauto.
Qed.

(** A save of the stock [n] of a variant that exists: it is accepted when
    [n] is not negative, and then only that variant's stock changed. *)
Lemma save_stock_spec products id p size design v n :
  products !! id = Some p ->
  find_variant p size design = Some v ->
  0 <= n ->
  exists products',
    save_stock products id p size design n = Some products'
    /\ forall k,
         stock_at products' k
         = if bool_decide (k = (id, size, design)) then Some n
           else stock_at products k.
Proof.
  intros Hp Hv Hn. unfold save_stock.
  destruct (n <? 0) eqn:Hneg; [apply Z.ltb_lt in Hneg; lia|].
  eexists. split; [reflexivity|].
  intros [[id' size'] design']. unfold stock_at; simpl.
  case_bool_decide as Hk.
  - injection Hk as -> -> ->. rewrite lookup_insert_eq.
    unfold find_variant in *; simpl.
    by rewrite (find_set_stock_same _ _ _ _ _ Hv).
  - destruct (decide (id' = id)) as [->|Hid].
    + rewrite lookup_insert_eq, Hp. unfold find_variant; simpl.
      rewrite find_set_stock_other; [reflexivity|]. congruence.
    + by rewrite lookup_insert_ne.
Qed.

Lemma save_stock_nonneg products id p size design n products' :
  stock_nonneg products ->
  products !! id = Some p ->
  save_stock products id p size design n = Some products' ->
  stock_nonneg products'.
Proof.
  intros Hinv Hp. unfold save_stock.
  destruct (n <? 0) eqn:Hneg; [discriminate|]. apply Z.ltb_ge in Hneg.
  intros [= <-] id' p' v.
  destruct (decide (id' = id)) as [->|Hid].
  - rewrite lookup_insert_eq. intros [= <-]; simpl. intros Hin.
    destruct (In_set_stock _ _ _ _ _ Hin Hneg) as [H| ->]; [|exact Hneg].
    by apply (Hinv id p v).
  - rewrite lookup_insert_ne by done. apply Hinv.
Qed.

Lemma ordered_qty_nonneg items k :
  quantities_positive items -> 0 <= ordered_qty items k.
Proof.
  induction items as [|item rest IH]; intros Hq; simpl; [lia|].
  assert (1 <= OrderItem.quantity item) by (apply Hq; by left).
  assert (0 <= ordered_qty rest k) by (apply IH; intros i Hi; apply Hq; by right).
  case_bool_decide; lia.
Qed.

(** What one covered item of an order costs the store, on either path:
    the save is accepted, the stock of the item's variant drops by the
    quantity, and the remaining items are still covered. *)
Lemma covered_step products item rest :
  quantities_positive (item :: rest) ->
  covers products (item :: rest) ->
  exists p v products',
    products !! OrderItem.product item = Some p
    /\ find_variant p (OrderItem.size item) (OrderItem.design item) = Some v
    /\ OrderItem.quantity item <= Variant.stock v
    /\ save_stock products (OrderItem.product item) p (OrderItem.size item)
         (OrderItem.design item)
         (Variant.stock v - OrderItem.quantity item) = Some products'
    /\ covers products' rest
    /\ forall k,
         stock_at products' k
         = (fun s => s - (if bool_decide (key_of item = k)
                          then OrderItem.quantity item else 0))
             <$> stock_at products k.
Proof.
  intros Hq Hc.
  destruct (Hc item (or_introl eq_refl)) as (s & Hs & Hle).
  unfold stock_at, key_of in Hs; simpl in Hs.
  destruct (products !! OrderItem.product item) as [p|] eqn:Hp;
    [|discriminate].
  destruct (find_variant p (OrderItem.size item) (OrderItem.design item))
    as [v|] eqn:Hv; [|discriminate].
  injection Hs as <-.
  simpl in Hle. rewrite bool_decide_eq_true_2 in Hle by done.
  assert (Hrest : 0 <= ordered_qty rest (key_of item)).
  { apply ordered_qty_nonneg. intros i Hi. apply Hq. by right. }
  destruct (save_stock_spec products _ p _ _ v
              (Variant.stock v - OrderItem.quantity item) Hp Hv)
    as (products' & Hsave & Hstock); [lia|].
  assert (Hat : stock_at products (key_of item) = Some (Variant.stock v)).
  { unfold stock_at, key_of; simpl. by rewrite Hp, Hv. }
  assert (Hstock' : forall k,
    stock_at products' k
    = (fun s => s - (if bool_decide (key_of item = k)
                     then OrderItem.quantity item else 0))
        <$> stock_at products k).
  { intros k. rewrite Hstock. fold (key_of item).
    case_bool_decide as Hk.
    - subst k. rewrite bool_decide_eq_true_2 by done. by rewrite Hat.
    - rewrite bool_decide_eq_false_2 by congruence.
      destruct (stock_at products k); simpl; [f_equal; lia | done]. }
  exists p, v, products'. repeat split; try done; [lia|].
  intros item' Hin.
  destruct (Hc item' (or_intror Hin)) as (s' & Hs' & Hle').
  rewrite Hstock', Hs'. simpl. eexists. split; [reflexivity|].
  simpl in Hle'. case_bool_decide; lia.
Qed.

(** A covered order on the webhook path: every save is accepted and each
    variant loses what the order asks of it. *)
Lemma capture_items_covered items :
  forall products,
    quantities_positive items ->
    covers products items ->
    exists products',
      capture_items items products = Done products'
      /\ forall k,
           stock_at products' k
           = (fun s => s - ordered_qty items k) <$> stock_at products k.
Proof.
  induction items as [|item rest IH]; intros products Hq Hc.
  - exists products. split; [reflexivity|]. intros k. simpl.
    destruct (stock_at products k); simpl; [f_equal; lia | done].
  - destruct (covered_step products item rest Hq Hc)
      as (p & v & products1 & Hp & Hv & Hle & Hsave & Hc1 & Hstock).
    destruct (IH products1) as (products' & Hrun & Hfinal);
      [intros i Hi; apply Hq; by right | exact Hc1 |].
    exists products'. split.
    + simpl. rewrite Hp, Hv, Hsave.
      destruct (OrderItem.quantity item <=? Variant.stock v) eqn:Hg;
        [exact Hrun | apply Z.leb_gt in Hg; lia].
    + intros k. rewrite Hfinal, Hstock. simpl.
      destruct (stock_at products k); simpl; [f_equal; lia | done].
Qed.

(** On a covered order the loop of the verification route does what the
    loop of the webhook does. *)
Lemma verify_items_covered items :
  forall products,
    quantities_positive items ->
    covers products items ->
    verify_items items products = capture_items items products.
Proof.
  induction items as [|item rest IH]; intros products Hq Hc;
    [reflexivity|].
  destruct (covered_step products item rest Hq Hc)
    as (p & v & products1 & Hp & Hv & Hle & Hsave & Hc1 & _).
  simpl. rewrite Hp, Hv, Hsave.
  destruct (OrderItem.quantity item <=? Variant.stock v) eqn:Hg;
    [|apply Z.leb_gt in Hg; lia].
  apply IH; [intros i Hi; apply Hq; by right | exact Hc1].
Qed.

(** The webhook's loop keeps every stock of the store non-negative. *)
Lemma capture_items_nonneg items :
  forall products,
    stock_nonneg products ->
    stock_nonneg (store_of (capture_items items products)).
Proof.
  induction items as [|item rest IH]; intros products Hinv; simpl;
    [exact Hinv|].
  destruct (products !! OrderItem.product item) as [p|] eqn:Hp;
    [|by apply IH].
  destruct (find_variant p (OrderItem.size item) (OrderItem.design item))
    as [v|]; [|by apply IH].
  destruct (OrderItem.quantity item <=? Variant.stock v); [|by apply IH].
  destruct (save_stock products (OrderItem.product item) p
              (OrderItem.size item) (OrderItem.design item)
              (Variant.stock v - OrderItem.quantity item))
    as [products'|] eqn:Hsave; [|exact Hinv].
  apply IH. eapply save_stock_nonneg; eauto.
Qed.

(** One item on the webhook path, variant found. *)
Lemma capture_item_found products item p v :
  products !! OrderItem.product item = Some p ->
  find_variant p (OrderItem.size item) (OrderItem.design item) = Some v ->
  forall k,
    stock_at (store_of (capture_items [item] products)) k
    = if bool_decide (k = key_of item)
      then Some (if OrderItem.quantity item <=? Variant.stock v
                 then Variant.stock v - OrderItem.quantity item
                 else Variant.stock v)
      else stock_at products k.
Proof.
  intros Hp Hv k. simpl. rewrite Hp, Hv.
  assert (Hat : stock_at products (key_of item) = Some (Variant.stock v)).
  { unfold stock_at, key_of; simpl. by rewrite Hp, Hv. }
  destruct (OrderItem.quantity item <=? Variant.stock v) eqn:Hg.
  - apply Z.leb_le in Hg.
    destruct (save_stock_spec products _ p _ _ v
                (Variant.stock v - OrderItem.quantity item) Hp Hv)
      as (products' & Hsave & Hstock); [lia|].
    rewrite Hsave. simpl. apply Hstock.
  - simpl. case_bool_decide as Hk; [by subst k | reflexivity].
Qed.

(** One item on the webhook path, product or variant missing. *)
Lemma capture_item_missing products item :
  stock_at products (key_of item) = None ->
  store_of (capture_items [item] products) = products.
Proof.
  unfold stock_at, key_of; simpl. intros H.
  destruct (products !! OrderItem.product item) as [p|]; [|reflexivity].
  destruct (find_variant p (OrderItem.size item) (OrderItem.design item));
    [discriminate | reflexivity].
Qed.

(** ** POST /webhooks/razorpay *)

Section Webhook.

Variable hmac_sha256_hex : string -> string -> string.
Variable webhookSecret : string.
Variable parse_event : string -> option Event.

Abbreviation webhook := (webhook_razorpay hmac_sha256_hex webhookSecret parse_event).
Abbreviation deliver1 := (deliver hmac_sha256_hex webhookSecret parse_event).
Abbreviation deliveries_all :=
  (deliver_all hmac_sha256_hex webhookSecret parse_event).

(** C3, as the code has it.  A request to POST /webhooks/razorpay whose
    X-Razorpay-Signature header is absent or differs from the hex
    HMAC-SHA256, under the webhook secret, of the body as the handler
    reads it is answered 400 with the store untouched, whatever parsing
    the body would give: nothing is parsed or dispatched.  The handler
    reads the raw body when [express.raw] buffered it (a request with a
    body of Content-Type application/json) and the text
    "[object Object]" otherwise.  So a request whose header differs from
    the HMAC of its raw body is answered 400 when its body was buffered;
    when it was not, no order or product is modified either, that text
    not being JSON, and the answer is 400, or 500 when the header is the
    HMAC of that text. *)
Theorem forged_webhook_rejected (now : Z) (signature : option string)
    (buffered : bool) (raw : string) (db : Db) :
  (signature
   <> Some (hmac_sha256_hex webhookSecret (req_body_toString buffered raw)) ->
   forall parse : string -> option Event,
     webhook_razorpay hmac_sha256_hex webhookSecret parse now signature
       buffered raw db
     = (mkResponse 400 (Text "Webhook signature verification failed"), db))
  /\ (signature <> Some (hmac_sha256_hex webhookSecret raw) ->
      (buffered = true ->
       forall parse : string -> option Event,
         webhook_razorpay hmac_sha256_hex webhookSecret parse now signature
           buffered raw db
         = (mkResponse 400 (Text "Webhook signature verification failed"),
            db))
      /\ (parse_event "[object Object]" = None ->
          snd (webhook now signature buffered raw db) = db
          /\ (fst (webhook now signature buffered raw db)
              = mkResponse 400 (Text "Webhook signature verification failed")
              \/ fst (webhook now signature buffered raw db)
                 = mkResponse 500 WebhookProcessingFailed)
          /\ (buffered = false ->
              signature
              = Some (hmac_sha256_hex webhookSecret "[object Object]") ->
              fst (webhook now signature buffered raw db)
              = mkResponse 500 WebhookProcessingFailed))).
Proof.
  assert (H400 : signature
            <> Some (hmac_sha256_hex webhookSecret
                       (req_body_toString buffered raw)) ->
          forall parse : string -> option Event,
            webhook_razorpay hmac_sha256_hex webhookSecret parse now
              signature buffered raw db
            = (mkResponse 400 (Text "Webhook signature verification failed"),
               db)).
  { intros H parse. unfold webhook_razorpay.
    by rewrite bool_decide_eq_false_2. }
  split; [exact H400|]. intros H. split.
  - intros ->. by apply H400.
  - intros Hparse. destruct buffered.
    + rewrite (H400 H parse_event).
      split; [reflexivity|]. split; [by left | discriminate].
    + unfold webhook_razorpay, req_body_toString.
      case_bool_decide as Hsig; simpl.
      * rewrite Hparse. split; [reflexivity|]. split; [by right | done].
      * split; [reflexivity|]. split; [by left|]. intros _ E. by destruct Hsig.
Qed.

(** The products of the store after [handlePaymentCaptured]. *)
Lemma handlePaymentCaptured_products now payment db orderId order :
  truthy_id (notes_orderId payment) = Some orderId ->
  orders db !! orderId = Some order ->
  products (handlePaymentCaptured now payment db)
  = store_of (capture_items (Order.items order) (products db))
  /\ orders (handlePaymentCaptured now payment db) !! orderId
     = Some (captured order payment now).
Proof.
  intros Hid Ho. unfold handlePaymentCaptured. rewrite Hid, Ho. simpl.
  split; [reflexivity | apply lookup_insert_eq].
Qed.

Lemma handlePaymentCaptured_nonneg now payment db :
  stock_nonneg (products db) ->
  stock_nonneg (products (handlePaymentCaptured now payment db)).
Proof.
  intros Hinv. unfold handlePaymentCaptured.
  destruct (truthy_id (notes_orderId payment)) as [orderId|]; [|exact Hinv].
  destruct (orders db !! orderId) as [order|]; [|exact Hinv].
  simpl. by apply capture_items_nonneg.
Qed.

(** Only [payment.captured] touches the products. *)
Lemma deliver_nonneg db d :
  stock_nonneg (products db) -> stock_nonneg (products (deliver1 db d)).
Proof.
  intros Hinv. unfold deliver, webhook_razorpay, req_body_toString.
  destruct (negb _); [exact Hinv|].
  destruct (parse_event (raw_body d)) as [[payment|payment|id|name]|];
    simpl; try exact Hinv.
  - by apply handlePaymentCaptured_nonneg.
  - unfold handlePaymentFailed.
    destruct (truthy_id _) as [orderId|]; [|exact Hinv].
    destruct (orders db !! orderId); exact Hinv.
  - unfold handleOrderPaid.
    destruct (findOne_razorpayOrderId id (orders db)) as [[key order]|];
      exact Hinv.
Qed.

(** A delivery with a good signature of a [payment.captured] event. *)
Lemma deliver_captured db now body payment :
  parse_event body = Some (PaymentCaptured payment) ->
  deliver1 db
    (mkDelivery now (Some (hmac_sha256_hex webhookSecret body)) body)
  = handlePaymentCaptured now payment db.
Proof.
  intros Hparse. unfold deliver, webhook_razorpay, req_body_toString; simpl.
  rewrite bool_decide_eq_true_2 by reflexivity. simpl. by rewrite Hparse.
Qed.

(** C4. The same [payment.captured] delivery processed twice, the stock
    covering the order at each processing, takes from every variant
    twice what the order asks of it: nothing records that the payment was
    already processed. *)
Theorem duplicate_capture_double_decrement (now1 now2 : Z) (body : string)
    (payment : PaymentEntity) (orderId : string) (order : Order.t)
    (db : Db) :
  let d1 := mkDelivery now1 (Some (hmac_sha256_hex webhookSecret body)) body in
  let d2 := mkDelivery now2 (Some (hmac_sha256_hex webhookSecret body)) body in
  parse_event body = Some (PaymentCaptured payment) ->
  truthy_id (notes_orderId payment) = Some orderId ->
  orders db !! orderId = Some order ->
  quantities_positive (Order.items order) ->
  covers (products db) (Order.items order) ->
  covers (products (deliver1 db d1)) (Order.items order) ->
  forall k,
    stock_at (products (deliver1 (deliver1 db d1) d2)) k
    = (fun s => s - 2 * ordered_qty (Order.items order) k)
        <$> stock_at (products db) k.
Proof.
  intros d1 d2 Hparse Hid Ho Hq Hc1 Hc2 k. unfold d1, d2 in *.
  rewrite !(deliver_captured _ _ _ payment Hparse) in *.
  destruct (handlePaymentCaptured_products now1 payment db orderId order
              Hid Ho) as [Hp1 Ho1].
  destruct (handlePaymentCaptured_products now2 payment _ orderId _
              Hid Ho1) as [Hp2 _].
  rewrite Hp2. simpl. rewrite Hp1 in Hc2 |- *.
  destruct (capture_items_covered _ _ Hq Hc1) as (products1 & Hrun1 & Hs1).
  rewrite Hrun1 in Hc2 |- *. simpl in *.
  destruct (capture_items_covered _ _ Hq Hc2) as (products2 & Hrun2 & Hs2).
  rewrite Hrun2. simpl. rewrite Hs2, Hs1.
  destruct (stock_at (products db) k); simpl; [f_equal; lia | done].
Qed.

(** C10. On the webhook path an item of the order takes its quantity from
    the stock of its variant only when the stock covers it, and otherwise
    leaves the stock as it is; so a store whose stocks are all
    non-negative stays so through any sequence of deliveries to the
    webhook. *)
Theorem webhook_stock_never_negative (deliveries : list Delivery)
    (db : Db) :
  stock_nonneg (products db) ->
  stock_nonneg (products (deliveries_all deliveries db))
  /\ (forall now payment db',
        stock_nonneg (products db') ->
        stock_nonneg (products (handlePaymentCaptured now payment db')))
  /\ (forall store item p v k,
        store !! OrderItem.product item = Some p ->
        find_variant p (OrderItem.size item) (OrderItem.design item)
        = Some v ->
        stock_at (store_of (capture_items [item] store)) k
        = if bool_decide (k = key_of item)
          then Some (if OrderItem.quantity item <=? Variant.stock v
                     then Variant.stock v - OrderItem.quantity item
                     else Variant.stock v)
          else stock_at store k).
Proof.
  intros Hinv. split; [|split].
  - revert db Hinv. unfold deliver_all.
    induction deliveries as [|d rest IH]; intros db Hinv; simpl;
      [exact Hinv|].
    apply IH. by apply deliver_nonneg.
  - intros now payment db'. apply handlePaymentCaptured_nonneg.
  - intros store item p v k Hp Hv. by apply capture_item_found with p.
Qed.

End Webhook.

Lemma forged_webhook_rejected_witness :
  Some "forged"%string <> Some (sample_hmac "whsec" capture_body)
  /\ webhook_razorpay sample_hmac "whsec" sample_parse 1700
       (Some "forged"%string) true capture_body (shop 2 5)
     = (mkResponse 400 (Text "Webhook signature verification failed"),
        shop 2 5).
Proof.
  assert (H : Some "forged"%string <> Some (sample_hmac "whsec" capture_body))
    by (vm_compute; discriminate).
  split; [exact H|].
  apply (proj1 (proj2 (forged_webhook_rejected sample_hmac "whsec"
                         sample_parse 1700 (Some "forged"%string) true
                         capture_body (shop 2 5)) H) eq_refl sample_parse).
Defined.

(** A request whose body [express.raw] did not buffer, with the HMAC of
    "[object Object]" for a header: the header differs from the HMAC of
    the raw body, the signature check passes, and the answer is 500 from
    the parsing of that text. *)
Lemma forged_webhook_counterexample :
  Some (sample_hmac "whsec" "[object Object]")
  <> Some (sample_hmac "whsec" capture_body)
  /\ webhook_razorpay sample_hmac "whsec" sample_parse 1700
       (Some (sample_hmac "whsec" "[object Object]")) false capture_body
       (shop 2 5)
     = (mkResponse 500 WebhookProcessingFailed, shop 2 5).
Proof.
  split; [vm_compute; discriminate | vm_compute; reflexivity].
Qed.

Lemma shop_covers quantity stock :
  quantity <= stock ->
  covers (catalog 40 stock) (Order.items (rose_order quantity)).
Proof.
  intros Hle item [<-|[]]. exists stock. split; [reflexivity|].
  cbn [ordered_qty Order.items rose_order].
  rewrite bool_decide_eq_true_2 by reflexivity. simpl. lia.
Qed.

Lemma shop_quantities quantity :
  1 <= quantity -> quantities_positive (Order.items (rose_order quantity)).
Proof. intros Hq item [<-|[]]. exact Hq. Qed.

(** Two deliveries of the capture of an order for 2, with 5 on the shelf:
    1 is left. *)
Lemma duplicate_capture_double_decrement_witness :
  covers (products (shop 2 5)) (Order.items (rose_order 2))
  /\ covers
       (products
          (deliver sample_hmac "whsec" sample_parse (shop 2 5)
             (capture_delivery 1700)))
       (Order.items (rose_order 2))
  /\ stock_at
       (products
          (deliver sample_hmac "whsec" sample_parse
             (deliver sample_hmac "whsec" sample_parse (shop 2 5)
                (capture_delivery 1700))
             (capture_delivery 1800)))
       rose_key
     = Some 1.
Proof.
  assert (H1 : covers (products (shop 2 5)) (Order.items (rose_order 2)))
    by (apply shop_covers; lia).
  assert (H2 : covers
                 (products
                    (deliver sample_hmac "whsec" sample_parse (shop 2 5)
                       (capture_delivery 1700)))
                 (Order.items (rose_order 2))).
  { assert (E : products
                  (deliver sample_hmac "whsec" sample_parse (shop 2 5)
                     (capture_delivery 1700))
                = catalog 40 3) by (vm_compute; reflexivity).
    rewrite E. apply shop_covers; lia. }
  split; [exact H1|]. split; [exact H2|].
  refine (eq_trans
            (duplicate_capture_double_decrement sample_hmac "whsec"
               sample_parse 1700 1800 capture_body rose_payment order_id
               (rose_order 2) (shop 2 5)
               eq_refl eq_refl eq_refl (shop_quantities 2 ltac:(lia)) H1 H2
               rose_key) _).
  vm_compute. reflexivity.
Defined.

Lemma catalog_nonneg price stock :
  0 <= stock -> stock_nonneg (catalog price stock).
Proof.
  intros Hs id p v Hp Hin. unfold catalog in Hp.
  apply lookup_singleton_Some in Hp as [_ <-].
  destruct Hin as [<-|[]]. exact Hs.
Qed.

(** Two deliveries of the capture of an order for 2, with 3 on the shelf:
    the second finds 1 and takes nothing. *)
Lemma webhook_stock_never_negative_witness :
  stock_nonneg (products (shop 2 3))
  /\ stock_nonneg
       (products
          (deliver_all sample_hmac "whsec" sample_parse
             [capture_delivery 1700; capture_delivery 1800] (shop 2 3))).
Proof.
  assert (H : stock_nonneg (products (shop 2 3)))
    by (apply catalog_nonneg; lia).
  split; [exact H|].
  apply (proj1 (webhook_stock_never_negative sample_hmac "whsec"
                  sample_parse
                  [capture_delivery 1700; capture_delivery 1800]
                  (shop 2 3) H)).
Defined.

(** The same two deliveries, computed: 3, then 1, then still 1. *)
Example second_capture_is_guarded :
  stock_at
    (products
       (deliver_all sample_hmac "whsec" sample_parse
          [capture_delivery 1700; capture_delivery 1800] (shop 2 3)))
    rose_key
  = Some 1.
Proof. vm_compute. reflexivity. Qed.

(** ** POST /cart/verify-payment *)

Section VerifyPayment.

Variable isMongoId : string -> bool.
Variable hmac_sha256_hex : string -> string -> string.
Variable keySecret : string.

Abbreviation verify := (verify_payment isMongoId hmac_sha256_hex keySecret).
Abbreviation expected := (expected_signature hmac_sha256_hex keySecret).

Lemma eqb_expected (req : VerifyRequest) :
  String.eqb (expected req) (razorpay_signature req)
  = bool_decide (razorpay_signature req = expected req).
Proof.
  case_bool_decide as H.
  - rewrite H. apply String.eqb_refl.
  - apply String.eqb_neq. congruence.
Qed.

(** The route up to the lookup of the order, for a request that passed
    [requireAuth] and the field checks. *)
Lemma verify_checked req db uid :
  req_user req = Some uid ->
  verify_chains isMongoId req = [] ->
  razorpay_signature req = expected req ->
  verify req db
  = match orders db !! orderId req with
    | None => (mkResponse 404 (Msg OrderNotFound), db)
    | Some order =>
        if negb (bool_decide (Order.user order = uid))
        then (mkResponse 403 (Msg Unauthorized), db)
        else
          let orders' :=
            <[orderId req := verified order (razorpay_payment_id req)]>
              (orders db) in
          match verify_items (Order.items order) (products db) with
          | Done products' =>
              (mkResponse 200 (PaymentVerified (orderId req)),
               mkDb orders' products')
          | Threw products' =>
              (mkResponse 500 (Msg ServerError), mkDb orders' products')
          end
    end.
Proof.
  intros Hu Hc Hs. unfold verify_payment. rewrite Hu, Hc. simpl.
  fold (expected req). rewrite eqb_expected.
  rewrite bool_decide_eq_true_2 by exact Hs. simpl.
  destruct (orders db !! orderId req) as [order|]; [|reflexivity].
  assert (E : bool_decide (Some (Order.user order) = Some uid)
              = bool_decide (Order.user order = uid)).
  { apply bool_decide_ext. split; congruence. }
  by rewrite E.
Qed.

(** A request with a wrong signature changes nothing. *)
Lemma verify_forged_unchanged (req : VerifyRequest) (db : Db) :
  razorpay_signature req <> expected req ->
  snd (verify req db) = db.
Proof.
  intros H. unfold verify_payment.
  destruct (requireAuth (req_user req) (wants_json req)); [reflexivity|].
  destruct (verify_chains isMongoId req); [|reflexivity].
  fold (expected req). rewrite eqb_expected.
  by rewrite bool_decide_eq_false_2.
Qed.

(** C2, as the code has it.  A request to POST /cart/verify-payment whose
    razorpay_signature differs from the hex HMAC-SHA256 of
    "{razorpay_order_id}|{razorpay_payment_id}" under the key secret
    leaves every order and every product as it was and is never answered
    200; from an authenticated requester it is answered 400, and without
    one [requireAuth] answers first, 401 to a JSON client and a redirect
    to the login page otherwise. *)
Theorem forged_payment_signature_rejected (req : VerifyRequest) (db : Db) :
  razorpay_signature req <> expected req ->
  snd (verify req db) = db
  /\ code (fst (verify req db)) <> 200
  /\ (is_Some (req_user req) -> code (fst (verify req db)) = 400)
  /\ (req_user req = None ->
      fst (verify req db)
      = if wants_json req then mkResponse 401 (Msg AuthenticationRequired)
        else mkResponse 302 (RedirectTo "/auth/login")).
Proof.
  intros H. split; [by apply verify_forged_unchanged|].
  unfold verify_payment.
  destruct (req_user req) as [uid|]; simpl.
  - destruct (verify_chains isMongoId req) as [|e errors]; simpl.
    + fold (expected req). rewrite eqb_expected.
      rewrite bool_decide_eq_false_2 by exact H. simpl.
      repeat split; try done.
    + repeat split; try done.
  - destruct (wants_json req); simpl; repeat split; try done;
      by intros [? ?].
Qed.

(** C9, as the code has it.  A request to POST /cart/verify-payment for
    an order of another user, or from nobody, changes no order and no
    product; and when the requester is authenticated, the request passes
    the field checks and its signature is valid, the answer is 403. *)
Theorem verify_payment_owner_only (req : VerifyRequest) (db : Db)
    (order : Order.t) :
  orders db !! orderId req = Some order ->
  req_user req <> Some (Order.user order) ->
  snd (verify req db) = db
  /\ (is_Some (req_user req) ->
      verify_chains isMongoId req = [] ->
      razorpay_signature req = expected req ->
      verify req db = (mkResponse 403 (Msg Unauthorized), db)).
Proof.
  intros Ho Hne.
  assert (H403 : forall uid, req_user req = Some uid ->
            verify_chains isMongoId req = [] ->
            razorpay_signature req = expected req ->
            verify req db = (mkResponse 403 (Msg Unauthorized), db)).
  { intros uid Hu Hc Hs. rewrite (verify_checked req db uid Hu Hc Hs), Ho.
    rewrite bool_decide_eq_false_2; [reflexivity|]. congruence. }
  split.
  - destruct (req_user req) as [uid|] eqn:Hu.
    + destruct (verify_chains isMongoId req) as [|e errors] eqn:Hc.
      * destruct (decide (razorpay_signature req = expected req)) as [Hs|Hs].
        -- by rewrite (H403 uid eq_refl eq_refl Hs).
        -- by apply verify_forged_unchanged.
      * unfold verify_payment. by rewrite Hu, Hc.
    + unfold verify_payment. by rewrite Hu.
  - intros [uid Hu]. by apply H403 with uid.
Qed.

End VerifyPayment.

(** ** The two confirmation paths *)

Section ConfirmationPaths.

Variable isMongoId : string -> bool.
Variable hmac_sha256_hex : string -> string -> string.
Variable keySecret : string.

Abbreviation verify' := (verify_payment isMongoId hmac_sha256_hex keySecret).

(** C5, as the code has it.  The webhook's [handlePaymentCaptured] and
    the verification route, started from the same store with the same
    payment id for an order of the requester, both set the order's status
    to confirmed and record the payment id, whatever the stock, and leave
    the other orders alone; and when the stock covers the order they
    leave the same products, so every variant has the same stock.  They
    differ in the payment info: the webhook sets its status to paid, and
    stamps paidAt, where the verification route sets its status to
    completed. *)
Theorem confirmation_paths_agree (req : VerifyRequest) (db : Db)
    (order : Order.t) (payment : PaymentEntity) (now : Z) :
  req_user req = Some (Order.user order) ->
  verify_chains isMongoId req = [] ->
  razorpay_signature req
  = expected_signature hmac_sha256_hex keySecret req ->
  orders db !! orderId req = Some order ->
  truthy_id (notes_orderId payment) = Some (orderId req) ->
  payment_id payment = Some (razorpay_payment_id req) ->
  let by_webhook := handlePaymentCaptured now payment db in
  let by_redirect := snd (verify' req db) in
  (exists ow ov,
     orders by_webhook !! orderId req = Some ow
     /\ orders by_redirect !! orderId req = Some ov
     /\ Order.status ow = Confirmed /\ Order.status ov = Confirmed
     /\ PaymentInfo.razorpayPaymentId (Order.paymentInfo ow)
        = Some (razorpay_payment_id req)
     /\ PaymentInfo.razorpayPaymentId (Order.paymentInfo ov)
        = Some (razorpay_payment_id req)
     /\ PaymentInfo.status (Order.paymentInfo ow) = PayPaid
     /\ PaymentInfo.status (Order.paymentInfo ov) = PayCompleted
     /\ PaymentInfo.paidAt (Order.paymentInfo ow) = Some now
     /\ same_contents ow ov)
  /\ (forall id, id <> orderId req ->
                 orders by_webhook !! id = orders by_redirect !! id)
  /\ (quantities_positive (Order.items order) ->
      covers (products db) (Order.items order) ->
      code (fst (verify' req db)) = 200
      /\ products by_webhook = products by_redirect
      /\ (forall k, stock_at (products by_webhook) k
                    = stock_at (products by_redirect) k)).
Proof.
  intros Hu Hc Hs Ho Hid Hpid by_webhook by_redirect.
  unfold by_webhook, by_redirect.
  rewrite (verify_checked _ _ _ req db _ Hu Hc Hs), Ho.
  rewrite bool_decide_eq_true_2 by reflexivity. simpl.
  unfold handlePaymentCaptured. rewrite Hid, Ho.
  split; [|split].
  - exists (captured order payment now),
      (verified order (razorpay_payment_id req)).
    destruct (verify_items (Order.items order) (products db)); simpl;
      rewrite !lookup_insert_eq; rewrite Hpid; by repeat split.
  - intros id Hne.
    destruct (verify_items (Order.items order) (products db)); simpl;
      by rewrite !lookup_insert_ne.
  - intros Hq Hcov. rewrite (verify_items_covered _ _ Hq Hcov).
    destruct (capture_items_covered _ _ Hq Hcov) as (products' & Hrun & _).
    rewrite Hrun. simpl. by repeat split.
Qed.

End ConfirmationPaths.

Lemma forged_payment_signature_rejected_witness :
  razorpay_signature (verify_request (Some alice) "pay_Q1" "forged")
  <> expected_signature sample_hmac "key"
       (verify_request (Some alice) "pay_Q1" "forged")
  /\ snd (verify_payment hex24 sample_hmac "key"
            (verify_request (Some alice) "pay_Q1" "forged") (shop 2 5))
     = shop 2 5
  /\ code (fst (verify_payment hex24 sample_hmac "key"
                  (verify_request (Some alice) "pay_Q1" "forged")
                  (shop 2 5)))
     = 400.
Proof.
  assert (H : razorpay_signature (verify_request (Some alice) "pay_Q1" "forged")
              <> expected_signature sample_hmac "key"
                   (verify_request (Some alice) "pay_Q1" "forged"))
    by (vm_compute; discriminate).
  split; [exact H|].
  destruct (forged_payment_signature_rejected hex24 sample_hmac "key"
              (verify_request (Some alice) "pay_Q1" "forged") (shop 2 5) H)
    as (Hdb & _ & H400 & _).
  split; [exact Hdb|]. apply H400. by exists alice.
Defined.

(** A forged signature from nobody: [requireAuth] answers 401 before the
    signature is looked at. *)
Lemma forged_signature_unauthenticated_counterexample :
  razorpay_signature (verify_request None "pay_Q1" "forged")
  <> expected_signature sample_hmac "key"
       (verify_request None "pay_Q1" "forged")
  /\ fst (verify_payment hex24 sample_hmac "key"
            (verify_request None "pay_Q1" "forged") (shop 2 5))
     = mkResponse 401 (Msg AuthenticationRequired)
  /\ code (fst (verify_payment hex24 sample_hmac "key"
                  (verify_request None "pay_Q1" "forged") (shop 2 5)))
     <> 400.
Proof.
  split; [vm_compute; discriminate|].
  split; [vm_compute; reflexivity | vm_compute; discriminate].
Qed.

Lemma alice_is_not_bob : Some bob <> Some (Order.user (rose_order 2)).
Proof. vm_compute. discriminate. Qed.

(** Bob presents a valid signature for Alice's order. *)
Lemma verify_payment_owner_only_witness :
  Some bob <> Some (Order.user (rose_order 2))
  /\ verify_payment hex24 sample_hmac "key"
       (verify_request (Some bob) "pay_Q1"
          (sample_hmac "key" "order_Q1|pay_Q1"))
       (shop 2 5)
     = (mkResponse 403 (Msg Unauthorized), shop 2 5).
Proof.
  split; [exact alice_is_not_bob|].
  apply (proj2 (verify_payment_owner_only hex24 sample_hmac "key"
                  (verify_request (Some bob) "pay_Q1"
                     (sample_hmac "key" "order_Q1|pay_Q1"))
                  (shop 2 5) (rose_order 2) eq_refl alice_is_not_bob)).
  - by exists bob.
  - vm_compute. reflexivity.
  - vm_compute. reflexivity.
Defined.

(** Bob presents a valid signature for Alice's order with an empty
    payment id: the field checks answer 400 before the owner is looked
    at. *)
Lemma owner_check_after_fields_counterexample :
  razorpay_signature
    (verify_request (Some bob) "" (sample_hmac "key" "order_Q1|"))
  = expected_signature sample_hmac "key"
      (verify_request (Some bob) "" (sample_hmac "key" "order_Q1|"))
  /\ orders (shop 2 5) !! order_id = Some (rose_order 2)
  /\ Order.user (rose_order 2) <> bob
  /\ verify_payment hex24 sample_hmac "key"
       (verify_request (Some bob) "" (sample_hmac "key" "order_Q1|"))
       (shop 2 5)
     = (mkResponse 400 (ValidationFailed [PaymentIDRequired]), shop 2 5).
Proof.
  split; [vm_compute; reflexivity|].
  split; [vm_compute; reflexivity|].
  split; [vm_compute; discriminate | vm_compute; reflexivity].
Qed.

(** Alice's order for 2 with 5 on the shelf, confirmed on either path:
    the same stock is left, 3. *)
Lemma confirmation_paths_agree_witness :
  covers (products (shop 2 5)) (Order.items (rose_order 2))
  /\ products (handlePaymentCaptured 1700 rose_payment (shop 2 5))
     = products
         (snd (verify_payment hex24 sample_hmac "key"
                 (verify_request (Some alice) "pay_Q1"
                    (sample_hmac "key" "order_Q1|pay_Q1"))
                 (shop 2 5))).
Proof.
  assert (H : covers (products (shop 2 5)) (Order.items (rose_order 2)))
    by (apply shop_covers; lia).
  split; [exact H|].
  assert (Hs : razorpay_signature
                 (verify_request (Some alice) "pay_Q1"
                    (sample_hmac "key" "order_Q1|pay_Q1"))
               = expected_signature sample_hmac "key"
                   (verify_request (Some alice) "pay_Q1"
                      (sample_hmac "key" "order_Q1|pay_Q1")))
    by (vm_compute; reflexivity).
  apply (proj2 (proj2
           (confirmation_paths_agree hex24 sample_hmac "key"
              (verify_request (Some alice) "pay_Q1"
                 (sample_hmac "key" "order_Q1|pay_Q1"))
              (shop 2 5) (rose_order 2) rose_payment 1700
              eq_refl eq_refl Hs eq_refl eq_refl eq_refl))
         (shop_quantities 2 ltac:(lia)) H).
Defined.

(** The same order on the two paths: the verification route answers 200,
    and the payment info it leaves is not the webhook's. *)
Lemma confirmation_paths_counterexample :
  code (fst (verify_payment hex24 sample_hmac "key"
               (verify_request (Some alice) "pay_Q1"
                  (sample_hmac "key" "order_Q1|pay_Q1"))
               (shop 2 5)))
  = 200
  /\ Order.paymentInfo
       <$> orders (handlePaymentCaptured 1700 rose_payment (shop 2 5))
             !! order_id
     <> Order.paymentInfo
          <$> orders
                (snd (verify_payment hex24 sample_hmac "key"
                        (verify_request (Some alice) "pay_Q1"
                           (sample_hmac "key" "order_Q1|pay_Q1"))
                        (shop 2 5)))
                !! order_id.
Proof.
  split; [vm_compute; reflexivity|].
  vm_compute. discriminate.
Qed.

(** With less on the shelf than ordered the loops part ways as well: the
    webhook skips the item, the verification route's save is refused and
    the route answers 500, the order already confirmed. *)
Example uncovered_order_on_both_paths :
  stock_at (products (handlePaymentCaptured 1700 rose_payment (shop 2 1)))
    rose_key
  = Some 1
  /\ code (fst (verify_payment hex24 sample_hmac "key"
                  (verify_request (Some alice) "pay_Q1"
                     (sample_hmac "key" "order_Q1|pay_Q1"))
                  (shop 2 1)))
     = 500
  /\ Order.status
       <$> orders
             (snd (verify_payment hex24 sample_hmac "key"
                     (verify_request (Some alice) "pay_Q1"
                        (sample_hmac "key" "order_Q1|pay_Q1"))
                     (shop 2 1)))
             !! order_id
     = Some Confirmed.
Proof. vm_compute. repeat split. Qed.

(** ** Order numbers *)

Lemma string_length_app (s t : string) :
  String.length (s ++ t)%string = (String.length s + String.length t)%nat.
Proof. induction s as [|c s IH]; simpl; [reflexivity | by rewrite IH]. Qed.

Lemma substring_all (s : string) : substring 0 (String.length s) s = s.
Proof. induction s as [|c s IH]; simpl; [reflexivity | by rewrite IH]. Qed.

Lemma substring_skip (prefix s : string) (k : nat) :
  substring (String.length prefix) k (prefix ++ s)%string = substring 0 k s.
Proof. induction prefix as [|c p IH]; simpl; [reflexivity | exact IH]. Qed.

(** [(prefix + s).slice(-s.length)] is [s]. *)
Lemma slice_last_app (prefix s : string) :
  slice_last (String.length s) (prefix ++ s)%string = s.
Proof.
  unfold slice_last. rewrite string_length_app.
  replace (String.length prefix + String.length s - String.length s)%nat
    with (String.length prefix) by lia.
  rewrite substring_skip. apply substring_all.
Qed.

(** A check that holds on each number of a range holds on the range. *)
Lemma forall_range (P : Z -> bool) (lo count : Z) :
  forallb P (map (fun i => lo + Z.of_nat i) (seq 0 (Z.to_nat count))) = true ->
  forall n, lo <= n < lo + count -> P n = true.
Proof.
  intros H n Hn. rewrite forallb_forall in H. apply H.
  apply in_map_iff. exists (Z.to_nat (n - lo)). split; [lia|].
  apply in_seq. lia.
Qed.

(** Three digits are read back by [parseInt] as the number they write. *)
Lemma digits3_spec (n : Z) :
  0 <= n <= 999 ->
  String.length (digits3 n) = 3%nat /\ parseInt (digits3 n) = Some n.
Proof.
  intros Hn.
  pose proof (forall_range
    (fun n => (String.length (digits3 n) =? 3)%nat
              && bool_decide (parseInt (digits3 n) = Some n)) 0 1000) as H.
  specialize (H ltac:(vm_compute; reflexivity) n ltac:(lia)).
  apply andb_true_iff in H as [H1 H2].
  apply Nat.eqb_eq in H1. apply bool_decide_eq_true_1 in H2. auto.
Qed.

Lemma digits2_length (n : Z) :
  0 <= n <= 99 -> String.length (digits2 n) = 2%nat.
Proof.
  intros Hn.
  pose proof (forall_range
    (fun n => (String.length (digits2 n) =? 2)%nat) 0 100) as H.
  specialize (H ltac:(vm_compute; reflexivity) n ltac:(lia)).
  by apply Nat.eqb_eq in H.
Qed.

(** [getFullYear().toString().slice(-2)] for a four-digit year. *)
Lemma year_digits (y : Z) :
  1000 <= y <= 9999 -> slice_last 2 (pretty y) = digits2 (y mod 100).
Proof.
  intros Hy.
  pose proof (forall_range
    (fun y => bool_decide (slice_last 2 (pretty y) = digits2 (y mod 100)))
    1000 9000) as H.
  specialize (H ltac:(vm_compute; reflexivity) y ltac:(lia)).
  by apply bool_decide_eq_true_1 in H.
Qed.

(** After an order whose number ends in the three digits of [n], the
    sequence is [n + 1]. *)
Lemma next_sequence_after (o : Order.t) (prefix : string) (n : Z) :
  Order.orderNumber o = Some (prefix ++ digits3 n)%string ->
  0 <= n <= 999 ->
  next_sequence (Some o) = Some (n + 1).
Proof.
  intros Ho Hn. destruct (digits3_spec n Hn) as [Hlen Hparse].
  unfold next_sequence. rewrite Ho.
  assert (Ht : truthy (Some (prefix ++ digits3 n)%string) = true).
  { simpl. apply negb_true_iff, String.eqb_neq. intros E.
    apply (f_equal String.length) in E.
    rewrite string_length_app, Hlen in E. simpl in E. lia. }
  rewrite Ht. rewrite <- Hlen at 1. rewrite slice_last_app, Hparse.
  reflexivity.
Qed.

(** Below the thousandth order of a day the number is as C7 describes it:
    ORD, the year, the month and the day in two digits each, and the
    sequence in three digits, one more than the last three digits of the
    day's most recent order. *)
Lemma order_number_daily_sequence (clock : Clock)
    (store : gmap string Order.t) (o : Order.t) (prefix : string) (n : Z) :
  lastOrder_of clock store = Some o ->
  Order.orderNumber o = Some (prefix ++ digits3 n)%string ->
  0 <= n < 999 ->
  1000 <= getFullYear clock <= 9999 ->
  0 <= getMonth clock <= 11 ->
  1 <= getDate clock <= 31 ->
  generate_orderNumber clock store
  = ("ORD" ++ digits2 (getFullYear clock mod 100)
       ++ digits2 (getMonth clock + 1) ++ digits2 (getDate clock)
       ++ digits3 (n + 1))%string
  /\ String.length (digits2 (getFullYear clock mod 100)) = 2%nat
  /\ String.length (digits2 (getMonth clock + 1)) = 2%nat
  /\ String.length (digits2 (getDate clock)) = 2%nat
  /\ String.length (digits3 (n + 1)) = 3%nat.
Proof.
  intros Hlast Ho Hn Hy Hm Hd. unfold generate_orderNumber.
  rewrite Hlast, (next_sequence_after o prefix n Ho) by lia.
  rewrite (year_digits _ Hy). split; [reflexivity|].
  assert (0 <= getFullYear clock mod 100 < 100)
    by (apply Z.mod_pos_bound; lia).
  repeat split; try (apply digits2_length; lia).
  apply digits3_spec. lia.
Qed.

(** The first order of a day. *)
Lemma order_number_first_of_day (clock : Clock)
    (store : gmap string Order.t) :
  lastOrder_of clock store = None ->
  1000 <= getFullYear clock <= 9999 ->
  generate_orderNumber clock store
  = ("ORD" ++ digits2 (getFullYear clock mod 100)
       ++ digits2 (getMonth clock + 1) ++ digits2 (getDate clock)
       ++ "001")%string.
Proof.
  intros Hlast Hy. unfold generate_orderNumber.
  by rewrite Hlast, (year_digits _ Hy).
Qed.

(** An order that is not new, or that comes with a number, keeps what it
    has. *)
Lemma pre_save_keeps isNew clock store doc :
  isNew = false \/ truthy (Order.orderNumber doc) = true ->
  pre_save isNew clock store doc = doc.
Proof.
  unfold pre_save. intros [-> | ->]; [reflexivity|].
  by rewrite andb_false_r.
Qed.

(** The first order of a day is numbered 001. *)
Example first_order_of_the_day :
  Order.orderNumber (pre_save true nov2 ∅ (fresh_order 1793577660000))
  = Some "ORD261102001"%string.
Proof. vm_compute. reflexivity. Qed.

(** An order after number 007 is numbered 008. *)
Example order_after_007 :
  Order.orderNumber
    (pre_save true nov2 (day_of "ORD261102007")
       (fresh_order 1793620900000))
  = Some "ORD261102008"%string.
Proof. vm_compute. reflexivity. Qed.

(** C7 at the thousandth order of a day.  The order after number 999 is
    numbered with the four digits 1000, and the order after that, reading
    the last three digits 000, is numbered 001 again: the number of the
    day's first order, which the unique index on [orderNumber] refuses. *)
Theorem order_number_after_999 :
  let store := day_of "ORD261102999" in
  let thousandth := pre_save true nov2 store (fresh_order 1793620900000) in
  let store' :=
    <["64b7f3a2c9e1d4f5a6b71000" := thousandth]> store in
  let next := pre_save true nov2 store' (fresh_order 1793621000000) in
  Order.orderNumber thousandth = Some "ORD2611021000"%string
  /\ String.length (generate_orderNumber nov2 store) = 13%nat
  /\ Order.orderNumber next = Some "ORD261102001"%string
  /\ Order.orderNumber next
     = Order.orderNumber
         (numbered "ORD261102001" 1793577660000).
Proof. vm_compute. repeat split. Qed.

(** * Properties of the rest of the code *)

(** ** POST /cart/add *)

Section CartAdd.

Variable isMongoId : string -> bool.
Variable castObjectId : string -> option string.
Variable products : gmap string Product.t.

(** What a 200 of POST /cart/add went through. *)
Lemma post_add_200 req item :
  post_add isMongoId castObjectId products req = AddedToCart item ->
  exists _id p v,
    add_chains isMongoId req = []
    /\ castObjectId (add_productId req) = Some _id
    /\ products !! _id = Some p
    /\ Product.active p = true
    /\ find_variant p (add_size req) (add_design req) = Some v
    /\ add_quantity req <= Variant.stock v
    /\ item = cartItem _id req p v.
Proof.
  unfold post_add, findById. intros H.
  destruct (add_chains isMongoId req); [|discriminate].
  destruct (castObjectId (add_productId req)) as [_id|] eqn:Hid;
    [|discriminate].
  destruct (products !! _id) as [p|] eqn:Hp; simpl in H; [|discriminate].
  destruct (Product.active p) eqn:Ha; simpl in H; [|discriminate].
  destruct (find_variant p (add_size req) (add_design req)) as [v|] eqn:Hv;
    [|discriminate].
  destruct (Variant.stock v <? add_quantity req) eqn:Hs; [discriminate|].
  apply Z.ltb_ge in Hs. injection H as <-. exists _id, p, v.
  repeat split; assumption || reflexivity.
Qed.

Lemma add_chains_nil req :
  add_chains isMongoId req = [] ->
  isMongoId (add_productId req) = true
  /\ notEmpty (add_size req) = true
  /\ notEmpty (add_design req) = true
  /\ isInt_1_10 (add_quantity req) = true.
Proof.
  unfold add_chains. intros H.
  destruct (isMongoId (add_productId req)); [|discriminate].
  destruct (notEmpty (add_size req)); [|discriminate].
  destruct (notEmpty (add_design req)); [|discriminate].
  destruct (isInt_1_10 (add_quantity req)); [|discriminate].
  auto.
Qed.

Lemma isInt_1_10_spec q : isInt_1_10 q = true <-> 1 <= q <= 10.
Proof. unfold isInt_1_10. rewrite andb_true_iff, !Z.leb_le. tauto. Qed.

(** X1. An item that POST /cart/add puts in the client's cart is of an
    active product and an existing variant, carries the stored id, title
    and price, asks for 1 to 10 units and for no more than the variant
    holds, and its [maxQuantity], the smaller of the stock and 10, is at
    least the quantity. *)
Theorem add_to_cart_within_stock (req : AddRequest) (item : CartItem.t) :
  post_add isMongoId castObjectId products req = AddedToCart item ->
  exists _id p v,
    castObjectId (add_productId req) = Some _id
    /\ products !! _id = Some p
    /\ Product.active p = true
    /\ find_variant p (add_size req) (add_design req) = Some v
    /\ CartItem.productId item = _id
    /\ CartItem.title item = Some (Product.title p)
    /\ CartItem.price item = Some (Product.price p)
    /\ CartItem.quantity item = add_quantity req
    /\ 1 <= CartItem.quantity item <= 10
    /\ CartItem.quantity item <= Variant.stock v
    /\ CartItem.maxQuantity item = Some (Z.min (Variant.stock v) 10)
    /\ CartItem.quantity item <= Z.min (Variant.stock v) 10.
Proof.
  intros H.
  apply post_add_200 in H as (_id & p & v & Hc & Hid & Hp & Ha & Hv & Hs & ->).
  apply add_chains_nil in Hc as (_ & _ & _ & Hq).
  apply isInt_1_10_spec in Hq.
  exists _id, p, v. simpl. repeat split; try done; lia.
Qed.

(** The input checks of POST /cart/validate on a cart of one item. *)
Lemma validate_chains_single item :
  validate_chains isMongoId [item] = [] <->
  isMongoId (CartItem.productId item) = true
  /\ isInt_1_10 (CartItem.quantity item) = true.
Proof.
  unfold validate_chains; simpl.
  destruct (isMongoId (CartItem.productId item));
    destruct (isInt_1_10 (CartItem.quantity item)); simpl;
    split; try done; intros [? ?]; done.
Qed.

(** X2. An item accepted by POST /cart/add, posted back as a cart of one
    against the same store, is accepted by POST /cart/validate: the reply
    is 200 and the validated item is priced from the store, at the price
    the client was shown.  The id of the item is the product's [_id]
    written back as a string: it is taken to pass the validator and to
    cast to itself. *)
Theorem added_item_validates (req : AddRequest) (item : CartItem.t) :
  (forall _id,
     castObjectId (add_productId req) = Some _id ->
     isMongoId _id = true /\ castObjectId _id = Some _id) ->
  post_add isMongoId castObjectId products req = AddedToCart item ->
  exists cart v price,
    post_validate isMongoId castObjectId products [item]
    = mkResponse 200 (CartBody cart)
    /\ Cart.items cart = [v]
    /\ priced_from castObjectId products item v
    /\ CartItem.price item = Some price
    /\ OrderItem.price v = price.
Proof.
  intros Hcast H.
  apply post_add_200 in H as (_id & p & v & Hc & Hid & Hp & Ha & Hv & Hs & ->).
  apply add_chains_nil in Hc as (_ & _ & _ & Hq).
  destruct (Hcast _id Hid) as [Hmongo Hself].
  unfold post_validate.
  rewrite (proj2 (validate_chains_single _)) by (simpl; auto).
  simpl. unfold findById. rewrite Hself, Hp. simpl. rewrite Ha, Hv. simpl.
  assert (Hlt : (Variant.stock v <? add_quantity req) = false)
    by (apply Z.ltb_ge; exact Hs).
  rewrite Hlt.
  eexists _, _, (Product.price p). split; [reflexivity|]. simpl.
  split; [reflexivity|].
  split; [exists _id, p, v; simpl; repeat split; eauto|].
  split; reflexivity.
Qed.

(** X3. For a size and a design that are not empty, POST /cart/add
    accepts a request exactly when POST /cart/validate accepts the cart
    made of that one item; on a missing or inactive product the first
    answers 404 where the second answers 400. *)
Theorem add_accepts_iff_validate_accepts (item : CartItem.t) :
  let req := mkAddRequest (CartItem.productId item) (CartItem.size item)
               (CartItem.design item) (CartItem.quantity item) in
  notEmpty (CartItem.size item) = true ->
  notEmpty (CartItem.design item) = true ->
  (add_code (post_add isMongoId castObjectId products req) = 200
   <-> code (post_validate isMongoId castObjectId products [item]) = 200)
  /\ (add_code (post_add isMongoId castObjectId products req) = 404 ->
      code (post_validate isMongoId castObjectId products [item]) = 400
      /\ match findById castObjectId products (CartItem.productId item) with
         | Return (Some (_, p)) => Product.active p = false
         | Return None => True
         | Throw => False
         end).
Proof.
  intros req Hs Hd. unfold post_add, post_validate, add_chains,
    validate_chains; simpl. rewrite Hs, Hd.
  destruct (isMongoId (CartItem.productId item)); simpl;
    [|split; [split|]; discriminate].
  destruct (isInt_1_10 (CartItem.quantity item)); simpl;
    [|split; [split|]; discriminate].
  destruct (findById castObjectId products (CartItem.productId item))
    as [|[[_id p]|]]; simpl;
    [split; [split|]; discriminate | | split; [split; discriminate | auto]].
  destruct (Product.active p); simpl; [|split; [split; discriminate | auto]].
  unfold CartItem.size, CartItem.design in *.
  destruct (CartItem.variant item) as [[size design]|]; simpl in *;
    [|discriminate].
  destruct (find_variant p size design) as [v|]; simpl;
    [|split; [split|]; discriminate].
  destruct (Variant.stock v <? CartItem.quantity item); simpl;
    split; try split; try discriminate; reflexivity.
Qed.

End CartAdd.

Lemma add_to_cart_within_stock_witness :
  post_add hex24 objectId24 (catalog 40 5)
    (mkAddRequest rose_id "M" "plain" 2)
  = AddedToCart (rose_added 2 5)
  /\ CartItem.maxQuantity (rose_added 2 5) = Some 5
  /\ CartItem.quantity (rose_added 2 5) <= 5.
Proof.
  assert (H : post_add hex24 objectId24 (catalog 40 5)
                (mkAddRequest rose_id "M" "plain" 2)
              = AddedToCart (rose_added 2 5)) by (vm_compute; reflexivity).
  split; [exact H|].
  destruct (add_to_cart_within_stock hex24 objectId24 (catalog 40 5) _ _ H)
    as (_id & p & v & Hid & Hp & _ & Hv & _ & _ & _ & _ & _ & Hle & Hmax & _).
  assert (E : v = Variant.mk "M" "plain" 5).
  { vm_compute in Hid. injection Hid as <-.
    vm_compute in Hp. injection Hp as <-. vm_compute in Hv. congruence. }
  subst v. split; [exact Hmax | exact Hle].
Defined.

Lemma rose_id_casts (_id : string) :
  objectId24 rose_id = Some _id ->
  hex24 _id = true /\ objectId24 _id = Some _id.
Proof.
  intros H. vm_compute in H. injection H as <-.
  split; vm_compute; reflexivity.
Qed.

Lemma added_item_validates_witness :
  post_add hex24 objectId24 (catalog 40 5)
    (mkAddRequest rose_id "M" "plain" 2)
  = AddedToCart (rose_added 2 5)
  /\ code (post_validate hex24 objectId24 (catalog 40 5) [rose_added 2 5])
     = 200.
Proof.
  assert (H : post_add hex24 objectId24 (catalog 40 5)
                (mkAddRequest rose_id "M" "plain" 2)
              = AddedToCart (rose_added 2 5)) by (vm_compute; reflexivity).
  split; [exact H|].
  destruct (added_item_validates hex24 objectId24 (catalog 40 5)
              (mkAddRequest rose_id "M" "plain" 2) (rose_added 2 5)
              rose_id_casts H)
    as (cart & v & price & -> & _).
  reflexivity.
Defined.

Lemma add_accepts_iff_validate_accepts_witness :
  notEmpty (CartItem.size (rose_item 2 None)) = true
  /\ notEmpty (CartItem.design (rose_item 2 None)) = true
  /\ code (post_validate hex24 objectId24 (catalog 40 5) [rose_item 2 None])
     = 200.
Proof.
  split; [reflexivity|]. split; [reflexivity|].
  apply (proj1 (add_accepts_iff_validate_accepts hex24 objectId24
                  (catalog 40 5) (rose_item 2 None) eq_refl eq_refl)).
  vm_compute. reflexivity.
Defined.

(** An id in upper case finds the product on both routes; an id that the
    validator accepts and the cast refuses is answered 500 on both. *)
Example ids_are_cast :
  add_code (post_add hex24 objectId24 (catalog 40 5)
              (mkAddRequest "64B7F3A2C9E1D4F5A6B7C8D9" "M" "plain" 2))
  = 200
  /\ add_code (post_add mongoId24 objectId24 (catalog 40 5)
                 (mkAddRequest prefixed_id "M" "plain" 2))
     = 500
  /\ code (post_validate mongoId24 objectId24 (catalog 40 5)
             [prefixed_item 2])
     = 500.
Proof. vm_compute. repeat split. Qed.

(** ** The webhook's events *)

Lemma same_contents_refl o : same_contents o o.
Proof. by repeat split. Qed.

Lemma same_contents_trans o1 o2 o3 :
  same_contents o1 o2 -> same_contents o2 o3 -> same_contents o1 o3.
Proof.
  unfold same_contents. intros H1 H2.
  destruct H1 as (?&?&?&?&?&?&?&?&?), H2 as (?&?&?&?&?&?&?&?&?).
  repeat split; congruence.
Qed.

Lemma same_contents_with_payment o status info :
  same_contents o (with_payment o status info).
Proof. by repeat split. Qed.

Lemma same_orders_refl m : same_orders m m.
Proof.
  intros id. destruct (m !! id); constructor. apply same_contents_refl.
Qed.

Lemma same_orders_trans m1 m2 m3 :
  same_orders m1 m2 -> same_orders m2 m3 -> same_orders m1 m3.
Proof.
  intros H1 H2 id. specialize (H1 id). specialize (H2 id).
  destruct H1 as [o1 o2 H12|]; inversion H2; subst; constructor.
  by apply same_contents_trans with o2.
Qed.

(** Saving an order under its id, payment and status rewritten. *)
Lemma same_orders_insert m id o status info :
  m !! id = Some o ->
  same_orders m (<[id := with_payment o status info]> m).
Proof.
  intros Ho id'. destruct (decide (id' = id)) as [->|Hne].
  - rewrite lookup_insert_eq, Ho. constructor.
    apply same_contents_with_payment.
  - rewrite lookup_insert_ne by done. apply same_orders_refl.
Qed.

(** What [findOne] returns is an order of the store with the gateway id
    asked for. *)
Lemma findOne_razorpayOrderId_Some id m key order :
  findOne_razorpayOrderId id m = Some (key, order) ->
  m !! key = Some order
  /\ PaymentInfo.razorpayOrderId (Order.paymentInfo order) = Some id.
Proof.
  unfold findOne_razorpayOrderId. intros H.
  apply find_some in H as [Hin Hb]. simpl in Hb.
  apply bool_decide_eq_true_1 in Hb. split; [|exact Hb].
  apply elem_of_map_to_list. by apply list_elem_of_In.
Qed.

Lemma findOne_razorpayOrderId_None id (m : gmap string Order.t) :
  (forall key order,
     m !! key = Some order ->
     PaymentInfo.razorpayOrderId (Order.paymentInfo order) <> Some id) ->
  findOne_razorpayOrderId id m = None.
Proof.
  intros H. unfold findOne_razorpayOrderId.
  destruct (List.find _ _) as [[key order]|] eqn:Hf; [|reflexivity].
  apply (findOne_razorpayOrderId_Some id m key order) in Hf as [Ho Hid].
  by destruct (H key order Ho).
Qed.

Section WebhookEvents.

Variable hmac_sha256_hex : string -> string -> string.
Variable webhookSecret : string.
Variable parse_event : string -> option Event.

Abbreviation webhook2 :=
  (webhook_razorpay hmac_sha256_hex webhookSecret parse_event).
Abbreviation deliver2 := (deliver hmac_sha256_hex webhookSecret parse_event).
Abbreviation deliver_all2 :=
  (deliver_all hmac_sha256_hex webhookSecret parse_event).

Lemma handlePaymentCaptured_same_orders now payment db :
  same_orders (orders db) (orders (handlePaymentCaptured now payment db)).
Proof.
  unfold handlePaymentCaptured.
  destruct (truthy_id (notes_orderId payment)) as [id|];
    [|apply same_orders_refl].
  destruct (orders db !! id) as [o|] eqn:Ho; [|apply same_orders_refl].
  simpl. by apply same_orders_insert.
Qed.

Lemma handlePaymentFailed_same_orders payment db :
  same_orders (orders db) (orders (handlePaymentFailed payment db)).
Proof.
  unfold handlePaymentFailed.
  destruct (truthy_id (notes_orderId payment)) as [id|];
    [|apply same_orders_refl].
  destruct (orders db !! id) as [o|] eqn:Ho; [|apply same_orders_refl].
  simpl. by apply same_orders_insert.
Qed.

Lemma handleOrderPaid_same_orders now id db :
  same_orders (orders db) (orders (handleOrderPaid now id db)).
Proof.
  unfold handleOrderPaid.
  destruct (findOne_razorpayOrderId id (orders db)) as [[key o]|] eqn:Hf;
    [|apply same_orders_refl].
  apply findOne_razorpayOrderId_Some in Hf as [Ho _].
  simpl. by apply same_orders_insert.
Qed.

Lemma deliver_same_orders db d :
  same_orders (orders db) (orders (deliver2 db d)).
Proof.
  unfold deliver, webhook_razorpay, req_body_toString.
  destruct (negb _); [apply same_orders_refl|].
  destruct (parse_event (raw_body d)) as [[payment|payment|id|name]|];
    simpl.
  - apply handlePaymentCaptured_same_orders.
  - apply handlePaymentFailed_same_orders.
  - apply handleOrderPaid_same_orders.
  - apply same_orders_refl.
  - apply same_orders_refl.
Qed.


(** X5. Whatever is delivered to the webhook, in whatever order, the
    store keeps the same orders under the same ids, and each of them
    keeps its number, user, items, totals and creation time: deliveries
    change at most the status and the payment info of existing orders. *)
Theorem webhook_keeps_order_contents (deliveries : list Delivery)
    (db : Db) :
  same_orders (orders db) (orders (deliver_all2 deliveries db)).
Proof.
  revert db. unfold deliver_all.
  induction deliveries as [|d rest IH]; intros db; simpl.
  - apply same_orders_refl.
  - eapply same_orders_trans; [apply deliver_same_orders | apply IH].
Qed.

(** X6. The answer of the webhook does not depend on the store or on the
    time.  With [body] the body as the handler reads it (the raw body
    when [express.raw] buffered it, "[object Object]" otherwise): the
    answer is 400 when the header is not the HMAC of [body]; when it is,
    the answer is 200 for every [body] that parses, whether or not the
    event names an order that exists, and 500 exactly when [body] does
    not parse. *)
Theorem webhook_answer_ignores_store (now now' : Z)
    (signature : option string) (buffered : bool) (raw : string)
    (db db' : Db) :
  let body := req_body_toString buffered raw in
  fst (webhook2 now signature buffered raw db)
  = fst (webhook2 now' signature buffered raw db')
  /\ (signature <> Some (hmac_sha256_hex webhookSecret body) ->
      code (fst (webhook2 now signature buffered raw db)) = 400)
  /\ (signature = Some (hmac_sha256_hex webhookSecret body) ->
      (is_Some (parse_event body) ->
       fst (webhook2 now signature buffered raw db)
       = mkResponse 200 StatusOk)
      /\ (parse_event body = None ->
          webhook2 now signature buffered raw db
          = (mkResponse 500 WebhookProcessingFailed, db))).
Proof.
  intros body. unfold webhook_razorpay. fold body. split; [|split].
  - destruct (negb _); [reflexivity|].
    by destruct (parse_event body) as [[payment|payment|id|name]|].
  - intros H. by rewrite bool_decide_eq_false_2.
  - intros ->. rewrite bool_decide_eq_true_2 by reflexivity. simpl. split.
    + intros [e He]. rewrite He. by destruct e.
    + intros ->. reflexivity.
Qed.

(** X7. A [payment.failed] event that arrives after the capture of the
    same payment was processed cancels the order and marks the payment
    failed, and puts nothing back on the shelf: the stock stays as the
    capture left it, reduced by what the order asked when the stock
    covered it, and the order keeps its paidAt stamp. *)
Theorem failure_after_capture_keeps_stock (now : Z)
    (payment : PaymentEntity) (orderId : string) (order : Order.t)
    (db : Db) :
  truthy_id (notes_orderId payment) = Some orderId ->
  orders db !! orderId = Some order ->
  let captured_db := handlePaymentCaptured now payment db in
  let failed_db := handlePaymentFailed payment captured_db in
  products failed_db = products captured_db
  /\ (exists o,
        orders failed_db !! orderId = Some o
        /\ Order.status o = Cancelled
        /\ PaymentInfo.status (Order.paymentInfo o) = PayFailed
        /\ PaymentInfo.paidAt (Order.paymentInfo o) = Some now
        /\ PaymentInfo.razorpayPaymentId (Order.paymentInfo o)
           = payment_id payment)
  /\ (quantities_positive (Order.items order) ->
      covers (products db) (Order.items order) ->
      forall k,
        stock_at (products failed_db) k
        = (fun s => s - ordered_qty (Order.items order) k)
            <$> stock_at (products db) k).
Proof.
  intros Hid Ho captured_db failed_db.
  destruct (handlePaymentCaptured_products now payment db orderId order
              Hid Ho) as [Hp Ho1].
  fold captured_db in Hp, Ho1.
  assert (Hf : failed_db
               = mkDb (<[orderId := failed (captured order payment now)]>
                         (orders captured_db))
                      (products captured_db)).
  { unfold failed_db, handlePaymentFailed. by rewrite Hid, Ho1. }
  rewrite Hf. simpl. split; [reflexivity|]. split.
  - eexists. rewrite lookup_insert_eq. split; [reflexivity|]. by simpl.
  - intros Hq Hc k. rewrite Hp.
    destruct (capture_items_covered _ _ Hq Hc) as (products' & -> & Hs).
    simpl. apply Hs.
Qed.

(** X8. An [order.paid] event touches no product and at most one order,
    one whose [paymentInfo.razorpayOrderId] is the event's order id,
    which it saves as confirmed and paid at the time of processing; when
    no order of the store has that gateway id, nothing changes. *)
Theorem order_paid_confirms_by_gateway_id (now : Z) (id : string)
    (db : Db) :
  products (handleOrderPaid now id db) = products db
  /\ (forall key,
        orders (handleOrderPaid now id db) !! key = orders db !! key
        \/ exists o,
             orders db !! key = Some o
             /\ PaymentInfo.razorpayOrderId (Order.paymentInfo o) = Some id
             /\ orders (handleOrderPaid now id db) !! key
                = Some (paid o now))
  /\ (forall key key',
        orders (handleOrderPaid now id db) !! key <> orders db !! key ->
        orders (handleOrderPaid now id db) !! key' <> orders db !! key' ->
        key = key')
  /\ ((forall key o,
         orders db !! key = Some o ->
         PaymentInfo.razorpayOrderId (Order.paymentInfo o) <> Some id) ->
      handleOrderPaid now id db = db).
Proof.
  unfold handleOrderPaid.
  destruct (findOne_razorpayOrderId id (orders db)) as [[k o]|] eqn:Hf.
  - apply findOne_razorpayOrderId_Some in Hf as [Ho Hid]. simpl.
    split; [reflexivity|]. split; [|split].
    + intros key. destruct (decide (key = k)) as [->|Hne].
      * right. exists o. by rewrite lookup_insert_eq.
      * left. by rewrite lookup_insert_ne.
    + intros key key' H1 H2.
      destruct (decide (key = k)) as [->|Hne];
        [|by rewrite lookup_insert_ne in H1].
      destruct (decide (key' = k)) as [->|Hne'];
        [done | by rewrite lookup_insert_ne in H2].
    + intros H. by destruct (H k o Ho).
  - split; [reflexivity|]. split; [by left|]. split; [done|].
    intros _. by destruct db.
Qed.

End WebhookEvents.


Lemma failure_after_capture_keeps_stock_witness :
  orders (shop 2 5) !! order_id = Some (rose_order 2)
  /\ stock_at
       (products
          (handlePaymentFailed rose_payment
             (handlePaymentCaptured 1700 rose_payment (shop 2 5))))
       rose_key
     = Some 3.
Proof.
  split; [reflexivity|].
  destruct (failure_after_capture_keeps_stock 1700 rose_payment order_id
              (rose_order 2) (shop 2 5) eq_refl eq_refl)
    as (_ & _ & Hstock).
  refine (eq_trans
            (Hstock (shop_quantities 2 ltac:(lia))
               (shop_covers 2 5 ltac:(lia)) rose_key) _).
  vm_compute. reflexivity.
Defined.

(** ** POST /cart/verify-payment, the stock side *)

(** The loop of the route keeps every stock of the store non-negative:
    the save that would not is refused. *)
Lemma verify_items_nonneg items :
  forall products,
    stock_nonneg products ->
    stock_nonneg (store_of (verify_items items products)).
Proof.
  induction items as [|item rest IH]; intros products Hinv; simpl;
    [exact Hinv|].
  destruct (products !! OrderItem.product item) as [p|] eqn:Hp;
    [|by apply IH].
  destruct (find_variant p (OrderItem.size item) (OrderItem.design item))
    as [v|]; [|by apply IH].
  destruct (save_stock products (OrderItem.product item) p
              (OrderItem.size item) (OrderItem.design item)
              (Variant.stock v - OrderItem.quantity item))
    as [products'|] eqn:Hsave; [|exact Hinv].
  apply IH. eapply save_stock_nonneg; eauto.
Qed.

Lemma save_stock_accepted products id p size design n products' :
  save_stock products id p size design n = Some products' -> 0 <= n.
Proof.
  unfold save_stock. destruct (n <? 0) eqn:Hn; [discriminate|].
  intros _. by apply Z.ltb_ge.
Qed.


(** An item that asks more than its variant holds stops the loop: its
    save, or an earlier one, is refused. *)
Lemma verify_items_uncovered items :
  forall products item s,
    quantities_positive items ->
    In item items ->
    stock_at products (key_of item) = Some s ->
    s < OrderItem.quantity item ->
    exists products', verify_items items products = Threw products'.
Proof.
  induction items as [|head rest IH]; intros products item s Hq Hin Hs Hlt;
    [destruct Hin|].
  assert (Hq' : quantities_positive rest)
    by (intros i Hi; apply Hq; by right).
  simpl.
  destruct Hin as [->|Hin].
  - unfold stock_at, key_of in Hs; simpl in Hs.
    destruct (products !! OrderItem.product item) as [p|]; [|discriminate].
    destruct (find_variant p (OrderItem.size item) (OrderItem.design item))
      as [v|]; [|discriminate].
    injection Hs as <-. unfold save_stock.
    assert (Hneg : (Variant.stock v - OrderItem.quantity item <? 0) = true)
      by (apply Z.ltb_lt; lia).
    rewrite Hneg. eauto.
  - destruct (products !! OrderItem.product head) as [p|] eqn:Hp;
      [|by apply IH with item s].
    destruct (find_variant p (OrderItem.size head) (OrderItem.design head))
      as [v|] eqn:Hv; [|by apply IH with item s].
    destruct (save_stock products (OrderItem.product head) p
                (OrderItem.size head) (OrderItem.design head)
                (Variant.stock v - OrderItem.quantity head))
      as [products1|] eqn:Hsave; [|eauto].
    pose proof (save_stock_accepted _ _ _ _ _ _ _ Hsave) as Hn.
    destruct (save_stock_spec products _ p _ _ v _ Hp Hv Hn)
      as (products1' & Hsave' & Hstock).
    rewrite Hsave in Hsave'. injection Hsave' as <-.
    assert (1 <= OrderItem.quantity head) by (apply Hq; by left).
    assert (Hat : stock_at products (key_of head) = Some (Variant.stock v)).
    { unfold stock_at, key_of; simpl. by rewrite Hp, Hv. }
    specialize (Hstock (key_of item)). fold (key_of head) in Hstock.
    case_bool_decide as Hk.
    + apply IH with item (Variant.stock v - OrderItem.quantity head);
        try done.
      rewrite Hk, Hat in Hs. injection Hs as <-. lia.
    + apply IH with item s; try done. by rewrite Hstock.
Qed.

Section VerifyStock.

Variable isMongoId : string -> bool.
Variable hmac_sha256_hex : string -> string -> string.
Variable keySecret : string.

Abbreviation verify2 :=
  (verify_payment isMongoId hmac_sha256_hex keySecret).

(** X9. The two confirmation paths do not know of each other: when the
    webhook has processed the capture of a payment and the client then
    posts the verification of the same payment (or the other way round),
    the stock covering the order each time, every variant loses twice
    what the order asks of it. *)
Theorem both_paths_double_decrement (req : VerifyRequest) (db : Db)
    (order : Order.t) (payment : PaymentEntity) (now : Z) :
  req_user req = Some (Order.user order) ->
  verify_chains isMongoId req = [] ->
  razorpay_signature req
  = expected_signature hmac_sha256_hex keySecret req ->
  orders db !! orderId req = Some order ->
  truthy_id (notes_orderId payment) = Some (orderId req) ->
  quantities_positive (Order.items order) ->
  covers (products db) (Order.items order) ->
  (covers (products (handlePaymentCaptured now payment db))
     (Order.items order) ->
   code (fst (verify2 req (handlePaymentCaptured now payment db))) = 200
   /\ forall k,
        stock_at
          (products (snd (verify2 req (handlePaymentCaptured now payment db))))
          k
        = (fun s => s - 2 * ordered_qty (Order.items order) k)
            <$> stock_at (products db) k)
  /\ (covers (products (snd (verify2 req db))) (Order.items order) ->
      forall k,
        stock_at
          (products (handlePaymentCaptured now payment (snd (verify2 req db))))
          k
        = (fun s => s - 2 * ordered_qty (Order.items order) k)
            <$> stock_at (products db) k).
Proof.
  intros Hu Hc Hs Ho Hid Hq Hcov.
  destruct (capture_items_covered _ _ Hq Hcov) as (products1 & Hrun1 & Hs1).
  split.
  - destruct (handlePaymentCaptured_products now payment db _ order Hid Ho)
      as [Hp1 Ho1].
    intros Hcov2.
    rewrite (verify_checked _ _ _ req _ _ Hu Hc Hs), Ho1.
    rewrite bool_decide_eq_true_2 by reflexivity. simpl.
    rewrite (verify_items_covered _ _ Hq Hcov2).
    destruct (capture_items_covered _ _ Hq Hcov2)
      as (products2 & Hrun2 & Hs2).
    rewrite Hrun2. simpl. split; [reflexivity|].
    intros k. rewrite Hs2, Hp1, Hrun1. simpl. rewrite Hs1.
    destruct (stock_at (products db) k); simpl; [f_equal; lia | done].
  - rewrite (verify_checked _ _ _ req _ _ Hu Hc Hs), Ho.
    rewrite bool_decide_eq_true_2 by reflexivity. simpl.
    rewrite (verify_items_covered _ _ Hq Hcov), Hrun1. simpl.
    intros Hcov2 k.
    unfold handlePaymentCaptured. rewrite Hid. simpl.
    rewrite lookup_insert_eq. simpl.
    destruct (capture_items_covered _ _ Hq Hcov2)
      as (products2 & Hrun2 & Hs2).
    rewrite Hrun2. simpl. rewrite Hs2, Hs1.
    destruct (stock_at (products db) k); simpl; [f_equal; lia | done].
Qed.

(** X10. POST /cart/verify-payment never stores a negative stock: from a
    store whose stocks are all non-negative, whatever the request, the
    stocks after it are non-negative, the save of a stock below zero
    being refused by the schema's [min: 0]. *)
Theorem verify_payment_stock_never_negative (req : VerifyRequest)
    (db : Db) :
  stock_nonneg (products db) ->
  stock_nonneg (products (snd (verify2 req db))).
Proof.
  intros Hinv. unfold verify_payment.
  destruct (requireAuth _ _); [exact Hinv|].
  destruct (verify_chains isMongoId req); [|exact Hinv].
  destruct (negb (String.eqb _ _)); [exact Hinv|].
  destruct (orders db !! orderId req) as [order|]; [|exact Hinv].
  destruct (negb (bool_decide _)); [exact Hinv|].
  pose proof (verify_items_nonneg (Order.items order) _ Hinv) as H.
  by destruct (verify_items (Order.items order) (products db)).
Qed.

(** X11. When the owner's verification of a valid payment meets an item
    that asks more than its variant holds, the route answers 500, and the
    order is stored as confirmed all the same: the order is saved before
    the stock is looked at. *)
Theorem verify_payment_short_stock (req : VerifyRequest) (db : Db)
    (order : Order.t) (item : OrderItem.t) (s : Z) :
  req_user req = Some (Order.user order) ->
  verify_chains isMongoId req = [] ->
  razorpay_signature req
  = expected_signature hmac_sha256_hex keySecret req ->
  orders db !! orderId req = Some order ->
  quantities_positive (Order.items order) ->
  In item (Order.items order) ->
  stock_at (products db) (key_of item) = Some s ->
  s < OrderItem.quantity item ->
  fst (verify2 req db) = mkResponse 500 (Msg ServerError)
  /\ orders (snd (verify2 req db)) !! orderId req
     = Some (verified order (razorpay_payment_id req))
  /\ Order.status (verified order (razorpay_payment_id req)) = Confirmed.
Proof.
  intros Hu Hc Hs Ho Hq Hin Hat Hlt.
  rewrite (verify_checked _ _ _ req _ _ Hu Hc Hs), Ho.
  rewrite bool_decide_eq_true_2 by reflexivity. simpl.
  destruct (verify_items_uncovered _ _ item s Hq Hin Hat Hlt)
    as [products' ->].
  simpl. split; [reflexivity|]. split; [apply lookup_insert_eq | reflexivity].
Qed.


End VerifyStock.

Lemma both_paths_double_decrement_witness :
  covers (products (shop 2 5)) (Order.items (rose_order 2))
  /\ covers (products (handlePaymentCaptured 1700 rose_payment (shop 2 5)))
       (Order.items (rose_order 2))
  /\ stock_at
       (products
          (snd (verify_payment hex24 sample_hmac "key" alice_request
                  (handlePaymentCaptured 1700 rose_payment (shop 2 5)))))
       rose_key
     = Some 1.
Proof.
  assert (H1 : covers (products (shop 2 5)) (Order.items (rose_order 2)))
    by (apply shop_covers; lia).
  assert (H2 : covers
                 (products (handlePaymentCaptured 1700 rose_payment
                              (shop 2 5)))
                 (Order.items (rose_order 2))).
  { assert (E : products (handlePaymentCaptured 1700 rose_payment (shop 2 5))
                = catalog 40 3) by (vm_compute; reflexivity).
    rewrite E. apply shop_covers; lia. }
  split; [exact H1|]. split; [exact H2|].
  destruct (both_paths_double_decrement hex24 sample_hmac "key"
              alice_request (shop 2 5) (rose_order 2) rose_payment 1700)
    as [Hone _].
  - reflexivity.
  - vm_compute. reflexivity.
  - vm_compute. reflexivity.
  - vm_compute. reflexivity.
  - vm_compute. reflexivity.
  - apply shop_quantities. lia.
  - exact H1.
  - destruct (Hone H2) as [_ Hk].
    refine (eq_trans (Hk rose_key) _). vm_compute. reflexivity.
Defined.

Lemma verify_payment_stock_never_negative_witness :
  stock_nonneg (products (shop 2 1))
  /\ stock_nonneg
       (products
          (snd (verify_payment hex24 sample_hmac "key" alice_request
                  (shop 2 1)))).
Proof.
  assert (H : stock_nonneg (products (shop 2 1)))
    by (apply catalog_nonneg; lia).
  split; [exact H|].
  apply (verify_payment_stock_never_negative hex24 sample_hmac "key"
           alice_request (shop 2 1) H).
Defined.

Lemma verify_payment_short_stock_witness :
  stock_at (products (shop 2 1)) rose_key = Some 1
  /\ fst (verify_payment hex24 sample_hmac "key" alice_request (shop 2 1))
     = mkResponse 500 (Msg ServerError)
  /\ Order.status
       <$> orders
             (snd (verify_payment hex24 sample_hmac "key" alice_request
                     (shop 2 1)))
             !! order_id
     = Some Confirmed.
Proof.
  split; [reflexivity|].
  destruct (verify_payment_short_stock hex24 sample_hmac "key" alice_request
              (shop 2 1) (rose_order 2)
              (rose_line 2) 1)
    as (H500 & Ho & Hst).
  - reflexivity.
  - vm_compute. reflexivity.
  - vm_compute. reflexivity.
  - vm_compute. reflexivity.
  - apply shop_quantities. lia.
  - by left.
  - reflexivity.
  - simpl. lia.
  - split; [exact H500|].
    change (orderId alice_request) with order_id in Ho.
    rewrite Ho. reflexivity.
Defined.


(** ** POST /cart/validate, the accepted cart *)

Lemma wildcard_errors_nil ok err items :
  forall index,
    wildcard_errors ok err index items = [] ->
    Forall (fun item => ok item = true) items.
Proof.
  induction items as [|item rest IH]; intros index H; [constructor|].
  simpl in H. destruct (ok item) eqn:Hok; [|discriminate].
  constructor; [exact Hok | by apply IH with (S index)].
Qed.

Lemma validate_chains_nil isMongoId items :
  validate_chains isMongoId items = [] ->
  items <> []
  /\ Forall (fun item => isMongoId (CartItem.productId item) = true) items
  /\ Forall (fun item => 1 <= CartItem.quantity item <= 10) items.
Proof.
  unfold validate_chains. intros H.
  apply app_eq_nil in H as [H0 H]. apply app_eq_nil in H as [H1 H2].
  split; [by destruct items|]. split.
  - by apply wildcard_errors_nil in H1.
  - apply wildcard_errors_nil in H2.
    eapply Forall_impl; [exact H2|]. intros item Hi.
    by apply isInt_1_10_spec.
Qed.

(** The variant a validated item names is the one [find] returns for it,
    and it holds at least the quantity. *)
Lemma priced_from_stock castObjectId products item v :
  priced_from castObjectId products item v ->
  verdict castObjectId products item = Passes ->
  OrderItem.quantity v = CartItem.quantity item
  /\ exists s,
       stock_at products (key_of v) = Some s /\ OrderItem.quantity v <= s.
Proof.
  intros (_id & p & var & Hc & Hp & Hsome & Hv & ->) Hr. simpl.
  split; [reflexivity|].
  unfold verdict, findById, find_item_variant in Hr.
  rewrite Hc, Hp in Hr. simpl in Hr.
  destruct (Product.active p); simpl in Hr; [|discriminate].
  unfold CartItem.size, CartItem.design in Hv.
  destruct (CartItem.variant item) as [[size design]|];
    [|by destruct Hsome].
  simpl in Hv. rewrite Hv in Hr.
  destruct (Variant.stock var <? CartItem.quantity item) eqn:Hlt;
    [discriminate|].
  apply Z.ltb_ge in Hlt.
  exists (Variant.stock var). split; [|exact Hlt].
  unfold stock_at, key_of; simpl. rewrite Hp.
  pose proof Hv as Hm. unfold find_variant in Hm.
  apply find_some in Hm as [_ Hm]. apply matches_eq in Hm as [-> ->].
  by rewrite Hv.
Qed.

Lemma ordered_qty_not_in items k :
  ~ In k (map key_of items) -> ordered_qty items k = 0.
Proof.
  induction items as [|item rest IH]; simpl; [reflexivity|].
  intros H. rewrite bool_decide_eq_false_2 by tauto.
  rewrite IH by tauto. lia.
Qed.

(** With no variant named twice, an order asks of a variant the quantity
    of the one item that names it. *)
Lemma ordered_qty_nodup items item :
  NoDup (map key_of items) -> In item items ->
  ordered_qty items (key_of item) = OrderItem.quantity item.
Proof.
  induction items as [|head rest IH]; simpl; [tauto|].
  intros Hnd [->|Hin]; apply NoDup_cons in Hnd as [Hnot Hnd];
    rewrite list_elem_of_In in Hnot.
  - rewrite bool_decide_eq_true_2 by reflexivity.
    rewrite ordered_qty_not_in by exact Hnot. lia.
  - rewrite bool_decide_eq_false_2.
    + rewrite IH by assumption. lia.
    + intros E. apply Hnot. rewrite E. by apply in_map.
Qed.

Section AcceptedCart.

Variable isMongoId : string -> bool.
Variable castObjectId : string -> option string.
Variable products : gmap string Product.t.

(** The run behind a 200, with what it says of the request. *)
Lemma post_validate_200_run items cart :
  post_validate isMongoId castObjectId products items
  = mkResponse 200 (CartBody cart) ->
  validate_chains isMongoId items = []
  /\ Forall (fun i => verdict castObjectId products i = Passes) items
  /\ Forall2 (priced_from castObjectId products) items (Cart.items cart).
Proof.
  intros H. apply post_validate_200 in H as (v & s & Hc & Hrun & ->).
  apply validate_items_accepted in Hrun as (Hr & _ & v' & -> & Hall).
  simpl. repeat split; done.
Qed.

(** The items of an accepted cart, one by one. *)
Lemma accepted_items_limits (items : list CartItem.t) (cart : Cart.t) :
  post_validate isMongoId castObjectId products items
  = mkResponse 200 (CartBody cart) ->
  Forall
    (fun v =>
       1 <= OrderItem.quantity v <= 10
       /\ exists s,
            stock_at products (key_of v) = Some s
            /\ OrderItem.quantity v <= s)
    (Cart.items cart).
Proof.
  intros H. apply post_validate_200_run in H as (Hc & Hrej & Hall).
  apply validate_chains_nil in Hc as (_ & _ & Hq).
  induction Hall as [|item v rest vs Hp Hall IH];
    [constructor|].
  apply Forall_cons in Hq as [Hq1 Hq]. apply Forall_cons in Hrej as [Hr1 Hrej].
  constructor; [|by apply IH].
  destruct (priced_from_stock _ _ _ _ Hp Hr1) as [Heq Hs].
  split; [lia | exact Hs].
Qed.

(** X13. Every item of a cart that POST /cart/validate accepts asks for 1
    to 10 units of a variant that exists and holds at least that many,
    and the reply lists as many items as the cart had. *)
Theorem validated_items_within_limits (items : list CartItem.t)
    (cart : Cart.t) :
  post_validate isMongoId castObjectId products items
  = mkResponse 200 (CartBody cart) ->
  length (Cart.items cart) = length items
  /\ Cart.items cart <> []
  /\ Forall
       (fun v =>
          1 <= OrderItem.quantity v <= 10
          /\ exists s,
               stock_at products (key_of v) = Some s
               /\ OrderItem.quantity v <= s)
       (Cart.items cart).
Proof.
  intros H. pose proof (accepted_items_limits items cart H) as Hlim.
  apply post_validate_200_run in H as (Hc & _ & Hall).
  apply validate_chains_nil in Hc as (Hne & _ & _).
  split; [symmetry; by eapply Forall2_length|].
  split; [intros E; rewrite E in Hall; by inversion Hall|].
  exact Hlim.
Qed.

(** X14. An order made of the items of an accepted cart that names no
    variant twice can be filled from the store it was validated against:
    the webhook's stock loop ends normally and every item's variant
    drops by exactly the quantity of the item. *)
Theorem validated_cart_can_be_filled (items : list CartItem.t)
    (cart : Cart.t) :
  post_validate isMongoId castObjectId products items
  = mkResponse 200 (CartBody cart) ->
  NoDup (map key_of (Cart.items cart)) ->
  covers products (Cart.items cart)
  /\ exists products',
       capture_items (Cart.items cart) products = Done products'
       /\ forall v s,
            In v (Cart.items cart) ->
            stock_at products (key_of v) = Some s ->
            stock_at products' (key_of v)
            = Some (s - OrderItem.quantity v)
            /\ 0 <= s - OrderItem.quantity v.
Proof.
  intros H Hnd.
  apply accepted_items_limits in H as Hall.
  rewrite Forall_forall in Hall.
  assert (Hq : quantities_positive (Cart.items cart)).
  { intros v Hv. apply list_elem_of_In in Hv.
    destruct (Hall v Hv) as [? _]. lia. }
  assert (Hc : covers products (Cart.items cart)).
  { intros v Hv. pose proof Hv as Hv'. apply list_elem_of_In in Hv'.
    destruct (Hall v Hv') as (_ & s & Hs & Hle).
    exists s. split; [exact Hs|]. by rewrite ordered_qty_nodup. }
  split; [exact Hc|].
  destruct (capture_items_covered _ _ Hq Hc) as (products' & Hrun & Hst).
  exists products'. split; [exact Hrun|].
  intros v s Hv Hs. rewrite Hst, Hs, ordered_qty_nodup by assumption.
  split; [reflexivity|].
  destruct (Hc v Hv) as (s' & Hs' & Hle).
  rewrite ordered_qty_nodup in Hle by assumption.
  rewrite Hs in Hs'. injection Hs' as <-. lia.
Qed.

End AcceptedCart.

Lemma rose_cart_accepted :
  post_validate hex24 objectId24 (catalog 40 5) [rose_item 1 (Some 1%float)]
  = mkResponse 200 (CartBody rose_cart).
Proof. vm_compute. reflexivity. Qed.

Lemma validated_items_within_limits_witness :
  post_validate hex24 objectId24 (catalog 40 5) [rose_item 1 (Some 1%float)]
  = mkResponse 200 (CartBody rose_cart)
  /\ length (Cart.items rose_cart) = 1%nat.
Proof.
  split; [exact rose_cart_accepted|].
  apply (proj1 (validated_items_within_limits hex24 objectId24
                  (catalog 40 5) [rose_item 1 (Some 1%float)] rose_cart
                  rose_cart_accepted)).
Defined.

Lemma validated_cart_can_be_filled_witness :
  NoDup (map key_of (Cart.items rose_cart))
  /\ covers (catalog 40 5) (Cart.items rose_cart).
Proof.
  assert (H : NoDup (map key_of (Cart.items rose_cart)))
    by (apply NoDup_singleton).
  split; [exact H|].
  apply (proj1 (validated_cart_can_be_filled hex24 objectId24
                  (catalog 40 5) [rose_item 1 (Some 1%float)] rose_cart
                  rose_cart_accepted H)).
Defined.

(** ** Order numbers through a day *)

Lemma string_app_assoc (a b c : string) :
  ((a ++ b) ++ c = a ++ (b ++ c))%string.
Proof.
  induction a as [|x a IH]; [reflexivity|].
  change (String x ((a ++ b) ++ c) = String x (a ++ (b ++ c)))%string.
  by f_equal.
Qed.

Lemma string_app_inv_head (a b c : string) :
  (a ++ b = a ++ c)%string -> b = c.
Proof.
  induction a as [|x a IH]; simpl; [done|]. intros [= H]. by apply IH.
Qed.

Lemma most_recent_In os o : most_recent os = Some o -> In o os.
Proof.
  revert o. induction os as [|a rest IH]; intros o; simpl; [discriminate|].
  destruct (most_recent rest) as [o'|].
  - destruct (Order.createdAt a <? Order.createdAt o'); intros [= <-];
      [right; by apply IH | by left].
  - intros [= <-]. by left.
Qed.

(** The order that is newer than all the others is the one [sort] puts
    first. *)
Lemma most_recent_newest os o :
  In o os ->
  (forall o', In o' os ->
              o' = o \/ Order.createdAt o' < Order.createdAt o) ->
  most_recent os = Some o.
Proof.
  induction os as [|a rest IH]; intros Hin Hmax; [destruct Hin|]. simpl.
  assert (Hrest : forall o', In o' rest ->
            o' = o \/ Order.createdAt o' < Order.createdAt o)
    by (intros o' Ho'; apply Hmax; by right).
  destruct (most_recent rest) as [o'|] eqn:Hm.
  - pose proof (most_recent_In _ _ Hm) as Ho'.
    destruct Hin as [->|Hin].
    + destruct (Hrest o' Ho') as [->|Hlt].
      * by rewrite Z.ltb_irrefl.
      * destruct (Order.createdAt o <? Order.createdAt o') eqn:Hc;
          [apply Z.ltb_lt in Hc; lia | reflexivity].
    + assert (o' = o) as -> by (pose proof (IH Hin Hrest); congruence).
      destruct (Hmax a (or_introl eq_refl)) as [->|Hlt].
      * by rewrite Z.ltb_irrefl.
      * by apply Z.ltb_lt in Hlt as ->.
  - destruct Hin as [->|Hin]; [reflexivity|].
    pose proof (IH Hin Hrest). congruence.
Qed.

Lemma lastOrder_of_newest clock store o :
  newest_of_day clock store o -> lastOrder_of clock store = Some o.
Proof.
  intros ([id Hid] & Hday & Hmax). unfold lastOrder_of.
  apply most_recent_newest.
  - apply filter_In. split; [|exact Hday].
    apply list_elem_of_In, list_elem_of_fmap. exists (id, o).
    split; [reflexivity|]. by apply elem_of_map_to_list.
  - intros o' Ho'. apply filter_In in Ho' as [Ho' Hday'].
    apply list_elem_of_In, list_elem_of_fmap in Ho' as ([id' o''] & -> & He).
    apply elem_of_map_to_list in He. by apply (Hmax id').
Qed.

Lemma lastOrder_of_none clock (store : gmap string Order.t) :
  (forall id o, store !! id = Some o -> in_day clock o = false) ->
  lastOrder_of clock store = None.
Proof.
  intros H. unfold lastOrder_of.
  destruct (most_recent _) as [o|] eqn:Hm; [|reflexivity].
  apply most_recent_In, filter_In in Hm as [Hin Hday].
  apply list_elem_of_In, list_elem_of_fmap in Hin as ([id o'] & -> & He).
  apply elem_of_map_to_list in He.
  pose proof (H id o' He) as Hout. unfold in_day in Hout. simpl in Hday.
  congruence.
Qed.

Lemma pre_save_numbers clock store doc :
  truthy (Order.orderNumber doc) = false ->
  Order.orderNumber (pre_save true clock store doc)
  = Some (generate_orderNumber clock store)
  /\ Order.createdAt (pre_save true clock store doc) = Order.createdAt doc.
Proof. unfold pre_save. intros ->. by simpl. Qed.

(** X16. Two orders saved one after the other on the same day, after an
    order whose number ends in the three digits of [n] below 998, are
    numbered with the day's date and with [n + 1] and [n + 2] in three
    digits: the numbers differ, and the second continues the first. *)
Theorem consecutive_orders_consecutive_numbers (clock : Clock)
    (store : gmap string Order.t) (o doc1 doc2 : Order.t)
    (prefix id1 : string) (n : Z) :
  newest_of_day clock store o ->
  Order.orderNumber o = Some (prefix ++ digits3 n)%string ->
  0 <= n < 998 ->
  1000 <= getFullYear clock <= 9999 ->
  0 <= getMonth clock <= 11 ->
  1 <= getDate clock <= 31 ->
  truthy (Order.orderNumber doc1) = false ->
  truthy (Order.orderNumber doc2) = false ->
  store !! id1 = None ->
  in_day clock doc1 = true ->
  Order.createdAt o < Order.createdAt doc1 ->
  let saved1 := pre_save true clock store doc1 in
  let saved2 := pre_save true clock (<[id1 := saved1]> store) doc2 in
  Order.orderNumber saved1
  = Some (date_prefix clock ++ digits3 (n + 1))%string
  /\ Order.orderNumber saved2
     = Some (date_prefix clock ++ digits3 (n + 2))%string
  /\ Order.orderNumber saved1 <> Order.orderNumber saved2.
Proof.
  intros Hnew Hnum Hn Hy Hm Hd Hdoc1 Hdoc2 Hfresh Hday1 Hlater saved1 saved2.
  assert (Hshape : forall (st : gmap string Order.t) last pre k,
            lastOrder_of clock st = Some last ->
            Order.orderNumber last = Some (pre ++ digits3 k)%string ->
            0 <= k < 999 ->
            generate_orderNumber clock st
            = (date_prefix clock ++ digits3 (k + 1))%string).
  { intros st last pre k Hl Hk Hr.
    destruct (order_number_daily_sequence clock st last pre k Hl Hk Hr
                Hy Hm Hd) as [-> _].
    unfold date_prefix. by rewrite !string_app_assoc. }
  destruct (pre_save_numbers clock store doc1 Hdoc1) as [Hnum1 Hat1].
  fold saved1 in Hnum1, Hat1.
  rewrite (Hshape store o prefix n (lastOrder_of_newest _ _ _ Hnew) Hnum)
    in Hnum1 by lia.
  assert (Hnew1 : newest_of_day clock (<[id1 := saved1]> store) saved1).
  { destruct Hnew as (_ & Hdayo & Hmax). split; [|split].
    - exists id1. apply lookup_insert_eq.
    - unfold in_day in *. by rewrite Hat1.
    - intros id' o' Hl Hday'.
      destruct (decide (id' = id1)) as [->|Hne].
      + rewrite lookup_insert_eq in Hl. left. congruence.
      + rewrite lookup_insert_ne in Hl by done. right.
        destruct (Hmax id' o' Hl Hday') as [->|Hlt]; lia. }
  destruct (pre_save_numbers clock (<[id1 := saved1]> store) doc2 Hdoc2)
    as [Hnum2 _].
  fold saved2 in Hnum2.
  rewrite (Hshape _ saved1 (date_prefix clock) (n + 1)
             (lastOrder_of_newest _ _ _ Hnew1) Hnum1) in Hnum2 by lia.
  replace (n + 1 + 1) with (n + 2) in Hnum2 by lia.
  split; [exact Hnum1|]. split; [exact Hnum2|].
  rewrite Hnum1, Hnum2. intros [= E]. apply string_app_inv_head in E.
  destruct (digits3_spec (n + 1)) as [_ H1]; [lia|].
  destruct (digits3_spec (n + 2)) as [_ H2]; [lia|].
  rewrite E in H1. rewrite H1 in H2. injection H2. lia.
Qed.

(** X17. Orders of other days do not count: when no order of the store
    was created since local midnight and before the next, the order
    saved without a number gets the day's date and the sequence 001,
    whatever numbers the store holds. *)
Theorem first_order_of_a_new_day (clock : Clock)
    (store : gmap string Order.t) (doc : Order.t) :
  (forall id o, store !! id = Some o -> in_day clock o = false) ->
  1000 <= getFullYear clock <= 9999 ->
  truthy (Order.orderNumber doc) = false ->
  Order.orderNumber (pre_save true clock store doc)
  = Some (date_prefix clock ++ "001")%string.
Proof.
  intros Hnone Hy Hdoc.
  destruct (pre_save_numbers clock store doc Hdoc) as [-> _].
  rewrite (order_number_first_of_day clock store
             (lastOrder_of_none _ _ Hnone) Hy).
  unfold date_prefix. by rewrite !string_app_assoc.
Qed.

Lemma day_of_lookup last id o :
  day_of last !! id = Some o ->
  o = numbered "ORD261102001" 1793577660000
  \/ o = numbered last 1793620800000.
Proof.
  unfold day_of. intros H.
  apply lookup_insert_Some in H as [[_ <-]|[_ H]]; [by left|].
  apply lookup_singleton_Some in H as [_ <-]. by right.
Qed.

Lemma day_of_newest last :
  newest_of_day nov2 (day_of last) (numbered last 1793620800000).
Proof.
  split; [|split].
  - exists "64b7f3a2c9e1d4f5a6b70999"%string. unfold day_of.
    rewrite lookup_insert_ne by done. apply lookup_singleton_eq.
  - reflexivity.
  - intros id' o' Hl _. apply day_of_lookup in Hl as [->| ->];
      [right; reflexivity | by left].
Qed.

(** After number 007 come 008 and 009. *)
Lemma consecutive_orders_consecutive_numbers_witness :
  newest_of_day nov2 (day_of "ORD261102007")
    (numbered "ORD261102007" 1793620800000)
  /\ Order.orderNumber
       (pre_save true nov2 (day_of "ORD261102007")
          (fresh_order 1793620900000))
     = Some "ORD261102008"%string
  /\ Order.orderNumber
       (pre_save true nov2
          (<["64b7f3a2c9e1d4f5a6b71000"%string :=
               pre_save true nov2 (day_of "ORD261102007")
                 (fresh_order 1793620900000)]>
             (day_of "ORD261102007"))
          (fresh_order 1793621000000))
     = Some "ORD261102009"%string.
Proof.
  split; [apply day_of_newest|].
  destruct (consecutive_orders_consecutive_numbers nov2
              (day_of "ORD261102007")
              (numbered "ORD261102007" 1793620800000)
              (fresh_order 1793620900000) (fresh_order 1793621000000)
              "ORD261102" "64b7f3a2c9e1d4f5a6b71000" 7
              (day_of_newest "ORD261102007"))
    as (H1 & H2 & _).
  - vm_compute. reflexivity.
  - lia.
  - simpl. lia.
  - simpl. lia.
  - simpl. lia.
  - reflexivity.
  - reflexivity.
  - vm_compute. reflexivity.
  - reflexivity.
  - reflexivity.
  - split; [refine (eq_trans H1 _) | refine (eq_trans H2 _)];
      vm_compute; reflexivity.
Defined.

Lemma first_order_of_a_new_day_witness :
  (forall id o,
     day_of "ORD261102999" !! id = Some o -> in_day nov3 o = false)
  /\ Order.orderNumber
       (pre_save true nov3 (day_of "ORD261102999")
          (fresh_order 1793664060000))
     = Some "ORD261103001"%string.
Proof.
  assert (H : forall id o,
            day_of "ORD261102999" !! id = Some o -> in_day nov3 o = false).
  { intros id o Hl. by apply day_of_lookup in Hl as [->| ->]. }
  split; [exact H|].
  refine (eq_trans
            (first_order_of_a_new_day nov3 (day_of "ORD261102999")
               (fresh_order 1793664060000) H _ eq_refl) _).
  - simpl. lia.
  - vm_compute. reflexivity.
Defined.

(** ** [models/Product]: stock totals *)

Lemma sum_stock_acc vs a :
  fold_left (fun total variant => total + Variant.stock variant) vs a
  = a + fold_left (fun total variant => total + Variant.stock variant) vs 0.
Proof.
  revert a. induction vs as [|v rest IH]; intros a; simpl; [lia|].
  rewrite (IH (a + Variant.stock v)), (IH (0 + Variant.stock v)). lia.
Qed.

(** Writing a variant's stock moves the total by the difference. *)
Lemma sum_stock_set_stock size design n vs v :
  List.find (matches size design) vs = Some v ->
  fold_left (fun total variant => total + Variant.stock variant)
    (set_stock size design n vs) 0
  = fold_left (fun total variant => total + Variant.stock variant) vs 0
    - Variant.stock v + n.
Proof.
  induction vs as [|v0 rest IH]; simpl; [discriminate|].
  destruct (matches size design v0) eqn:Hm.
  - intros [= <-]. simpl.
    rewrite (sum_stock_acc rest (0 + n)), (sum_stock_acc rest (0 + _)). lia.
  - intros H. simpl.
    rewrite (sum_stock_acc _ (0 + _)), (sum_stock_acc rest (0 + _)).
    rewrite (IH H). lia.
Qed.

(** With no negative stock, the total is at least each variant's. *)
Lemma totalStock_ge_each vs v :
  (forall v', In v' vs -> 0 <= Variant.stock v') ->
  In v vs ->
  Variant.stock v
  <= fold_left (fun total variant => total + Variant.stock variant) vs 0.
Proof.
  induction vs as [|v0 rest IH]; intros Hnn Hin; [destruct Hin|]. simpl.
  rewrite sum_stock_acc.
  assert (0 <= fold_left (fun total variant => total + Variant.stock variant)
                 rest 0).
  { clear IH Hin. induction rest as [|v1 rest' IH']; simpl; [lia|].
    rewrite sum_stock_acc.
    assert (0 <= Variant.stock v1) by (apply Hnn; right; by left).
    assert (0 <= fold_left
                   (fun total variant => total + Variant.stock variant)
                   rest' 0).
    { apply IH'. intros v' [->|Hv']; apply Hnn; [by left | right; by right]. }
    lia. }
  assert (0 <= Variant.stock v0) by (apply Hnn; by left).
  destruct Hin as [->|Hin]; [lia|].
  assert (Variant.stock v
          <= fold_left (fun total variant => total + Variant.stock variant)
               rest 0)
    by (apply IH; [intros v' Hv'; apply Hnn; by right | exact Hin]).
  lia.
Qed.

Lemma ensure_primary_idem images :
  ensure_primary (ensure_primary images) = ensure_primary images.
Proof.
  destruct images as [|first rest]; [reflexivity|].
  unfold ensure_primary.
  destruct (existsb Image.isPrimary (first :: rest)) eqn:H.
  - by rewrite H.
  - reflexivity.
Qed.

Lemma ordered_of_product_nonneg items id :
  quantities_positive items -> 0 <= ordered_of_product items id.
Proof.
  induction items as [|item rest IH]; intros Hq; simpl; [lia|].
  assert (1 <= OrderItem.quantity item) by (apply Hq; by left).
  assert (0 <= ordered_of_product rest id)
    by (apply IH; intros i Hi; apply Hq; by right).
  case_bool_decide; lia.
Qed.

(** An accepted save of a variant's stock: the product it was written to
    keeps its title, price and activity, its images went through the
    image hook, its total moves by the difference, and the other products
    are as they were. *)
Lemma save_stock_products products id p size design v n products' :
  products !! id = Some p ->
  find_variant p size design = Some v ->
  save_stock products id p size design n = Some products' ->
  forall id' p0,
    products !! id' = Some p0 ->
    exists p1,
      products' !! id' = Some p1
      /\ Product.title p1 = Product.title p0
      /\ Product.price p1 = Product.price p0
      /\ Product.active p1 = Product.active p0
      /\ Product.images p1
         = (if bool_decide (id' = id) then ensure_primary (Product.images p0)
            else Product.images p0)
      /\ totalStock p1
         = totalStock p0
           + (if bool_decide (id' = id) then n - Variant.stock v else 0).
Proof.
  intros Hp Hv Hsave id' p0 Hp0. unfold save_stock in Hsave.
  destruct (n <? 0); [discriminate|]. injection Hsave as <-.
  destruct (decide (id' = id)) as [->|Hne].
  - rewrite lookup_insert_eq. eexists. split; [reflexivity|].
    rewrite Hp in Hp0. injection Hp0 as <-. simpl.
    rewrite !bool_decide_eq_true_2 by reflexivity.
    repeat split. unfold totalStock; simpl.
    rewrite (sum_stock_set_stock _ _ _ _ v Hv). lia.
  - rewrite lookup_insert_ne by done. exists p0.
    rewrite !bool_decide_eq_false_2 by done.
    repeat split; [exact Hp0 | lia].
Qed.

(** A covered order on the webhook path, product by product. *)
Lemma capture_items_products items :
  forall products,
    quantities_positive items ->
    covers products items ->
    exists products',
      capture_items items products = Done products'
      /\ forall id p0,
           products !! id = Some p0 ->
           exists p1,
             products' !! id = Some p1
             /\ Product.title p1 = Product.title p0
             /\ Product.price p1 = Product.price p0
             /\ Product.active p1 = Product.active p0
             /\ Product.images p1
                = (if bool_decide (ordered_of_product items id = 0)
                   then Product.images p0
                   else ensure_primary (Product.images p0))
             /\ totalStock p1 = totalStock p0 - ordered_of_product items id.
Proof.
  induction items as [|item rest IH]; intros products Hq Hc.
  - exists products. split; [reflexivity|]. intros id p0 Hp0.
    exists p0. simpl. repeat split; [exact Hp0 | lia].
  - destruct (covered_step products item rest Hq Hc)
      as (p & v & products1 & Hp & Hv & Hle & Hsave & Hc1 & _).
    assert (Hq1 : quantities_positive rest)
      by (intros i Hi; apply Hq; by right).
    assert (Hpos : 1 <= OrderItem.quantity item) by (apply Hq; by left).
    destruct (IH products1) as (products' & Hrun & Hfinal);
      [exact Hq1 | exact Hc1 |].
    exists products'. split.
    + simpl. rewrite Hp, Hv, Hsave.
      destruct (OrderItem.quantity item <=? Variant.stock v) eqn:Hg;
        [exact Hrun | apply Z.leb_gt in Hg; lia].
    + intros id p0 Hp0.
      destruct (save_stock_products _ _ _ _ _ _ _ _ Hp Hv Hsave id p0 Hp0)
        as (p1 & Hp1 & Ht1 & Hpr1 & Ha1 & Hi1 & Hs1).
      destruct (Hfinal id p1 Hp1) as (p2 & Hp2 & Ht2 & Hpr2 & Ha2 & Hi2 & Hs2).
      pose proof (ordered_of_product_nonneg rest id Hq1) as Hnn.
      exists p2. simpl. repeat split; try congruence.
      * rewrite Hi2, Hi1.
        destruct (decide (id = OrderItem.product item)) as [->|Hne].
        -- rewrite !(bool_decide_eq_true_2
                       (OrderItem.product item = OrderItem.product item))
             by reflexivity.
           rewrite (bool_decide_eq_false_2 (_ + _ = 0)) by lia.
           case_bool_decide; [reflexivity | apply ensure_primary_idem].
        -- rewrite (bool_decide_eq_false_2 (id = _)) by done.
           rewrite (bool_decide_eq_false_2 (OrderItem.product item = id))
             by congruence.
           by rewrite Z.add_0_l.
      * rewrite Hs2, Hs1.
        destruct (decide (id = OrderItem.product item)) as [->|Hne].
        -- rewrite !bool_decide_eq_true_2 by reflexivity. lia.
        -- rewrite !bool_decide_eq_false_2 by congruence. lia.
Qed.

(** X18. When the webhook processes the capture of an order that the
    stock covers, every product of the store keeps its title, price and
    activity, and its [totalStock] drops by exactly the units the order
    asks of that product: no unit is lost or made.  The images of a
    product the order asks nothing of are as they were; those of a
    product it asks units of went through the image hook of the save,
    which leaves them as they were when one of them is primary. *)
Theorem capture_conserves_units (now : Z) (payment : PaymentEntity)
    (orderId : string) (order : Order.t) (db : Db) :
  truthy_id (notes_orderId payment) = Some orderId ->
  orders db !! orderId = Some order ->
  quantities_positive (Order.items order) ->
  covers (products db) (Order.items order) ->
  forall id p0,
    products db !! id = Some p0 ->
    exists p1,
      products (handlePaymentCaptured now payment db) !! id = Some p1
      /\ Product.title p1 = Product.title p0
      /\ Product.price p1 = Product.price p0
      /\ Product.active p1 = Product.active p0
      /\ Product.images p1
         = (if bool_decide (ordered_of_product (Order.items order) id = 0)
            then Product.images p0
            else ensure_primary (Product.images p0))
      /\ (existsb Image.isPrimary (Product.images p0) = true ->
          Product.images p1 = Product.images p0)
      /\ totalStock p1
         = totalStock p0 - ordered_of_product (Order.items order) id.
Proof.
  intros Hid Ho Hq Hc id p0 Hp0.
  unfold handlePaymentCaptured. rewrite Hid, Ho. simpl.
  destruct (capture_items_products _ _ Hq Hc) as (products' & -> & H).
  simpl. destruct (H id p0 Hp0) as (p1 & Hp1 & Ht & Hpr & Ha & Hi & Hs).
  exists p1. repeat split; try assumption.
  intros Hprim. rewrite Hi. case_bool_decide; [reflexivity|].
  destruct (Product.images p0) as [|first rest]; [reflexivity|].
  unfold ensure_primary. by rewrite Hprim.
Qed.

Section Availability.

Variable isMongoId : string -> bool.
Variable castObjectId : string -> option string.
Variable products : gmap string Product.t.

(** A product that is not available has nothing to give: it is inactive,
    or each variant is at zero. *)
Lemma not_available p :
  (forall v, In v (Product.variants p) -> 0 <= Variant.stock v) ->
  isAvailable p = false ->
  Product.active p = false
  \/ forall v, In v (Product.variants p) -> Variant.stock v = 0.
Proof.
  intros Hnn H. unfold isAvailable in H.
  destruct (Product.active p); [|by left]. right. simpl in H.
  apply Z.ltb_ge in H. intros v Hv.
  pose proof (totalStock_ge_each _ v Hnn Hv) as Hge.
  unfold totalStock in H. specialize (Hnn v Hv). lia.
Qed.

(** X19. A product whose [isAvailable] is false, its stocks being
    non-negative, cannot be bought: POST /cart/add accepts no request for
    it, and POST /cart/validate accepts no cart that has an item of it,
    the answer being 400 or 500. *)
Theorem unavailable_product_is_rejected (id : string) (p : Product.t) :
  products !! id = Some p ->
  (forall v, In v (Product.variants p) -> 0 <= Variant.stock v) ->
  isAvailable p = false ->
  (forall req,
     castObjectId (add_productId req) = Some id ->
     add_code (post_add isMongoId castObjectId products req) <> 200)
  /\ (forall items item,
        In item items ->
        castObjectId (CartItem.productId item) = Some id ->
        code (post_validate isMongoId castObjectId products items) = 400
        \/ code (post_validate isMongoId castObjectId products items) = 500).
Proof.
  intros Hp Hnn Hna. apply not_available in Hna; [|exact Hnn].
  assert (Hzero : forall size design v q,
            Product.active p = true ->
            find_variant p size design = Some v -> 1 <= q ->
            (Variant.stock v <? q) = true).
  { intros size design v q Ha Hv Hq.
    destruct Hna as [Hna|Hna]; [congruence|].
    apply Z.ltb_lt. unfold find_variant in Hv.
    apply find_some in Hv as [Hin _]. rewrite (Hna v Hin). lia. }
  split.
  - intros req Hid. unfold post_add, findById.
    destruct (add_chains isMongoId req) eqn:Hc; [|discriminate].
    apply add_chains_nil in Hc as (_ & _ & _ & Hq).
    apply isInt_1_10_spec in Hq.
    rewrite Hid, Hp. simpl.
    destruct (Product.active p) eqn:Ha; [|discriminate]. simpl.
    destruct (find_variant p (add_size req) (add_design req)) as [v|] eqn:Hv;
      [|discriminate].
    rewrite (Hzero _ _ v _ eq_refl Hv) by lia. discriminate.
  - intros items item Hin Hid.
    destruct (validate_chains isMongoId items) as [|e errors] eqn:Hc.
    + apply validate_chains_nil in Hc as (_ & _ & Hq).
      rewrite Forall_forall in Hq.
      assert (Hqi : 1 <= CartItem.quantity item <= 10)
        by (apply Hq; by apply list_elem_of_In).
      apply post_validate_stopped with item; [exact Hin|].
      unfold verdict, findById, find_item_variant. rewrite Hid, Hp. simpl.
      destruct (Product.active p) eqn:Ha; [|discriminate]. simpl.
      destruct (CartItem.variant item) as [[size design]|].
      * destruct (find_variant p size design) as [v|] eqn:Hv;
          [|discriminate].
        rewrite (Hzero _ _ v _ eq_refl Hv) by lia. discriminate.
      * destruct (Product.variants p); discriminate.
    + left. unfold post_validate. by rewrite Hc.
Qed.

End Availability.

Lemma capture_conserves_units_witness :
  covers (products (shop 2 5)) (Order.items (rose_order 2))
  /\ exists p1,
       products (handlePaymentCaptured 1700 rose_payment (shop 2 5))
         !! rose_id = Some p1
       /\ Product.images p1 = Product.images (rose 40 5)
       /\ totalStock p1 = 3.
Proof.
  assert (H : covers (products (shop 2 5)) (Order.items (rose_order 2)))
    by (apply shop_covers; lia).
  split; [exact H|].
  destruct (capture_conserves_units 1700 rose_payment order_id
              (rose_order 2) (shop 2 5) eq_refl eq_refl
              (shop_quantities 2 ltac:(lia)) H rose_id (rose 40 5) eq_refl)
    as (p1 & Hp1 & _ & _ & _ & _ & Hi & Ht).
  exists p1. split; [exact Hp1|]. split; [exact (Hi eq_refl)|].
  rewrite Ht. reflexivity.
Defined.

(** A stored product without a primary image gets one when the capture
    saves it. *)
Example capture_runs_the_image_hook :
  let unmarked :=
    with_images (rose 40 5) [Image.mk "/img/rose.png" false] in
  Product.images
    <$> products
          (handlePaymentCaptured 1700 rose_payment
             (mkDb (orders (shop 2 5)) {[ rose_id := unmarked ]}))
          !! rose_id
  = Some [Image.mk "/img/rose.png" true].
Proof. vm_compute. reflexivity. Qed.

Lemma unavailable_product_is_rejected_witness :
  isAvailable (rose 40 0) = false
  /\ add_code (post_add hex24 objectId24 (catalog 40 0)
                 (mkAddRequest rose_id "M" "plain" 1))
     <> 200.
Proof.
  split; [reflexivity|].
  apply (proj1 (unavailable_product_is_rejected hex24 objectId24
                  (catalog 40 0) rose_id (rose 40 0) eq_refl
                  ltac:(intros v [<-|[]]; simpl; lia) eq_refl)).
  vm_compute. reflexivity.
Defined.

(** ** [models/Product]: the slug *)

Lemma is_hyphen_eq c : is_hyphen c = true <-> c = "-"%char.
Proof. apply Ascii.eqb_eq. Qed.

Lemma is_hyphen_neq c : is_hyphen c = false <-> c <> "-"%char.
Proof. apply Ascii.eqb_neq. Qed.

(** A lower-case letter or a digit is no hyphen and is left alone by
    [toLowerCase]. *)
Lemma alnum_lower_fixed c :
  is_alnum_lower c = true -> toLowerCase c = c /\ is_hyphen c = false.
Proof.
  destruct c as [[] [] [] [] [] [] [] []]; vm_compute; intros H;
    solve [discriminate H | split; reflexivity].
Qed.

Lemma hyphenate_chars l :
  Forall (fun c => is_alnum_lower c = true \/ c = "-"%char) (hyphenate l).
Proof.
  induction l as [|c l IH]; simpl; constructor; [|exact IH].
  destruct (is_alnum_lower c) eqn:H; [by left | by right].
Qed.

Lemma collapse_cons2 a b r :
  collapse (a :: b :: r)
  = if is_hyphen a && is_hyphen b then collapse (b :: r)
    else a :: collapse (b :: r).
Proof. reflexivity. Qed.

Lemma collapse_head l : head (collapse l) = head l.
Proof.
  induction l as [|a [|b r] IH]; try reflexivity.
  rewrite collapse_cons2.
  destruct (is_hyphen a && is_hyphen b) eqn:H; [|reflexivity].
  apply andb_true_iff in H as [Ha Hb].
  apply is_hyphen_eq in Ha, Hb. subst. exact IH.
Qed.

Lemma collapse_Forall (P : ascii -> Prop) l :
  Forall P l -> Forall P (collapse l).
Proof.
  induction l as [|a [|b r] IH]; intros H; try exact H.
  rewrite collapse_cons2.
  apply Forall_cons in H as [Ha H].
  destruct (is_hyphen a && is_hyphen b); [by apply IH|].
  constructor; [exact Ha | by apply IH].
Qed.

Lemma collapse_no_double l :
  forall l1 l2, collapse l <> l1 ++ "-"%char :: "-"%char :: l2.
Proof.
  induction l as [|a [|b r] IH]; intros l1 l2.
  - by destruct l1.
  - destruct l1 as [|x [|y l1]]; discriminate.
  - rewrite collapse_cons2.
    destruct (is_hyphen a && is_hyphen b) eqn:H; [apply IH|].
    destruct l1 as [|x l1].
    + intros [= -> E].
      change (collapse (b :: r) = "-"%char :: l2) in E.
      pose proof (collapse_head (b :: r)) as Hh. rewrite E in Hh.
      injection Hh as <-. discriminate.
    + intros [= _ E]. by apply (IH l1 l2).
Qed.

Lemma collapse_fixed l :
  (forall l1 l2, l <> l1 ++ "-"%char :: "-"%char :: l2) ->
  collapse l = l.
Proof.
  induction l as [|a [|b r] IH]; intros H; try reflexivity.
  rewrite collapse_cons2.
  destruct (is_hyphen a && is_hyphen b) eqn:Hab.
  - apply andb_true_iff in Hab as [Ha Hb].
    apply is_hyphen_eq in Ha, Hb. subst. by destruct (H [] r).
  - f_equal. apply IH. intros l1 l2 E. apply (H (a :: l1) l2).
    simpl. by rewrite E.
Qed.

(** [strip_end] on a list given by its last character. *)
Lemma strip_end_snoc l x :
  strip_end (l ++ [x]) = if is_hyphen x then l else l ++ [x].
Proof.
  unfold strip_end. rewrite rev_app_distr. simpl.
  destruct (is_hyphen x).
  - apply rev_involutive.
  - change (x :: rev l) with (rev [x] ++ rev l).
    by rewrite <- rev_app_distr, rev_involutive.
Qed.

Lemma snoc_case (l : list ascii) : l = [] \/ exists l' x, l = l' ++ [x].
Proof.
  destruct l as [|a l]; [by left|]. right.
  destruct (exists_last (l := a :: l)) as (l' & x & E); [discriminate|].
  eauto.
Qed.

(** The last three steps make a slug of any list of lower-case letters,
    digits and hyphens. *)
Lemma strip_collapse_shaped l :
  Forall (fun c => is_alnum_lower c = true \/ c = "-"%char) l ->
  slug_shaped (strip_end (strip_start (collapse l))).
Proof.
  intros Hchars.
  pose proof (collapse_Forall _ _ Hchars) as Hc.
  pose proof (collapse_no_double l) as Hnd.
  set (m := collapse l) in *. clearbody m. clear l Hchars.
  assert (Hs : Forall (fun c => is_alnum_lower c = true \/ c = "-"%char)
                 (strip_start m)
               /\ (forall l1 l2,
                     strip_start m <> l1 ++ "-"%char :: "-"%char :: l2)
               /\ (forall l2, strip_start m <> "-"%char :: l2)).
  { destruct m as [|c m]; simpl.
    - split; [constructor|]. split; [intros [|? ?] ?; discriminate|].
      discriminate.
    - apply Forall_cons in Hc as [Hc0 Hc].
      destruct (is_hyphen c) eqn:Hh.
      + apply is_hyphen_eq in Hh. subst c.
        split; [exact Hc|]. split.
        * intros l1 l2 E. apply (Hnd ("-"%char :: l1) l2). simpl.
          by rewrite E.
        * intros l2 E. apply (Hnd [] l2). simpl. by rewrite E.
      + split; [by constructor|]. split; [exact Hnd|].
        intros l2 [= -> _]. discriminate. }
  destruct Hs as (Hc1 & Hnd1 & Hh1).
  set (k := strip_start m) in *. clearbody k. clear m Hc Hnd.
  destruct (snoc_case k) as [->|(k' & x & ->)].
  - unfold strip_end. simpl. repeat split; try done;
      solve [intros [|? ?] ?; discriminate | intros [|? ?]; discriminate].
  - rewrite strip_end_snoc. destruct (is_hyphen x) eqn:Hx.
    + apply is_hyphen_eq in Hx. subst x.
      apply Forall_app in Hc1 as [Hc1 _].
      split; [exact Hc1|]. split; [|split].
      * intros l1 l2 E. apply (Hnd1 l1 (l2 ++ ["-"%char])).
        rewrite E. by rewrite <- !app_assoc.
      * intros l2 E. apply (Hh1 (l2 ++ ["-"%char])). by rewrite E.
      * intros l1 E. apply (Hnd1 l1 []). rewrite E.
        by rewrite <- app_assoc.
    + split; [exact Hc1|]. split; [exact Hnd1|]. split; [exact Hh1|].
      intros l1 E. apply app_inj_tail in E as [_ ->]. discriminate.
Qed.

(** On a list that has the shape already, each step is the identity. *)
Lemma slug_steps_fixed l :
  slug_shaped l ->
  strip_end (strip_start (collapse (hyphenate (map toLowerCase l)))) = l.
Proof.
  intros (Hc & Hnd & Hh & Ht).
  assert (E1 : map toLowerCase l = l).
  { clear Hnd Hh Ht. induction Hc as [|c l [Hc| ->] _ IH]; simpl;
      [reflexivity | |]; rewrite IH; f_equal.
    by apply alnum_lower_fixed. }
  assert (E2 : hyphenate l = l).
  { clear Hnd Hh Ht E1. induction Hc as [|c l [Hc| ->] _ IH]; simpl;
      [reflexivity | |]; rewrite IH; [by rewrite Hc | reflexivity]. }
  rewrite E1, E2, (collapse_fixed l Hnd).
  assert (E3 : strip_start l = l).
  { destruct l as [|c l]; [reflexivity|]. simpl.
    destruct (is_hyphen c) eqn:Hx; [|reflexivity].
    apply is_hyphen_eq in Hx. subst c. by destruct (Hh l). }
  rewrite E3.
  destruct (snoc_case l) as [->|(l' & x & ->)]; [reflexivity|].
  rewrite strip_end_snoc. destruct (is_hyphen x) eqn:Hx; [|reflexivity].
  apply is_hyphen_eq in Hx. subst x. by destruct (Ht l').
Qed.

Lemma slugify_shaped (title : string) :
  slug_shaped (list_ascii_of_string (slugify title)).
Proof.
  unfold slugify. rewrite list_ascii_of_string_of_list_ascii.
  apply strip_collapse_shaped, hyphenate_chars.
Qed.

(** X20. The slug the product hook derives from a title is made of
    lower-case letters, digits and hyphens only, has no two hyphens in a
    row and neither starts nor ends with a hyphen; and the hook writes a
    slug only when the title was modified and no slug is set, so a slug
    once set is kept through later changes of the title. *)
Theorem slug_is_well_formed (title : string) :
  slug_shaped (list_ascii_of_string (slugify title))
  /\ (forall titleModified slug, truthy slug = true ->
        slug_hook titleModified title slug = slug)
  /\ (forall slug, slug_hook false title slug = slug)
  /\ (forall slug, truthy slug = false ->
        slug_hook true title slug = Some (slugify title)).
Proof.
  split; [|split; [|split]].
  - apply slugify_shaped.
  - intros titleModified slug Hs. unfold slug_hook. rewrite Hs.
    by rewrite andb_false_r.
  - reflexivity.
  - intros slug Hs. unfold slug_hook. by rewrite Hs.
Qed.

(** X21. The slug of a slug is the slug itself: the derivation changes
    nothing in a text that already has the shape. *)
Theorem slugify_idempotent (title : string) :
  slugify (slugify title) = slugify title.
Proof.
  unfold slugify at 1.
  rewrite (slug_steps_fixed _ (slugify_shaped title)).
  apply string_of_list_ascii_of_string.
Qed.

(** A title with capitals, spaces, punctuation and hyphens at the ends. *)
Example slug_of_a_title :
  slugify "  Rose Quartz -- XL (Matte)!" = "rose-quartz-xl-matte"%string
  /\ slugify "!!!" = ""%string.
Proof. vm_compute. split; reflexivity. Qed.

(** ** [models/Product]: the primary image *)

Lemma existsb_find {A} (f : A -> bool) l :
  existsb f l = true -> exists x, List.find f l = Some x /\ In x l /\ f x = true.
Proof.
  induction l as [|a l IH]; simpl; [discriminate|].
  destruct (f a) eqn:Ha.
  - intros _. exists a. auto.
  - simpl. intros H. destruct (IH H) as (x & Hx & Hin & Hf).
    exists x. auto.
Qed.

Lemma ensure_primary_urls images :
  map Image.url (ensure_primary images) = map Image.url images.
Proof.
  destruct images as [|first rest]; [reflexivity|].
  unfold ensure_primary. by destruct (existsb Image.isPrimary (first :: rest)).
Qed.

Lemma ensure_primary_has_primary images :
  images <> [] -> existsb Image.isPrimary (ensure_primary images) = true.
Proof.
  destruct images as [|first rest]; [done|]. intros _.
  unfold ensure_primary.
  destruct (existsb Image.isPrimary (first :: rest)) eqn:H; [exact H|].
  reflexivity.
Qed.

(** X23. After the product's image hook a product with images has a
    primary one; the hook changes no url, touches nothing when a primary
    image exists already, and run again changes nothing.  For urls that
    are not empty, the image the cart routes then show for the product is
    a primary image of it. *)
Theorem saved_product_has_primary_image (p : Product.t) :
  let images := ensure_primary (Product.images p) in
  map Image.url images = map Image.url (Product.images p)
  /\ (existsb Image.isPrimary (Product.images p) = true ->
      images = Product.images p)
  /\ ensure_primary images = images
  /\ (Product.images p <> [] ->
      existsb Image.isPrimary images = true
      /\ ((forall img, In img (Product.images p) -> Image.url img <> ""%string) ->
          exists img,
            In img images /\ Image.isPrimary img = true
            /\ image_url (with_images p images) = Some (Image.url img))).
Proof.
  intros images. unfold images.
  split; [apply ensure_primary_urls|]. split; [|split].
  - intros H. destruct (Product.images p) as [|first rest]; [reflexivity|].
    unfold ensure_primary. by rewrite H.
  - apply ensure_primary_idem.
  - intros Hne.
    pose proof (ensure_primary_has_primary _ Hne) as Hex.
    split; [exact Hex|]. intros Hurls.
    destruct (existsb_find _ _ Hex) as (img & Hfind & Hin & Hprim).
    exists img. split; [exact Hin|]. split; [exact Hprim|].
    unfold image_url; simpl. rewrite Hfind.
    assert (Hu : Image.url img <> ""%string).
    { assert (Hm : In (Image.url img)
                     (map Image.url (ensure_primary (Product.images p))))
        by (by apply in_map).
      rewrite ensure_primary_urls in Hm.
      apply in_map_iff in Hm as (img0 & <- & Hin0). by apply Hurls. }
    apply String.eqb_neq in Hu. by rewrite Hu.
Qed.

Lemma saved_product_has_primary_image_witness :
  [Image.mk "/a.png" false; Image.mk "/b.png" false] <> []
  /\ ensure_primary [Image.mk "/a.png" false; Image.mk "/b.png" false]
     = [Image.mk "/a.png" true; Image.mk "/b.png" false]
  /\ existsb Image.isPrimary
       (ensure_primary [Image.mk "/a.png" false; Image.mk "/b.png" false])
     = true.
Proof.
  split; [discriminate|]. split; [reflexivity|].
  apply (proj2 (proj2 (proj2
           (saved_product_has_primary_image
              (with_images (rose 40 5)
                 [Image.mk "/a.png" false; Image.mk "/b.png" false]))))).
  discriminate.
Defined.

(** ** [middleware/auth] *)

Section Auth.

Variable verifyToken : string -> option string.
Variable users : gmap string User.t.

Lemma truthy_id_Some o s :
  truthy_id o = Some s <-> o = Some s /\ s <> ""%string.
Proof.
  unfold truthy_id. destruct o as [t|]; [|split; [discriminate | by intros [? ?]]].
  destruct (String.eqb t "") eqn:H.
  - apply String.eqb_eq in H. subst t. split; [discriminate|].
    by intros [[= <-] ?].
  - apply String.eqb_neq in H. split.
    + by intros [= <-].
    + by intros [[= <-] _].
Qed.

(** X24. [authenticate] resolves a request to a user exactly when the
    cookie holds a non-empty token that [verifyToken] accepts and the user
    it names is in the store; [requireAuth] lets the request through
    exactly then.  So the token of a user who has been removed from the
    store no longer opens a protected route. *)
Theorem authenticate_resolves_known_users (token : option string)
    (wants_json : bool) :
  (forall id u,
     authenticate verifyToken users token = Some (id, u)
     <-> exists t,
           token = Some t /\ t <> ""%string
           /\ verifyToken t = Some id /\ users !! id = Some u)
  /\ (requireAuth (fst <$> authenticate verifyToken users token) wants_json
      = None
      <-> is_Some (authenticate verifyToken users token))
  /\ (forall t id,
        token = Some t -> verifyToken t = Some id ->
        authenticate verifyToken (delete id users) token = None
        /\ requireAuth
             (fst <$> authenticate verifyToken (delete id users) token)
             wants_json
           <> None).
Proof.
  split; [|split].
  - intros id u. unfold authenticate. split.
    + destruct (truthy_id token) as [t|] eqn:Ht; [|discriminate].
      apply truthy_id_Some in Ht as [-> Hne].
      destruct (verifyToken t) as [id'|] eqn:Hv; [|discriminate].
      destruct (users !! id') as [u'|] eqn:Hu; [|discriminate].
      intros [= <- <-]. by exists t.
    + intros (t & -> & Hne & Hv & Hu).
      rewrite (proj2 (truthy_id_Some (Some t) t)) by done.
      by rewrite Hv, Hu.
  - destruct (authenticate verifyToken users token) as [[id u]|]; simpl.
    + split; [by eexists | reflexivity].
    + split; [by destruct wants_json | by intros [? ?]].
  - intros t id -> Hv.
    assert (E : authenticate verifyToken (delete id users) (Some t) = None).
    { unfold authenticate. destruct (truthy_id (Some t)) as [t'|] eqn:Ht;
        [|reflexivity].
      apply truthy_id_Some in Ht as [[= <-] _].
      by rewrite Hv, lookup_delete_eq. }
    rewrite E. split; [reflexivity|]. simpl. by destruct wants_json.
Qed.

(** X25. [requireAdmin] lets through exactly the users whose role is
    admin, and whoever it lets through [requireAuth] lets through; to a
    request without a user it gives the answer of [requireAuth], to a user
    of another role a 403; and the [isAdmin] flag that [optionalAuth]
    hands to the views is set exactly for the requests that
    [requireAdmin] lets through. *)
Theorem requireAdmin_passes_admins_only (user : Session)
    (token : option string) (wants_json : bool) :
  (requireAdmin user wants_json = Next
   <-> exists id u, user = Some (id, u) /\ User.role u = "admin"%string)
  /\ (requireAdmin user wants_json = Next ->
      requireAuth (fst <$> user) wants_json = None)
  /\ (user = None ->
      (requireAdmin user wants_json = Json401AuthenticationRequired
       /\ requireAuth (fst <$> user) wants_json
          = Some (mkResponse 401 (Msg AuthenticationRequired)))
      \/ (requireAdmin user wants_json = RedirectLogin
          /\ requireAuth (fst <$> user) wants_json
             = Some (mkResponse 302 (RedirectTo "/auth/login"))))
  /\ (forall id u,
        user = Some (id, u) -> User.role u <> "admin"%string ->
        requireAdmin user wants_json
        = if wants_json then Json403AdminAccessRequired
          else Render403AccessDenied)
  /\ (isAdmin (optionalAuth verifyToken users token) = true
      <-> requireAdmin (authenticate verifyToken users token) wants_json
          = Next)
  /\ (isAuthenticated (optionalAuth verifyToken users token) = true
      <-> requireAuth (fst <$> authenticate verifyToken users token)
            wants_json
          = None).
Proof.
  assert (Hadmin : forall s : Session,
            requireAdmin s wants_json = Next
            <-> exists id u, s = Some (id, u)
                             /\ User.role u = "admin"%string).
  { intros [[id u]|]; simpl.
    - destruct (String.eqb (User.role u) "admin") eqn:Hr; simpl.
      + apply String.eqb_eq in Hr. split; [eauto | reflexivity].
      + apply String.eqb_neq in Hr. split.
        * by destruct wants_json.
        * intros (id' & u' & [= <- <-] & Hr'). done.
    - split; [by destruct wants_json | by intros (? & ? & ? & _)]. }
  split; [apply Hadmin|]. split; [|split; [|split; [|split]]].
  - intros H. apply Hadmin in H as (id & u & -> & _). reflexivity.
  - intros ->. simpl. destruct wants_json; [left | right]; by split.
  - intros id u -> Hr. simpl. apply String.eqb_neq in Hr. by rewrite Hr.
  - rewrite Hadmin. unfold optionalAuth; simpl.
    destruct (authenticate verifyToken users token) as [[id u]|].
    + rewrite String.eqb_eq. split; [eauto|].
      by intros (id' & u' & [= <- <-] & Hr).
    + split; [discriminate | by intros (? & ? & ? & _)].
  - unfold optionalAuth; simpl.
    destruct (authenticate verifyToken users token) as [[id u]|]; simpl.
    + split; intros _; reflexivity.
    + split; [discriminate | by destruct wants_json].
Qed.

End Auth.

(** ** POST /cart/verify-payment, replayed *)

Section VerifyReplay.

Variable isMongoId : string -> bool.
Variable hmac_sha256_hex : string -> string -> string.
Variable keySecret : string.

Abbreviation verify3 :=
  (verify_payment isMongoId hmac_sha256_hex keySecret).

(** X22. The verification route keeps no record of what it has verified:
    the owner's valid request posted a second time is answered 200 again
    and, the stock covering the order each time, takes the order's
    quantities from the stock a second time. *)
Theorem verify_payment_replay_decrements_again (req : VerifyRequest)
    (db : Db) (order : Order.t) :
  req_user req = Some (Order.user order) ->
  verify_chains isMongoId req = [] ->
  razorpay_signature req
  = expected_signature hmac_sha256_hex keySecret req ->
  orders db !! orderId req = Some order ->
  quantities_positive (Order.items order) ->
  covers (products db) (Order.items order) ->
  covers (products (snd (verify3 req db))) (Order.items order) ->
  code (fst (verify3 req db)) = 200
  /\ code (fst (verify3 req (snd (verify3 req db)))) = 200
  /\ forall k,
       stock_at (products (snd (verify3 req (snd (verify3 req db))))) k
       = (fun s => s - 2 * ordered_qty (Order.items order) k)
           <$> stock_at (products db) k.
Proof.
  intros Hu Hc Hs Ho Hq Hcov.
  destruct (capture_items_covered _ _ Hq Hcov) as (products1 & Hrun1 & Hs1).
  rewrite (verify_checked _ _ _ req db _ Hu Hc Hs), Ho.
  rewrite bool_decide_eq_true_2 by reflexivity. simpl.
  rewrite (verify_items_covered _ _ Hq Hcov), Hrun1. simpl.
  intros Hcov2. split; [reflexivity|].
  rewrite (verify_checked _ _ _ req _ _ Hu Hc Hs). simpl.
  rewrite lookup_insert_eq. simpl.
  rewrite bool_decide_eq_true_2 by reflexivity. simpl.
  rewrite (verify_items_covered _ _ Hq Hcov2).
  destruct (capture_items_covered _ _ Hq Hcov2) as (products2 & Hrun2 & Hs2).
  rewrite Hrun2. simpl. split; [reflexivity|].
  intros k. rewrite Hs2, Hs1.
  destruct (stock_at (products db) k); simpl; [f_equal; lia | done].
Qed.

End VerifyReplay.

Lemma verify_payment_replay_decrements_again_witness :
  covers (products (shop 2 5)) (Order.items (rose_order 2))
  /\ stock_at
       (products
          (snd (verify_payment hex24 sample_hmac "key" alice_request
                  (snd (verify_payment hex24 sample_hmac "key" alice_request
                          (shop 2 5))))))
       rose_key
     = Some 1.
Proof.
  assert (H1 : covers (products (shop 2 5)) (Order.items (rose_order 2)))
    by (apply shop_covers; lia).
  split; [exact H1|].
  destruct (verify_payment_replay_decrements_again hex24 sample_hmac "key"
              alice_request (shop 2 5) (rose_order 2))
    as (_ & _ & Hk).
  - reflexivity.
  - vm_compute. reflexivity.
  - vm_compute. reflexivity.
  - vm_compute. reflexivity.
  - apply shop_quantities. lia.
  - exact H1.
  - assert (E : products (snd (verify_payment hex24 sample_hmac "key"
                                 alice_request (shop 2 5)))
                = catalog 40 3) by (vm_compute; reflexivity).
    rewrite E. apply shop_covers; lia.
  - refine (eq_trans (Hk rose_key) _). vm_compute. reflexivity.
Defined.
